(** * ShipTrack API: shipment lifecycle, authorization and accounts

    A shallow embedding of the service layer of the shipment API
    ([services/shipment.service.js], [services/user.service.js],
    [services/base.service.js]) together with the parts of the Mongoose
    models they rely on ([models/Shipment.js], [models/User.js]), the
    enums and the error class; then the virtuals and the tracking-number
    generator of the shipment model, its listing and statistics, the
    authentication and authorization middlewares, the file name of an
    upload and the pagination block of an answer.

    Conventions of the embedding.
    - A MongoDB collection of shipments is a finite map from [_id] to the
      stored document; the collection of users is a list in insertion
      order, [findOne] returning the first match.
    - An [async] service method is a function from the database to a
      result and a database: a thrown error leaves whatever writes were
      already made.
    - [new Date()], [Date.now()], freshly generated ObjectIds, the random
      tracking number and the bcrypt salt are read from an environment
      record; all clock reads of one request return the same instant.
    - bcrypt and jsonwebtoken are opaque collaborators.
    - Of a listing, the case-insensitive regular-expression test and the
      order MongoDB sorts in are parameters; the properties of listings
      only assume that sorting permutes the documents found.
    - Strings are sequences of ASCII characters.
    - Joi request validation and Mongoose field validators (lengths,
      required, regular expressions) run before the code modelled here and
      are outside the embedding; setters, defaults, unique indexes and
      [pre('save')] hooks are inside. *)

From Stdlib Require QArith.
From Stdlib Require Import Ascii String.
From stdpp Require Import gmap strings list fin_maps.

Open Scope string_scope.
Open Scope list_scope.

(** ** JavaScript strings *)

Module JsString.

Definition isUpper (c : ascii) : bool :=
  let n := Ascii.nat_of_ascii c in (65 <=? n)%nat && (n <=? 90)%nat.

Definition isLower (c : ascii) : bool :=
  let n := Ascii.nat_of_ascii c in (97 <=? n)%nat && (n <=? 122)%nat.

Definition lowerChar (c : ascii) : ascii :=
  if isUpper c then Ascii.ascii_of_nat (Ascii.nat_of_ascii c + 32) else c.

Definition upperChar (c : ascii) : ascii :=
  if isLower c then Ascii.ascii_of_nat (Ascii.nat_of_ascii c - 32) else c.

(** [String.prototype.toLowerCase] / [toUpperCase] on ASCII text. *)
Fixpoint toLowerCase (s : string) : string :=
  match s with
  | EmptyString => EmptyString
  | String c r => String (lowerChar c) (toLowerCase r)
  end.

Fixpoint toUpperCase (s : string) : string :=
  match s with
  | EmptyString => EmptyString
  | String c r => String (upperChar c) (toUpperCase r)
  end.

(** White space removed by [String.prototype.trim] (ASCII part). *)
Definition isSpace (c : ascii) : bool :=
  let n := Ascii.nat_of_ascii c in
  (n =? 32)%nat || ((9 <=? n)%nat && (n <=? 13)%nat).

Fixpoint trimStart (s : string) : string :=
  match s with
  | EmptyString => EmptyString
  | String c r => if isSpace c then trimStart r else s
  end.

Fixpoint trimEnd (s : string) : string :=
  match s with
  | EmptyString => EmptyString
  | String c r =>
      match trimEnd r with
      | EmptyString => if isSpace c then EmptyString else String c EmptyString
      | r' => String c r'
      end
  end.

Definition trim (s : string) : string := trimEnd (trimStart s).

(** Truthiness of a string value: only the empty string is falsy. *)
Definition truthy (s : string) : bool :=
  match s with EmptyString => false | _ => true end.

(** [s.split(' ')], dropping empty pieces, as Mongoose reads a
    space-separated list of paths. *)
Fixpoint splitSpaces (acc s : string) : list string :=
  match s with
  | EmptyString => if truthy acc then [acc] else []
  | String c r =>
      if Ascii.eqb c " "%char
      then (if truthy acc then [acc] else []) ++ splitSpaces EmptyString r
      else splitSpaces (acc +:+ String c EmptyString) r
  end.

Definition words (s : string) : list string := splitSpaces EmptyString s.

End JsString.

(** ** utils/enums.js *)

Inductive SHIPMENT_STATUS := PENDING | IN_TRANSIT | DELIVERED | CANCELLED.

Inductive USER_ROLES := ADMIN | USER | MANAGER.

#[global] Instance SHIPMENT_STATUS_eq_dec : EqDecision SHIPMENT_STATUS.
Proof. solve_decision. Defined.

#[global] Instance USER_ROLES_eq_dec : EqDecision USER_ROLES.
Proof. solve_decision. Defined.

(** The string value of each enum member. *)
Definition statusValue (s : SHIPMENT_STATUS) : string :=
  match s with
  | PENDING => "pending"
  | IN_TRANSIT => "in_transit"
  | DELIVERED => "delivered"
  | CANCELLED => "cancelled"
  end.

Definition roleValue (r : USER_ROLES) : string :=
  match r with ADMIN => "admin" | USER => "user" | MANAGER => "manager" end.

(** ** utils/httpError.js and the errors a request can end with *)

Inductive Error :=
| HttpError (message : string) (statusCode : Z)
| MongoDuplicateKey (field : string)       (* MongoServerError, code 11000 *)
| TypeError (message : string).

Module HttpErr.
Definition badRequest (message : string) : Error := HttpError message 400.
Definition unauthorized (message : string) : Error := HttpError message 401.
Definition forbidden (message : string) : Error := HttpError message 403.
Definition notFound (message : string) : Error := HttpError message 404.
Definition conflict (message : string) : Error := HttpError message 409.
End HttpErr.

(** The status code the global [errorHandler] answers with. *)
Definition errorHandler (e : Error) : Z :=
  match e with
  | MongoDuplicateKey _ => 409
  | HttpError _ statusCode => statusCode
  | TypeError _ => 500
  end.

Inductive Result (A : Type) :=
| Ok (a : A)
| Throw (e : Error).
Arguments Ok {A} a.
Arguments Throw {A} e.

Definition isOk {A} (r : Result A) : bool :=
  match r with Ok _ => true | Throw _ => false end.

(** ** Scalars of the data model *)

Abbreviation ObjectId := string (only parsing).
Abbreviation Date := Z (only parsing).      (* milliseconds since the epoch *)
Abbreviation Number := QArith_base.Q (only parsing).

(** What a request reads from its surroundings. *)
Record Env := {
  now : Date;                         (* new Date() / Date.now() *)
  newObjectId : ObjectId;             (* _id of the document being created *)
  newSubdocId : nat -> ObjectId;      (* _id of the i-th pushed attachment *)
  generatedTrackingNumber : string;   (* generateTrackingNumber() *)
  salt : string                       (* bcrypt.genSalt(12) *)
}.

(** ** models/Shipment.js *)

Module ShipmentModel.

Record Attachment := {
  att_id : ObjectId;
  filename : string;
  originalName : string;
  path : string;
  mimetype : string;
  size : Z;
  uploadedAt : Date
}.

(** An attachment as the upload middleware describes it, before it is
    pushed on a document. *)
Record AttachmentInfo := {
  info_filename : string;
  info_originalName : string;
  info_path : string;
  info_mimetype : string;
  info_size : Z
}.

Record StatusHistoryEntry := {
  entry_status : SHIPMENT_STATUS;
  changedAt : Date;
  changedBy : ObjectId;
  notes : option string
}.

(** A stored shipment; its [_id] is the key it is stored under. *)
Record Shipment := {
  trackingNumber : string;
  senderName : string;
  receiverName : string;
  origin : string;
  destination : string;
  status : SHIPMENT_STATUS;
  weight : option Number;
  description : option string;
  estimatedDelivery : option Date;
  actualDelivery : option Date;
  attachments : list Attachment;
  statusHistory : list StatusHistoryEntry;
  createdBy : ObjectId;
  updatedBy : option ObjectId;
  createdAt : Date;
  updatedAt : Date
}.

(** A hydrated Mongoose document: its [_id], the current field values,
    whether it is yet to be stored, and the paths marked modified since
    it was loaded. *)
Record Document := {
  doc_id : ObjectId;
  doc : Shipment;
  isNew : bool;
  modifiedPaths : list string
}.

Definition isModified (path : string) (d : Document) : bool :=
  bool_decide (path ∈ modifiedPaths d).

(** [assign path changed s' d] stores the field values [s'] and marks
    [path] modified when [changed] holds or the document is new;
    Mongoose leaves a document alone when the assigned value equals the
    current one. *)
Definition assign (path : string) (changed : bool) (s' : Shipment)
    (d : Document) : Document :=
  if changed || isNew d
  then {| doc_id := doc_id d; doc := s'; isNew := isNew d;
          modifiedPaths := path :: modifiedPaths d |}
  else d.

Definition withStatus (v : SHIPMENT_STATUS) (s : Shipment) : Shipment :=
  {| trackingNumber := trackingNumber s;
     senderName := senderName s; receiverName := receiverName s;
     origin := origin s; destination := destination s;
     status := v;
     weight := weight s; description := description s;
     estimatedDelivery := estimatedDelivery s;
     actualDelivery := actualDelivery s; attachments := attachments s;
     statusHistory := statusHistory s; createdBy := createdBy s;
     updatedBy := updatedBy s; createdAt := createdAt s;
     updatedAt := updatedAt s |}.

Definition withUpdatedBy (v : option ObjectId) (s : Shipment) : Shipment :=
  {| trackingNumber := trackingNumber s;
     senderName := senderName s; receiverName := receiverName s;
     origin := origin s; destination := destination s;
     status := status s;
     weight := weight s; description := description s;
     estimatedDelivery := estimatedDelivery s;
     actualDelivery := actualDelivery s; attachments := attachments s;
     statusHistory := statusHistory s; createdBy := createdBy s;
     updatedBy := v; createdAt := createdAt s;
     updatedAt := updatedAt s |}.

Definition withStatusHistory (v : list StatusHistoryEntry) (s : Shipment)
    : Shipment :=
  {| trackingNumber := trackingNumber s;
     senderName := senderName s; receiverName := receiverName s;
     origin := origin s; destination := destination s;
     status := status s;
     weight := weight s; description := description s;
     estimatedDelivery := estimatedDelivery s;
     actualDelivery := actualDelivery s; attachments := attachments s;
     statusHistory := v; createdBy := createdBy s;
     updatedBy := updatedBy s; createdAt := createdAt s;
     updatedAt := updatedAt s |}.

Definition withActualDelivery (v : option Date) (s : Shipment) : Shipment :=
  {| trackingNumber := trackingNumber s;
     senderName := senderName s; receiverName := receiverName s;
     origin := origin s; destination := destination s;
     status := status s;
     weight := weight s; description := description s;
     estimatedDelivery := estimatedDelivery s;
     actualDelivery := v; attachments := attachments s;
     statusHistory := statusHistory s; createdBy := createdBy s;
     updatedBy := updatedBy s; createdAt := createdAt s;
     updatedAt := updatedAt s |}.

Definition withAttachments (v : list Attachment) (s : Shipment) : Shipment :=
  {| trackingNumber := trackingNumber s;
     senderName := senderName s; receiverName := receiverName s;
     origin := origin s; destination := destination s;
     status := status s;
     weight := weight s; description := description s;
     estimatedDelivery := estimatedDelivery s;
     actualDelivery := actualDelivery s; attachments := v;
     statusHistory := statusHistory s; createdBy := createdBy s;
     updatedBy := updatedBy s; createdAt := createdAt s;
     updatedAt := updatedAt s |}.

Definition withTrackingNumber (v : string) (s : Shipment) : Shipment :=
  {| trackingNumber := v;
     senderName := senderName s; receiverName := receiverName s;
     origin := origin s; destination := destination s;
     status := status s;
     weight := weight s; description := description s;
     estimatedDelivery := estimatedDelivery s;
     actualDelivery := actualDelivery s; attachments := attachments s;
     statusHistory := statusHistory s; createdBy := createdBy s;
     updatedBy := updatedBy s; createdAt := createdAt s;
     updatedAt := updatedAt s |}.

Definition withTimestamps (c u : Date) (s : Shipment) : Shipment :=
  {| trackingNumber := trackingNumber s;
     senderName := senderName s; receiverName := receiverName s;
     origin := origin s; destination := destination s;
     status := status s;
     weight := weight s; description := description s;
     estimatedDelivery := estimatedDelivery s;
     actualDelivery := actualDelivery s; attachments := attachments s;
     statusHistory := statusHistory s; createdBy := createdBy s;
     updatedBy := updatedBy s; createdAt := c;
     updatedAt := u |}.

(** The scalar paths a generic update may assign. *)
Definition withDetails (sn rn o dst : string) (w : option Number)
    (de : option string) (ed : option Date) (s : Shipment) : Shipment :=
  {| trackingNumber := trackingNumber s;
     senderName := sn; receiverName := rn;
     origin := o; destination := dst;
     status := status s;
     weight := w; description := de;
     estimatedDelivery := ed;
     actualDelivery := actualDelivery s; attachments := attachments s;
     statusHistory := statusHistory s; createdBy := createdBy s;
     updatedBy := updatedBy s; createdAt := createdAt s;
     updatedAt := updatedAt s |}.

(** *** Property assignment on a document (with the schema setters) *)

Definition set_status (v : SHIPMENT_STATUS) (d : Document) : Document :=
  assign "status" (negb (bool_decide (status (doc d) = v)))
    (withStatus v (doc d)) d.

Definition set_updatedBy (v : ObjectId) (d : Document) : Document :=
  assign "updatedBy" (negb (bool_decide (updatedBy (doc d) = Some v)))
    (withUpdatedBy (Some v) (doc d)) d.

Definition set_actualDelivery (v : Date) (d : Document) : Document :=
  assign "actualDelivery"
    (negb (bool_decide (actualDelivery (doc d) = Some v)))
    (withActualDelivery (Some v) (doc d)) d.

(** [uppercase: true] *)
Definition set_trackingNumber (v : string) (d : Document) : Document :=
  let v := JsString.toUpperCase v in
  assign "trackingNumber" (negb (bool_decide (trackingNumber (doc d) = v)))
    (withTrackingNumber v (doc d)) d.

(** [this.statusHistory.push(entry)] *)
Definition push_statusHistory (e : StatusHistoryEntry) (d : Document)
    : Document :=
  assign "statusHistory" true
    (withStatusHistory (statusHistory (doc d) ++ [e]) (doc d)) d.

Definition mkAttachment (id : ObjectId) (at_ : Date) (a : AttachmentInfo)
    : Attachment :=
  {| att_id := id; filename := info_filename a;
     originalName := info_originalName a; path := info_path a;
     mimetype := info_mimetype a; size := info_size a;
     uploadedAt := at_ |}.

(** [this.attachments.push(info)]: the sub-document gets an [_id] and the
    default [uploadedAt: Date.now]. *)
Definition push_attachment (e : Env) (a : AttachmentInfo) (d : Document)
    : Document :=
  assign "attachments" true
    (withAttachments
       (attachments (doc d) ++ [mkAttachment (newSubdocId e 0) (now e) a])
       (doc d)) d.

(** [this.attachments.splice(i, 1)] *)
Definition splice_attachment (i : nat) (d : Document) : Document :=
  assign "attachments" true
    (withAttachments (delete i (attachments (doc d))) (doc d)) d.

(** Scalar paths; the string paths carry [trim: true]. *)
Definition set_senderName (v : string) (d : Document) : Document :=
  let v := JsString.trim v in
  let s := doc d in
  assign "senderName" (negb (bool_decide (senderName s = v)))
    (withDetails v (receiverName s) (origin s) (destination s) (weight s)
       (description s) (estimatedDelivery s) s) d.

Definition set_receiverName (v : string) (d : Document) : Document :=
  let v := JsString.trim v in
  let s := doc d in
  assign "receiverName" (negb (bool_decide (receiverName s = v)))
    (withDetails (senderName s) v (origin s) (destination s) (weight s)
       (description s) (estimatedDelivery s) s) d.

Definition set_origin (v : string) (d : Document) : Document :=
  let v := JsString.trim v in
  let s := doc d in
  assign "origin" (negb (bool_decide (origin s = v)))
    (withDetails (senderName s) (receiverName s) v (destination s)
       (weight s) (description s) (estimatedDelivery s) s) d.

Definition set_destination (v : string) (d : Document) : Document :=
  let v := JsString.trim v in
  let s := doc d in
  assign "destination" (negb (bool_decide (destination s = v)))
    (withDetails (senderName s) (receiverName s) (origin s) v (weight s)
       (description s) (estimatedDelivery s) s) d.

Definition set_weight (v : Number) (d : Document) : Document :=
  let s := doc d in
  assign "weight"
    (match weight s with
     | Some w => negb (QArith_base.Qeq_bool w v)
     | None => true
     end)
    (withDetails (senderName s) (receiverName s) (origin s) (destination s)
       (Some v) (description s) (estimatedDelivery s) s) d.

Definition set_description (v : string) (d : Document) : Document :=
  let v := JsString.trim v in
  let s := doc d in
  assign "description" (negb (bool_decide (description s = Some v)))
    (withDetails (senderName s) (receiverName s) (origin s) (destination s)
       (weight s) (Some v) (estimatedDelivery s) s) d.

Definition set_estimatedDelivery (v : Date) (d : Document) : Document :=
  let s := doc d in
  assign "estimatedDelivery"
    (negb (bool_decide (estimatedDelivery s = Some v)))
    (withDetails (senderName s) (receiverName s) (origin s) (destination s)
       (weight s) (description s) (Some v) s) d.

(** Assign a property only when the source object has it. *)
Definition setIfPresent {A} (f : A -> Document -> Document) (o : option A)
    (d : Document) : Document :=
  match o with Some v => f v d | None => d end.

(** *** pre('save') hooks *)

(** Generate tracking number if not provided. *)
Definition preSaveTrackingNumber (e : Env) (d : Document) : Document :=
  if negb (JsString.truthy (trackingNumber (doc d)))
  then set_trackingNumber (generatedTrackingNumber e) d
  else d.

(** Add status to history when status changes. *)
Definition preSaveStatus (e : Env) (d : Document) : Document :=
  if isModified "status" d then
    let d1 :=
      push_statusHistory
        {| entry_status := status (doc d);
           changedAt := now e;
           changedBy := default (createdBy (doc d)) (updatedBy (doc d));
           notes := None |} d in
    if bool_decide (status (doc d1) = DELIVERED)
       && negb (bool_decide (is_Some (actualDelivery (doc d1))))
    then set_actualDelivery (now e) d1
    else d1
  else d.

(** [timestamps: true] *)
Definition preSaveTimestamps (e : Env) (d : Document) : Document :=
  if isNew d then
    {| doc_id := doc_id d;
       doc := withTimestamps (now e) (now e) (doc d); isNew := true;
       modifiedPaths := modifiedPaths d |}
  else if bool_decide (modifiedPaths d = []) then d
  else
    {| doc_id := doc_id d;
       doc := withTimestamps (createdAt (doc d)) (now e) (doc d);
       isNew := false; modifiedPaths := modifiedPaths d |}.

Definition preSave (e : Env) (d : Document) : Document :=
  preSaveStatus e (preSaveTrackingNumber e (preSaveTimestamps e d)).

End ShipmentModel.

(** ** models/User.js *)

(** bcryptjs and jsonwebtoken, used as black boxes. *)
Record Collaborators := {
  bcrypt_hash : string -> string -> string;       (* hash(password, salt) *)
  bcrypt_compare : string -> string -> bool;      (* compare(candidate, hash) *)
  jwt_sign : ObjectId -> string -> USER_ROLES -> string
}.

Module UserModel.

Record User := {
  _id : ObjectId;
  name : string;
  email : string;
  password : string;
  role : USER_ROLES;
  isActive : bool;
  lastLogin : option Date;
  avatar : option string;
  createdAt : Date;
  updatedAt : Date
}.

(** [toJSON]: the transform deletes [password]. *)
Record UserJSON := {
  json_id : ObjectId;
  json_name : string;
  json_email : string;
  json_role : USER_ROLES;
  json_isActive : bool;
  json_lastLogin : option Date;
  json_avatar : option string;
  json_createdAt : Date;
  json_updatedAt : Date
}.

Definition toJSON (u : User) : UserJSON :=
  {| json_id := _id u; json_name := name u; json_email := email u;
     json_role := role u; json_isActive := isActive u;
     json_lastLogin := lastLogin u; json_avatar := avatar u;
     json_createdAt := createdAt u; json_updatedAt := updatedAt u |}.

(** Setters of the [email] path: [lowercase: true, trim: true].  Mongoose
    runs the setters of a path on a value assigned to a document and on a
    value used in a query condition. *)
Definition emailSetter (v : string) : string :=
  JsString.trim (JsString.toLowerCase v).

Definition withIsActive (v : bool) (u : User) : User :=
  {| _id := _id u; name := name u; email := email u;
     password := password u; role := role u; isActive := v;
     lastLogin := lastLogin u; avatar := avatar u;
     createdAt := createdAt u; updatedAt := updatedAt u |}.

Definition withRole (v : USER_ROLES) (u : User) : User :=
  {| _id := _id u; name := name u; email := email u;
     password := password u; role := v; isActive := isActive u;
     lastLogin := lastLogin u; avatar := avatar u;
     createdAt := createdAt u; updatedAt := updatedAt u |}.

Definition withLastLogin (v : Date) (u : User) : User :=
  {| _id := _id u; name := name u; email := email u;
     password := password u; role := role u; isActive := isActive u;
     lastLogin := Some v; avatar := avatar u;
     createdAt := createdAt u; updatedAt := updatedAt u |}.

Definition withPassword (v : string) (u : User) : User :=
  {| _id := _id u; name := name u; email := email u;
     password := v; role := role u; isActive := isActive u;
     lastLogin := lastLogin u; avatar := avatar u;
     createdAt := createdAt u; updatedAt := updatedAt u |}.

Definition withUpdatedAt (v : Date) (u : User) : User :=
  {| _id := _id u; name := name u; email := email u;
     password := password u; role := role u; isActive := isActive u;
     lastLogin := lastLogin u; avatar := avatar u;
     createdAt := createdAt u; updatedAt := v |}.

(** [userSchema.methods.comparePassword] *)
Definition comparePassword (K : Collaborators) (u : User)
    (candidatePassword : string) : bool :=
  bcrypt_compare K candidatePassword (password u).

(** [userSchema.methods.generateAuthToken] *)
Definition generateAuthToken (K : Collaborators) (u : User) : string :=
  jwt_sign K (_id u) (email u) (role u).

(** Hash password before saving: only if [password] is modified. *)
Definition preSavePassword (K : Collaborators) (e : Env)
    (passwordModified : bool) (u : User) : User :=
  if negb passwordModified then u
  else withPassword (bcrypt_hash K (password u) (salt e)) u.

(** [Model.findOne({ email })] on the collection. *)
Definition findOneByEmail (v : string) (us : list User) : option User :=
  snd <$> list_find (fun u => email u = emailSetter v) us.

(** [userSchema.statics.findByEmail] *)
Definition findByEmail (v : string) (us : list User) : option User :=
  findOneByEmail (JsString.toLowerCase v) us.

Definition lookupById (id : ObjectId) (us : list User)
    : option (nat * User) :=
  list_find (fun u => _id u = id) us.

End UserModel.

(** ** The database and the effect of a service call *)

Record Db := {
  users : list UserModel.User;
  shipments : gmap ObjectId ShipmentModel.Shipment
}.

Definition withUsers (us : list UserModel.User) (db : Db) : Db :=
  {| users := us; shipments := shipments db |}.

Definition withShipments (ss : gmap ObjectId ShipmentModel.Shipment)
    (db : Db) : Db :=
  {| users := users db; shipments := ss |}.

Definition Async (A : Type) : Type := Db -> Result A * Db.

#[global] Instance Async_ret : MRet Async :=
  fun A a db => (Ok a, db).

#[global] Instance Async_bind : MBind Async :=
  fun A B f m db =>
    match m db with
    | (Ok a, db') => f a db'
    | (Throw e, db') => (Throw e, db')
    end.

Definition throw {A} (e : Error) : Async A := fun db => (Throw e, db).
Definition getDb : Async Db := fun db => (Ok db, db).
Definition putDb (db' : Db) : Async unit := fun _ => (Ok tt, db').

(** ** Plain objects, for projections of a document *)

#[warnings="-register-all"]
Inductive Value :=
| VString (s : string)
| VNumber (n : Number)
| VInt (z : Z)
| VDate (d : Date)
| VObjectId (o : ObjectId)
| VArray (items : list Value)
| VObject (fields : list (string * Value)).

Definition optField {A} (key : string) (f : A -> Value) (o : option A)
    : list (string * Value) :=
  match o with Some a => [(key, f a)] | None => [] end.

Definition keys (fields : list (string * Value)) : list string :=
  fst <$> fields.

Definition getField (key : string) (fields : list (string * Value))
    : option Value :=
  (fun p => snd (snd p)) <$> list_find (fun kv => fst kv = key) fields.

(** Does the ObjectId [o] occur anywhere inside the value? *)
Fixpoint mentionsId (o : ObjectId) (v : Value) : bool :=
  match v with
  | VObjectId o' => bool_decide (o' = o)
  | VArray items => existsb (mentionsId o) items
  | VObject fields => existsb (fun kv => mentionsId o (snd kv)) fields
  | _ => false
  end.

Module ShipmentStatics.
Import ShipmentModel.

Definition attachmentToObject (a : Attachment) : Value :=
  VObject [("_id", VObjectId (att_id a));
           ("filename", VString (filename a));
           ("originalName", VString (originalName a));
           ("path", VString (path a));
           ("mimetype", VString (mimetype a));
           ("size", VInt (size a));
           ("uploadedAt", VDate (uploadedAt a))].

Definition entryToObject (h : StatusHistoryEntry) : Value :=
  VObject ([("status", VString (statusValue (entry_status h)));
            ("changedAt", VDate (changedAt h));
            ("changedBy", VObjectId (changedBy h))]
           ++ optField "notes" VString (notes h)).

(** The stored document as a plain object, one key per schema path that
    has a value. *)
Definition toObject (id : ObjectId) (s : Shipment)
    : list (string * Value) :=
  [("_id", VObjectId id);
   ("trackingNumber", VString (trackingNumber s));
   ("senderName", VString (senderName s));
   ("receiverName", VString (receiverName s));
   ("origin", VString (origin s));
   ("destination", VString (destination s));
   ("status", VString (statusValue (status s)))]
  ++ optField "weight" VNumber (weight s)
  ++ optField "description" VString (description s)
  ++ optField "estimatedDelivery" VDate (estimatedDelivery s)
  ++ optField "actualDelivery" VDate (actualDelivery s)
  ++ [("attachments", VArray (attachmentToObject <$> attachments s));
      ("statusHistory", VArray (entryToObject <$> statusHistory s));
      ("createdBy", VObjectId (createdBy s))]
  ++ optField "updatedBy" VObjectId (updatedBy s)
  ++ [("createdAt", VDate (createdAt s));
      ("updatedAt", VDate (updatedAt s))].

(** [query.select("a b c")]: an inclusive projection keeps the listed
    paths and [_id]. *)
Definition select (paths : string) (fields : list (string * Value))
    : list (string * Value) :=
  filter (fun kv => fst kv = "_id" \/ fst kv ∈ JsString.words paths) fields.

(** [Model.findById(id)] *)
Definition findById (id : ObjectId) : Async (option Document) :=
  fun db =>
    (Ok ((fun s => {| doc_id := id; doc := s; isNew := false;
                      modifiedPaths := [] |})
           <$> shipments db !! id), db).

(** [Model.findOne({ trackingNumber })]; the query value goes through
    the [uppercase] setter of the path. *)
Definition findOneByTrackingNumber (v : string)
    : Async (option (ObjectId * Shipment)) :=
  fun db =>
    (Ok (snd <$>
           list_find
             (fun kv => trackingNumber (snd kv) = JsString.toUpperCase v)
             (map_to_list (shipments db))), db).

(** [shipmentSchema.statics.findByTrackingNumber] *)
Definition findByTrackingNumber (v : string)
    : Async (option (ObjectId * Shipment)) :=
  findOneByTrackingNumber (JsString.toUpperCase v).

(** Is the unique index on [trackingNumber] violated by storing [s]? *)
Definition trackingNumberTaken (id : ObjectId) (s : Shipment)
    (ss : gmap ObjectId Shipment) : bool :=
  existsb
    (fun kv => bool_decide (fst kv <> id)
               && bool_decide (trackingNumber (snd kv) = trackingNumber s))
    (map_to_list ss).

(** [document.save()]: run the hooks, then insert a new document or
    write the modified paths of a stored one; the unique index is
    checked when the indexed path is written. *)
Definition save (e : Env) (d : Document) : Async Document :=
  fun db =>
    let d' := preSave e d in
    let id := doc_id d' in
    let s := doc d' in
    let stored :=
      {| doc_id := id; doc := s; isNew := false; modifiedPaths := [] |} in
    if isNew d' then
      if bool_decide (is_Some (shipments db !! id))
      then (Throw (MongoDuplicateKey "_id"), db)
      else if trackingNumberTaken id s (shipments db)
      then (Throw (MongoDuplicateKey "trackingNumber"), db)
      else (Ok stored, withShipments (<[id := s]> (shipments db)) db)
    else if bool_decide (modifiedPaths d' = []) then (Ok stored, db)
    else if isModified "trackingNumber" d'
            && trackingNumberTaken id s (shipments db)
    then (Throw (MongoDuplicateKey "trackingNumber"), db)
    else (Ok stored, withShipments (<[id := s]> (shipments db)) db).

(** [Model.findByIdAndDelete(id)] *)
Definition findByIdAndDelete (id : ObjectId) : Async (option Shipment) :=
  fun db =>
    (Ok (shipments db !! id),
     withShipments (delete id (shipments db)) db).

(** The user a reference is populated with ([name email]); [None] when
    the referenced user does not exist. *)
Record PopulatedUser := {
  pop_id : ObjectId;
  pop_name : string;
  pop_email : string
}.

Definition populateUser (db : Db) (id : ObjectId) : option PopulatedUser :=
  (fun iu =>
     {| pop_id := UserModel._id (snd iu);
        pop_name := UserModel.name (snd iu);
        pop_email := UserModel.email (snd iu) |})
  <$> UserModel.lookupById id (users db).

(** A shipment with [createdBy] populated and, when asked for,
    [statusHistory.changedBy] as well. *)
Record Populated := {
  shipment_id : ObjectId;
  shipment : Shipment;
  populatedCreatedBy : option PopulatedUser;
  populatedChangedBy : option (list (option PopulatedUser))
}.

Definition populate (withHistory : bool) (id : ObjectId) (s : Shipment)
    : Async Populated :=
  fun db =>
    (Ok {| shipment_id := id;
           shipment := s;
           populatedCreatedBy := populateUser db (createdBy s);
           populatedChangedBy :=
             if withHistory
             then Some ((fun h => populateUser db (changedBy h))
                          <$> statusHistory s)
             else None |}, db).

Definition populateOpt (withHistory : bool) (o : option Document)
    : Async (option Populated) :=
  match o with
  | Some d => p ← populate withHistory (doc_id d) (doc d); mret (Some p)
  | None => mret None
  end.

End ShipmentStatics.

(** ** services/shipment.service.js *)

Module ShipmentService.
Import ShipmentModel ShipmentStatics.

(** The body of a create request, as the controller hands it over. *)
Record ShipmentData := {
  data_trackingNumber : option string;
  data_senderName : string;
  data_receiverName : string;
  data_origin : string;
  data_destination : string;
  data_status : option SHIPMENT_STATUS;
  data_weight : option Number;
  data_description : option string;
  data_estimatedDelivery : option Date;
  data_attachments : list AttachmentInfo
}.

Definition supplied {A} (path : string) (o : option A) : list string :=
  match o with Some _ => [path] | None => [] end.

(** [new Shipment(data)]: setters on the supplied values, defaults for
    the missing ones; the supplied paths are marked modified. *)
Definition newDocument (e : Env) (data : ShipmentData) (userId : ObjectId)
    (history : list StatusHistoryEntry) : Document :=
  {| doc_id := newObjectId e;
     doc :=
       {| trackingNumber :=
            match data_trackingNumber data with
            | Some t => JsString.toUpperCase t
            | None => generatedTrackingNumber e
            end;
          senderName := JsString.trim (data_senderName data);
          receiverName := JsString.trim (data_receiverName data);
          origin := JsString.trim (data_origin data);
          destination := JsString.trim (data_destination data);
          status := default PENDING (data_status data);
          weight := data_weight data;
          description := JsString.trim <$> data_description data;
          estimatedDelivery := data_estimatedDelivery data;
          actualDelivery := None;
          attachments :=
            imap (fun i a => mkAttachment (newSubdocId e i) (now e) a)
              (data_attachments data);
          statusHistory := history;
          createdBy := userId;
          updatedBy := None;
          createdAt := now e;
          updatedAt := now e |};
     isNew := true;
     modifiedPaths :=
       ["senderName"; "receiverName"; "origin"; "destination";
        "createdBy"; "statusHistory"]
       ++ supplied "trackingNumber" (data_trackingNumber data)
       ++ supplied "status" (data_status data)
       ++ supplied "weight" (data_weight data)
       ++ supplied "description" (data_description data)
       ++ supplied "estimatedDelivery" (data_estimatedDelivery data)
       ++ (match data_attachments data with
           | [] => [] | _ => ["attachments"] end) |}.

(** Create a new shipment *)
Definition createShipment (e : Env) (shipmentData : ShipmentData)
    (userId : ObjectId) : Async (option Populated) :=
  let history :=
    [ {| entry_status := default PENDING (data_status shipmentData);
         changedAt := now e;
         changedBy := userId;
         notes := None |} ] in
  shipment ← save e (newDocument e shipmentData userId history);
  found ← findById (doc_id shipment);
  populateOpt false found.

(** Get shipment by ID *)
Definition getShipmentById (id : ObjectId) (userId : option string)
    (isAdmin : bool) : Async Populated :=
  found ← findById id;
  match found with
  | None => throw (HttpErr.notFound "Shipment not found")
  | Some d =>
      shipment ← populate true (doc_id d) (doc d);
      (* Check authorization if not admin *)
      match userId with
      | Some uid =>
          if negb isAdmin && JsString.truthy uid then
            match populatedCreatedBy shipment with
            | None =>
                throw (TypeError
                  "Cannot read properties of null (reading '_id')")
            | Some owner =>
                if negb (bool_decide (pop_id owner = uid))
                then throw (HttpErr.forbidden
                              "You do not have access to this shipment")
                else mret shipment
            end
          else mret shipment
      | None => mret shipment
      end
  end.

(** Get shipment by tracking number *)
Definition getShipmentByTrackingNumber (trackingNumber : string)
    : Async Populated :=
  found ← findByTrackingNumber trackingNumber;
  match found with
  | None => throw (HttpErr.notFound "Shipment not found")
  | Some (id, s) => populate false id s
  end.

(** The body of an update request. *)
Record UpdateData := {
  upd_trackingNumber : option string;
  upd_createdBy : option ObjectId;
  upd_statusHistory : option (list StatusHistoryEntry);
  upd_senderName : option string;
  upd_receiverName : option string;
  upd_origin : option string;
  upd_destination : option string;
  upd_status : option SHIPMENT_STATUS;
  upd_weight : option Number;
  upd_description : option string;
  upd_estimatedDelivery : option Date
}.

(** [Object.assign(shipment, allowedUpdates)], where [allowedUpdates] is
    the request body without [trackingNumber], [createdBy] and
    [statusHistory], and with [updatedBy] added. *)
Definition assignAllowedUpdates (updateData : UpdateData)
    (userId : ObjectId) (d : Document) : Document :=
  let d := setIfPresent set_senderName (upd_senderName updateData) d in
  let d := setIfPresent set_receiverName (upd_receiverName updateData) d in
  let d := setIfPresent set_origin (upd_origin updateData) d in
  let d := setIfPresent set_destination (upd_destination updateData) d in
  let d := setIfPresent set_status (upd_status updateData) d in
  let d := setIfPresent set_weight (upd_weight updateData) d in
  let d := setIfPresent set_description (upd_description updateData) d in
  let d := setIfPresent set_estimatedDelivery
             (upd_estimatedDelivery updateData) d in
  set_updatedBy userId d.

(** Update shipment *)
Definition updateShipment (e : Env) (id : ObjectId)
    (updateData : UpdateData) (userId : ObjectId) (isAdmin : bool)
    : Async (option Populated) :=
  found ← findById id;
  match found with
  | None => throw (HttpErr.notFound "Shipment not found")
  | Some shipment =>
      (* Check authorization if not admin *)
      if negb isAdmin
         && negb (bool_decide (createdBy (doc shipment) = userId))
      then throw (HttpErr.forbidden
                    "You do not have access to this shipment")
      else
        (* Update the shipment *)
        let shipment := assignAllowedUpdates updateData userId shipment in
        _ ← save e shipment;
        found' ← findById id;
        populateOpt true found'
  end.

Definition validTransitions (s : SHIPMENT_STATUS) : list SHIPMENT_STATUS :=
  match s with
  | PENDING => [IN_TRANSIT; CANCELLED]
  | IN_TRANSIT => [DELIVERED; CANCELLED]
  | DELIVERED => []
  | CANCELLED => []
  end.

(** Validate status transition *)
Definition validateStatusTransition (currentStatus newStatus : SHIPMENT_STATUS)
    : Result unit :=
  if bool_decide (currentStatus = newStatus) then
    Ok tt (* No change needed *)
  else if negb (bool_decide (newStatus ∈ validTransitions currentStatus))
  then
    Throw (HttpErr.badRequest
             ("Cannot transition from " +:+ statusValue currentStatus
              +:+ " to " +:+ statusValue newStatus))
  else Ok tt.

Definition liftResult {A} (r : Result A) : Async A := fun db => (r, db).

(** Update shipment status *)
Definition updateStatus (e : Env) (id : ObjectId)
    (status : SHIPMENT_STATUS) (userId : ObjectId) (notes : option string)
    (isAdmin : bool) : Async (option Populated) :=
  let notes := default "" notes in
  found ← findById id;
  match found with
  | None => throw (HttpErr.notFound "Shipment not found")
  | Some shipment =>
      (* Check authorization if not admin *)
      if negb isAdmin
         && negb (bool_decide (createdBy (doc shipment) = userId))
      then throw (HttpErr.forbidden
                    "You do not have access to this shipment")
      else
        (* Validate status transition *)
        _ ← liftResult
              (validateStatusTransition
                 (ShipmentModel.status (doc shipment)) status);
        (* Update status *)
        let shipment := set_status status shipment in
        let shipment := set_updatedBy userId shipment in
        (* Add to status history with notes *)
        let shipment :=
          push_statusHistory
            {| entry_status := status;
               changedAt := now e;
               changedBy := userId;
               notes := Some notes |} shipment in
        _ ← save e shipment;
        found' ← findById id;
        populateOpt true found'
  end.

(** Delete shipment *)
Definition deleteShipment (id : ObjectId) (userId : ObjectId)
    (isAdmin : bool) : Async string :=
  found ← findById id;
  match found with
  | None => throw (HttpErr.notFound "Shipment not found")
  | Some shipment =>
      (* Check authorization if not admin *)
      if negb isAdmin
         && negb (bool_decide (createdBy (doc shipment) = userId))
      then throw (HttpErr.forbidden
                    "You do not have access to this shipment")
      (* Only allow deletion of pending or cancelled shipments *)
      else if negb isAdmin
              && negb (bool_decide (status (doc shipment) = PENDING))
              && negb (bool_decide (status (doc shipment) = CANCELLED))
      then throw (HttpErr.badRequest
                    "Can only delete pending or cancelled shipments")
      else
        _ ← findByIdAndDelete id;
        mret "Shipment deleted successfully"
  end.

(** Add attachment to shipment *)
Definition addAttachment (e : Env) (id : ObjectId)
    (attachment : AttachmentInfo) (userId : ObjectId) (isAdmin : bool)
    : Async Shipment :=
  found ← findById id;
  match found with
  | None => throw (HttpErr.notFound "Shipment not found")
  | Some shipment =>
      if negb isAdmin
         && negb (bool_decide (createdBy (doc shipment) = userId))
      then throw (HttpErr.forbidden
                    "You do not have access to this shipment")
      else
        let shipment := push_attachment e attachment shipment in
        let shipment := set_updatedBy userId shipment in
        saved ← save e shipment;
        mret (doc saved)
  end.

(** Remove attachment from shipment *)
Definition removeAttachment (e : Env) (id : ObjectId)
    (attachmentId : string) (userId : ObjectId) (isAdmin : bool)
    : Async Shipment :=
  found ← findById id;
  match found with
  | None => throw (HttpErr.notFound "Shipment not found")
  | Some shipment =>
      if negb isAdmin
         && negb (bool_decide (createdBy (doc shipment) = userId))
      then throw (HttpErr.forbidden
                    "You do not have access to this shipment")
      else
        match list_find (fun att => att_id att = attachmentId)
                (attachments (doc shipment)) with
        | None => throw (HttpErr.notFound "Attachment not found")
        | Some (attachmentIndex, _) =>
            let shipment := splice_attachment attachmentIndex shipment in
            let shipment := set_updatedBy userId shipment in
            saved ← save e shipment;
            mret (doc saved)
        end
  end.

Definition trackFields : string :=
  "trackingNumber senderName receiverName origin destination status statusHistory estimatedDelivery actualDelivery createdAt".

(** Track shipment (public endpoint) *)
Definition trackShipment (trackingNumber : string)
    : Async (list (string * Value)) :=
  found ← findByTrackingNumber trackingNumber;
  match found with
  | None => throw (HttpErr.notFound "Shipment not found")
  | Some (id, s) => mret (select trackFields (toObject id s))
  end.

End ShipmentService.

(** ** services/user.service.js (with the CRUD of services/base.service.js) *)

Module UserService.
Import UserModel.

Section WithCollaborators.
Context (K : Collaborators).

(** The body of a register request. *)
Record UserData := {
  data_name : string;
  data_email : string;
  data_password : string;
  data_role : option USER_ROLES
}.

(** [BaseService.create]: [new User(data).save()].  Setters and defaults
    first, then the password hook, then the insert under the unique
    indexes on [_id] and [email]. *)
Definition create (e : Env) (data : UserData) : Async User :=
  fun db =>
    let document :=
      {| _id := newObjectId e;
         name := JsString.trim (data_name data);
         email := emailSetter (data_email data);
         password := data_password data;
         role := default USER (data_role data);
         isActive := true;
         lastLogin := None;
         avatar := None;
         createdAt := now e;
         updatedAt := now e |} in
    let document := preSavePassword K e true document in
    if existsb (fun u => bool_decide (_id u = _id document)) (users db)
    then (Throw (MongoDuplicateKey "_id"), db)
    else if existsb (fun u => bool_decide (email u = email document))
              (users db)
    then (Throw (MongoDuplicateKey "email"), db)
    else (Ok document, withUsers (users db ++ [document]) db).

(** [document.save()] of a loaded user whose [password] is untouched:
    the stored document with the same [_id] is overwritten (the document
    was loaded from this collection, so the lookup finds it). *)
Definition save (e : Env) (modified : bool) (u : User) : Async User :=
  fun db =>
    if negb modified then (Ok u, db)
    else
      let u := withUpdatedAt (now e) (preSavePassword K e false u) in
      match lookupById (_id u) (users db) with
      | Some (i, _) => (Ok u, withUsers (<[i := u]> (users db)) db)
      | None => (Ok u, db)
      end.

(** [BaseService.updateById]: [findByIdAndUpdate(id, data, {new: true})];
    [change] is the effect of the update document on the stored one. *)
Definition updateById (e : Env) (id : ObjectId) (change : User -> User)
    : Async User :=
  fun db =>
    match lookupById id (users db) with
    | Some (i, u) =>
        let u' := withUpdatedAt (now e) (change u) in
        (Ok u', withUsers (<[i := u']> (users db)) db)
    | None => (Throw (HttpErr.notFound "User not found"), db)
    end.

(** [BaseService.deleteById] *)
Definition deleteById (id : ObjectId) : Async User :=
  fun db =>
    match lookupById id (users db) with
    | Some (i, u) => (Ok u, withUsers (delete i (users db)) db)
    | None => (Throw (HttpErr.notFound "User not found"), db)
    end.

Record Session := {
  user : UserJSON;
  token : string
}.

(** Register a new user *)
Definition register (e : Env) (userData : UserData) : Async Session :=
  (* Check if email already exists *)
  db ← getDb;
  match findByEmail (data_email userData) (users db) with
  | Some existingUser =>
      throw (HttpErr.conflict "Email already registered")
  | None =>
      (* Create user *)
      u ← create e userData;
      (* Generate token *)
      mret {| user := toJSON u; token := generateAuthToken K u |}
  end.

(** Login user *)
Definition login (e : Env) (email password : string) : Async Session :=
  (* Find user with password field *)
  db ← getDb;
  match findOneByEmail (JsString.toLowerCase email) (users db) with
  | None => throw (HttpErr.unauthorized "Invalid email or password")
  | Some u =>
      (* Check if user is active *)
      if negb (isActive u)
      then throw (HttpErr.forbidden "Account is deactivated")
      (* Verify password *)
      else if negb (comparePassword K u password)
      then throw (HttpErr.unauthorized "Invalid email or password")
      else
        (* Update last login *)
        let modified := negb (bool_decide (lastLogin u = Some (now e))) in
        u ← save e modified (withLastLogin (now e) u);
        (* Generate token *)
        mret {| user := toJSON u; token := generateAuthToken K u |}
  end.

(** Deactivate user (admin only) *)
Definition deactivateUser (e : Env) (userId : ObjectId) : Async User :=
  updateById e userId (withIsActive false).

(** Activate user (admin only) *)
Definition activateUser (e : Env) (userId : ObjectId) : Async User :=
  updateById e userId (withIsActive true).

(** Update user role (admin only) *)
Definition updateUserRole (e : Env) (userId : ObjectId)
    (r : USER_ROLES) : Async User :=
  updateById e userId (withRole r).

(** Delete user (admin only) *)
Definition deleteUser (userId : ObjectId) : Async User :=
  deleteById userId.

End WithCollaborators.

End UserService.

(** ** Notions used to state the properties *)

Module Lifecycle.
Import ShipmentModel ShipmentStatics ShipmentService.

(** The transition table as the specification words it:
    pending -> {in_transit, cancelled}, in_transit -> {delivered,
    cancelled}, delivered -> {}, cancelled -> {}. *)
Definition tableEdge (current requested : SHIPMENT_STATUS) : bool :=
  match current, requested with
  | PENDING, IN_TRANSIT | PENDING, CANCELLED => true
  | IN_TRANSIT, DELIVERED | IN_TRANSIT, CANCELLED => true
  | _, _ => false
  end.

(** The error an invalid transition is rejected with: a 400 whose
    message names the current and the requested status. *)
Definition rejection (current requested : SHIPMENT_STATUS) : Error :=
  HttpError ("Cannot transition from " +:+ statusValue current
             +:+ " to " +:+ statusValue requested) 400.

(** The access rule of the specification: admin, or the owner. *)
Definition canAccess (isAdmin : bool) (userId : ObjectId) (s : Shipment)
    : Prop :=
  isAdmin = true \/ createdBy s = userId.

Definition isTerminal (s : SHIPMENT_STATUS) : bool :=
  match s with DELIVERED | CANCELLED => true | _ => false end.

(** A document as [findById] hydrates it. *)
Definition hydrate (id : ObjectId) (s : Shipment) : Document :=
  {| doc_id := id; doc := s; isNew := false; modifiedPaths := [] |}.

Definition mark (b : bool) (path : string) : list string :=
  if b then [path] else [].

(** The entry the status hook pushes. *)
Definition hookEntry (e : Env) (s : Shipment) : StatusHistoryEntry :=
  {| entry_status := status s;
     changedAt := now e;
     changedBy := default (createdBy s) (updatedBy s);
     notes := None |}.

(** The field values the status hook leaves when it fires. *)
Definition afterStatusHook (e : Env) (s : Shipment) : Shipment :=
  let s1 := withStatusHistory (statusHistory s ++ [hookEntry e s]) s in
  if bool_decide (status s = DELIVERED)
     && negb (bool_decide (is_Some (actualDelivery s)))
  then withActualDelivery (Some (now e)) s1
  else s1.

(** The entry [updateStatus] pushes itself. *)
Definition serviceEntry (e : Env) (req : SHIPMENT_STATUS)
    (userId : ObjectId) (notes : option string) : StatusHistoryEntry :=
  {| entry_status := req; changedAt := now e; changedBy := userId;
     notes := Some (default "" notes) |}.

(** The document [updateStatus] hands to [save]. *)
Definition edited (e : Env) (id : ObjectId) (s : Shipment)
    (req : SHIPMENT_STATUS) (userId : ObjectId) (notes : option string)
    : Document :=
  push_statusHistory (serviceEntry e req userId notes)
    (set_updatedBy userId (set_status req (hydrate id s))).

(** The field values [updateStatus] stores for an accepted request. *)
Definition storedByUpdateStatus (e : Env) (s : Shipment)
    (req : SHIPMENT_STATUS) (userId : ObjectId) (notes : option string)
    : Shipment :=
  let s1 :=
    withTimestamps (createdAt s) (now e)
      (withStatusHistory
         (statusHistory s ++ [serviceEntry e req userId notes])
         (withUpdatedBy (Some userId) (withStatus req s))) in
  if bool_decide (status s = req) then s1 else afterStatusHook e s1.

(** The keys a public tracking answer may carry. *)
Definition publicKeys : list string :=
  ["_id"; "trackingNumber"; "senderName"; "receiverName"; "origin";
   "destination"; "status"; "statusHistory"; "estimatedDelivery";
   "actualDelivery"; "createdAt"].

End Lifecycle.

Module Accounts.
Import UserModel.

(** Stored emails are in the form the setters produce and no two of
    them agree up to letter case. *)
Definition emailsUnique (db : Db) : Prop :=
  Forall (fun u => JsString.toLowerCase (email u) = email u) (users db)
  /\ NoDup ((fun u => JsString.toLowerCase (email u)) <$> users db).

Definition idsUnique (db : Db) : Prop :=
  NoDup (_id <$> users db).

End Accounts.

(** ** A running example: two users, an admin and one shipment *)

Module Example.
Import ShipmentModel ShipmentStatics ShipmentService.

(** A stand-in for bcrypt and jsonwebtoken, to run the model. *)
Definition toy : Collaborators :=
  {| bcrypt_hash := fun p s => s +:+ "$" +:+ p;
     bcrypt_compare := fun c h => bool_decide (h = "salt$" +:+ c);
     jwt_sign := fun id em r => id +:+ "." +:+ em +:+ "." +:+ roleValue r |}.

Definition env (t : Z) (id : ObjectId) : Env :=
  {| now := t;
     newObjectId := id;
     newSubdocId := fun i => id +:+ "-att";
     generatedTrackingNumber := "SHP-LX2K9-" +:+ JsString.toUpperCase id;
     salt := "salt" |}.

Definition empty : Db := {| users := []; shipments := ∅ |}.

Definition alice : UserService.UserData :=
  {| UserService.data_name := "Alice";
     UserService.data_email := "Alice@Example.com";
     UserService.data_password := "password123";
     UserService.data_role := None |}.

(** A second sign-up with Alice's address in another letter case. *)
Definition alice_again : UserService.UserData :=
  {| UserService.data_name := "Alice B.";
     UserService.data_email := "ALICE@example.COM";
     UserService.data_password := "another-password";
     UserService.data_role := None |}.

Definition bob : UserService.UserData :=
  {| UserService.data_name := "Bob";
     UserService.data_email := "bob@example.com";
     UserService.data_password := "hunter22";
     UserService.data_role := None |}.

Definition root : UserService.UserData :=
  {| UserService.data_name := "Root";
     UserService.data_email := "root@example.com";
     UserService.data_password := "s3cret!";
     UserService.data_role := Some ADMIN |}.

Definition parcel : ShipmentData :=
  {| data_trackingNumber := None;
     data_senderName := "John Doe";
     data_receiverName := "Jane Smith";
     data_origin := "Lagos";
     data_destination := "Abuja";
     data_status := None;
     data_weight := None;
     data_description := Some "Secret description";
     data_estimatedDelivery := None;
     data_attachments := [] |}.

(** Alice and Bob sign up, an admin account is created directly (as the
    seed script and the test helpers do); Alice creates a shipment. *)
Definition db_users : Db :=
  snd (UserService.create toy (env 30 "u3") root
    (snd (UserService.register toy (env 20 "u2") bob
      (snd (UserService.register toy (env 10 "u1") alice empty))))).

(** Alice as stored once an admin has deactivated her account. *)
Definition alice_inactive : UserModel.User :=
  {| UserModel._id := "u1";
     UserModel.name := "Alice";
     UserModel.email := "alice@example.com";
     UserModel.password := "salt$password123";
     UserModel.role := USER;
     UserModel.isActive := false;
     UserModel.lastLogin := None;
     UserModel.avatar := None;
     UserModel.createdAt := 10;
     UserModel.updatedAt := 40 |}.

Definition db_deactivated : Db :=
  snd (UserService.deactivateUser (env 40 "x") "u1" db_users).

Definition db_pending : Db :=
  snd (createShipment (env 100 "s1") parcel "u1" db_users).

Definition db_in_transit : Db :=
  snd (updateStatus (env 200 "x") "s1" IN_TRANSIT "u1"
         (Some "Package picked up") false db_pending).

Definition db_delivered : Db :=
  snd (updateStatus (env 300 "x") "s1" DELIVERED "u1" None false
         db_in_transit).

(** The shipment as [createShipment] stored it. *)
Definition pending_s1 : Shipment :=
  {| trackingNumber := "SHP-LX2K9-S1";
     senderName := "John Doe";
     receiverName := "Jane Smith";
     origin := "Lagos";
     destination := "Abuja";
     status := PENDING;
     weight := None;
     description := Some "Secret description";
     estimatedDelivery := None;
     actualDelivery := None;
     attachments := [];
     statusHistory :=
       [ {| entry_status := PENDING; changedAt := 100;
            changedBy := "u1"; notes := None |} ];
     createdBy := "u1";
     updatedBy := None;
     createdAt := 100;
     updatedAt := 100 |}.

(** The stored shipment [s1], if any. *)
Definition s1 (db : Db) : option Shipment := shipments db !! "s1".

Definition setStatusOnly (v : SHIPMENT_STATUS) : UpdateData :=
  {| upd_trackingNumber := None; upd_createdBy := None;
     upd_statusHistory := None; upd_senderName := None;
     upd_receiverName := None; upd_origin := None;
     upd_destination := None; upd_status := Some v;
     upd_weight := None; upd_description := None;
     upd_estimatedDelivery := None |}.

End Example.

(** ** models/Shipment.js: virtuals and the tracking-number generator *)

Module ShipmentVirtuals.
Import ShipmentModel.

Definition msPerDay : Z := 1000 * 60 * 60 * 24.

(** [Math.ceil(a / b)] on integers, for [b > 0]. *)
Definition ceilDiv (a b : Z) : Z := - ((- a) / b).

(** Virtual for days in transit *)
Definition daysInTransit (e : Env) (s : Shipment) : Z :=
  if bool_decide (status s = PENDING) then 0
  else
    let endDate := default (now e) (actualDelivery s) in
    let startDate := createdAt s in
    let diffTime := Z.abs (endDate - startDate) in
    ceilDiv diffTime msPerDay.

(** One digit of [Number.prototype.toString(36)]. *)
Definition digit36 (d : N) : ascii :=
  if (d <? 10)%N then Ascii.ascii_of_N (48 + d) else Ascii.ascii_of_N (87 + d).

Fixpoint toString36_digits (fuel : nat) (n : N) (acc : string) : string :=
  match fuel with
  | O => acc
  | S fuel' =>
      let acc' := String (digit36 (n mod 36)) acc in
      if (n / 36 =? 0)%N then acc' else toString36_digits fuel' (n / 36) acc'
  end.

(** [n.toString(36)] for a non-negative integer; a number has no more
    digits in base 36 than in base 2. *)
Definition toString36 (n : N) : string :=
  toString36_digits (S (N.size_nat n)) n EmptyString.

(** Generate unique tracking number, from the clock and the text of
    [Math.random().toString(36)]. *)
Definition generateTrackingNumber (nowMs : Z) (randomText : string) : string :=
  let prefix := "SHP" in
  let timestamp := JsString.toUpperCase (toString36 (Z.to_N nowMs)) in
  let random := JsString.toUpperCase (String.substring 2 6 randomText) in
  prefix +:+ "-" +:+ timestamp +:+ "-" +:+ random.

End ShipmentVirtuals.

(** ** middlewares/upload.middleware.js: the stored file name *)

Module Upload.

Definition isLowerAlnum (c : ascii) : bool :=
  let n := Ascii.nat_of_ascii c in
  ((48 <=? n)%nat && (n <=? 57)%nat) || ((97 <=? n)%nat && (n <=? 122)%nat).

(** [s.replace(/[^a-z0-9]/g, '-')] *)
Fixpoint replaceNonAlnum (s : string) : string :=
  match s with
  | EmptyString => EmptyString
  | String c r =>
      String (if isLowerAlnum c then c else "-"%char) (replaceNonAlnum r)
  end.

(** The base name [filename] gives an upload, from the base name of the
    original file: lower case, anything but [a-z0-9] replaced by a dash,
    cut at 50 characters. *)
Definition sanitizeBaseName (baseName : string) : string :=
  String.substring 0 50 (replaceNonAlnum (JsString.toLowerCase baseName)).

End Upload.

(** ** utils/apiResponse.js: the pagination block *)

Module ApiResponse.

Record Pagination := {
  currentPage : Z;
  totalPages : Z;
  totalItems : Z;
  itemsPerPage : Z;
  hasNextPage : bool;
  hasPrevPage : bool
}.

(** [ApiResponse.paginated], for a positive [limit]. *)
Definition paginated (page limit total : Z) : Pagination :=
  {| currentPage := page;
     totalPages := ShipmentVirtuals.ceilDiv total limit;
     totalItems := total;
     itemsPerPage := limit;
     hasNextPage := (page <? ShipmentVirtuals.ceilDiv total limit)%Z;
     hasPrevPage := (1 <? page)%Z |}.

End ApiResponse.

(** ** Listing and statistics (models/Shipment.js, shipment.service.js) *)

Module ShipmentQueries.
Import ShipmentModel ShipmentStatics.

(** The options of a listing; [opt_createdBy] is the [userId] of the
    service's options, the [createdBy] of the model's. *)
Record SearchOptions := {
  opt_page : option Z;
  opt_limit : option Z;
  opt_status : option SHIPMENT_STATUS;
  opt_search : option string;
  opt_sortBy : option string;
  opt_sortOrder : option string;
  opt_createdBy : option string
}.

Record SearchResult := {
  result_shipments : list Populated;
  result_page : Z;
  result_limit : Z;
  result_total : Z
}.









Section WithMongo.
(** MongoDB's part of a listing: the case-insensitive regular-expression
    test [{ $regex: pattern, $options: "i" }] and the ordering
    [.sort({ [sortBy]: direction })]. *)
Context (regexTest : string -> string -> bool)
        (sortDocs : string -> Z -> list (ObjectId * Shipment)
                    -> list (ObjectId * Shipment)).

(** The filter [search] builds from its options, as a test on a stored
    shipment. *)
Definition matchesFilter (options : SearchOptions)
    (kv : ObjectId * Shipment) : bool :=
  let s := snd kv in
  match opt_status options with
  | Some st => bool_decide (status s = st)
  | None => true
  end
  && match opt_createdBy options with
     | Some uid =>
         if JsString.truthy uid then bool_decide (createdBy s = uid) else true
     | None => true
     end
  && match opt_search options with
     | Some pattern =>
         if JsString.truthy pattern then
           regexTest pattern (trackingNumber s)
           || regexTest pattern (senderName s)
           || regexTest pattern (receiverName s)
           || regexTest pattern (origin s)
           || regexTest pattern (destination s)
         else true
     | None => true
     end.

(** Static method to search shipments, for [page >= 1] and [limit >= 1]. *)
Definition search (options : SearchOptions) : Async SearchResult :=
  fun db =>
    let page := default 1%Z (opt_page options) in
    let limit := default 10%Z (opt_limit options) in
    let sortBy := default "createdAt" (opt_sortBy options) in
    let sortOrder := default "desc" (opt_sortOrder options) in
    let direction := if bool_decide (sortOrder = "desc") then (-1)%Z else 1%Z in
    let skip := ((page - 1) * limit)%Z in
    let found :=
      filter (fun kv => matchesFilter options kv = true)
        (map_to_list (shipments db)) in
    let shown :=
      take (Z.to_nat limit)
        (drop (Z.to_nat skip) (sortDocs sortBy direction found)) in
    (Ok {| result_shipments :=
             (fun kv =>
                {| shipment_id := fst kv;
                   shipment := snd kv;
                   populatedCreatedBy := populateUser db (createdBy (snd kv));
                   populatedChangedBy := None |}) <$> shown;
           result_page := page;
           result_limit := limit;
           result_total := Z.of_nat (length found) |}, db).

(** Get all shipments with filters: [page] and [limit] are integers (so
    [parseInt] leaves them alone) and the [userId] of the options is
    handed on as [createdBy]. *)
Definition getShipments (options : SearchOptions) : Async SearchResult :=
  search options.


End WithMongo.

End ShipmentQueries.

(** ** The rest of services/user.service.js *)

Module UserAccount.
Import UserModel UserService.

(** A user id as a service method receives it: the string of an id, or
    the ObjectId itself ([req.user._id]). *)
Inductive IdArg :=
| IdString (s : string)
| IdObject (o : ObjectId).

(** The ObjectId a query casts the argument to. *)
Definition castId (a : IdArg) : ObjectId :=
  match a with IdString s => s | IdObject o => o end.

(** [x.toString() !== userId]: a string is never strictly equal to an
    ObjectId object. *)
Definition differsFrom (x : ObjectId) (userId : IdArg) : bool :=
  match userId with
  | IdString s => negb (bool_decide (x = s))
  | IdObject _ => true
  end.

Definition withName (v : string) (u : User) : User :=
  {| _id := _id u; name := v; email := email u;
     password := password u; role := role u; isActive := isActive u;
     lastLogin := lastLogin u; avatar := avatar u;
     createdAt := createdAt u; updatedAt := updatedAt u |}.

Definition withEmail (v : string) (u : User) : User :=
  {| _id := _id u; name := name u; email := v;
     password := password u; role := role u; isActive := isActive u;
     lastLogin := lastLogin u; avatar := avatar u;
     createdAt := createdAt u; updatedAt := updatedAt u |}.

Definition withAvatar (v : string) (u : User) : User :=
  {| _id := _id u; name := name u; email := email u;
     password := password u; role := role u; isActive := isActive u;
     lastLogin := lastLogin u; avatar := Some v;
     createdAt := createdAt u; updatedAt := updatedAt u |}.

(** [BaseService.findById] *)
Definition findById (id : ObjectId) : Async User :=
  fun db =>
    match lookupById id (users db) with
    | Some (_, u) => (Ok u, db)
    | None => (Throw (HttpErr.notFound "User not found"), db)
    end.

(** Get user profile *)
Definition getProfile (userId : ObjectId) : Async User := findById userId.

(** [BaseService.updateById] for an update that may write [email]: the
    unique index on [email] is checked when the value changes. *)
Definition updateByIdIndexed (e : Env) (id : ObjectId) (change : User -> User)
    : Async User :=
  fun db =>
    match lookupById id (users db) with
    | Some (i, u) =>
        let u' := withUpdatedAt (now e) (change u) in
        if negb (bool_decide (email u' = email u))
           && existsb (fun x => bool_decide (email x = email u')) (users db)
        then (Throw (MongoDuplicateKey "email"), db)
        else (Ok u', withUsers (<[i := u']> (users db)) db)
    | None => (Throw (HttpErr.notFound "User not found"), db)
    end.

(** The body of a profile update. *)
Record ProfileData := {
  prof_password : option string;
  prof_role : option USER_ROLES;
  prof_isActive : option bool;
  prof_name : option string;
  prof_email : option string
}.

(** The [$set] of [allowedUpdates], with the setters of each path. *)
Definition applyAllowedUpdates (updateData : ProfileData) (u : User) : User :=
  let u :=
    match prof_name updateData with
    | Some v => withName (JsString.trim v) u
    | None => u
    end in
  match prof_email updateData with
  | Some v => withEmail (emailSetter v) u
  | None => u
  end.

(** Update user profile *)
Definition updateProfile (e : Env) (userId : IdArg) (updateData : ProfileData)
    : Async User :=
  (* Prevent updating sensitive fields: password, role and isActive are
     left out of allowedUpdates *)
  db ← getDb;
  let taken :=
    (* Check if email is being updated and if it already exists *)
    match prof_email updateData with
    | Some v =>
        if JsString.truthy v then
          match findByEmail v (users db) with
          | Some existingUser => differsFrom (_id existingUser) userId
          | None => false
          end
        else false
    | None => false
    end in
  if taken then throw (HttpErr.conflict "Email already in use")
  else updateByIdIndexed e (castId userId) (applyAllowedUpdates updateData).

Section WithCollaborators.
Context (K : Collaborators).

(** [document.save()] of a loaded user whose [password] was assigned. *)
Definition savePassword (e : Env) (modified : bool) (u : User) : Async User :=
  fun db =>
    if negb modified then (Ok u, db)
    else
      let u := withUpdatedAt (now e) (preSavePassword K e true u) in
      match lookupById (_id u) (users db) with
      | Some (i, _) => (Ok u, withUsers (<[i := u]> (users db)) db)
      | None => (Ok u, db)
      end.

(** Change user password; the answer is the new token. *)
Definition changePassword (e : Env) (userId : ObjectId)
    (currentPassword newPassword : string) : Async string :=
  db ← getDb;
  match lookupById userId (users db) with
  | None => throw (HttpErr.notFound "User not found")
  | Some (_, u) =>
      (* Verify current password *)
      if negb (comparePassword K u currentPassword)
      then throw (HttpErr.badRequest "Current password is incorrect")
      else
        (* Update password *)
        let modified := negb (bool_decide (password u = newPassword)) in
        u ← savePassword e modified (withPassword newPassword u);
        (* Generate new token *)
        mret (generateAuthToken K u)
  end.

End WithCollaborators.

(** Update user avatar *)
Definition updateAvatar (e : Env) (userId : ObjectId) (avatarPath : string)
    : Async User :=
  updateById e userId (withAvatar avatarPath).

Section WithJwt.
(** [jwt.verify]: the [id] claim of a token that verifies. *)
Context (jwt_verify : string -> option ObjectId).

(** Verify JWT token and get user: whatever goes wrong inside is caught
    and thrown again as the same 401. *)
Definition verifyTokenAndGetUser (token : string) : Async User :=
  fun db =>
    let invalid := HttpErr.unauthorized "Invalid or expired token" in
    match jwt_verify token with
    | None => (Throw invalid, db)
    | Some id =>
        match lookupById id (users db) with
        | Some (_, u) =>
            if negb (isActive u) then (Throw invalid, db) else (Ok u, db)
        | None => (Throw invalid, db)
        end
    end.

End WithJwt.

End UserAccount.

(** ** middlewares/auth.middleware.js *)

Module AuthMiddleware.
Import UserModel.

(** [s.split(' ')] *)
Fixpoint splitSpace (piece s : string) : list string :=
  match s with
  | EmptyString => [piece]
  | String c r =>
      if Ascii.eqb c " "%char then piece :: splitSpace EmptyString r
      else splitSpace (piece +:+ String c EmptyString) r
  end.

Section WithJwt.
Context (jwt_verify : string -> option ObjectId).

(** Authentication middleware: the user attached to the request, or the
    error answered. *)
Definition authenticate (authHeader : option string) : Async User :=
  match authHeader with
  | None => throw (HttpErr.unauthorized "No token provided")
  | Some h =>
      if negb (JsString.truthy h) || negb (String.prefix "Bearer " h)
      then throw (HttpErr.unauthorized "No token provided")
      else
        let token := default EmptyString (splitSpace EmptyString h !! 1%nat) in
        UserAccount.verifyTokenAndGetUser jwt_verify token
  end.

End WithJwt.

(** Authorization middleware factory *)
Definition authorize (allowedRoles : list USER_ROLES) (user : option User)
    : Result unit :=
  match user with
  | None => Throw (HttpError "Authentication required" 401)
  | Some u =>
      if negb (bool_decide (role u ∈ allowedRoles))
      then Throw (HttpError
                    "You do not have permission to perform this action" 403)
      else Ok tt
  end.

(** Admin only middleware *)
Definition adminOnly : option User -> Result unit := authorize [ADMIN].

(** The two middlewares in front of every route of routes/v1/user.routes.js:
    [authenticate, adminOnly]. *)
Definition adminRoute (jwt_verify : string -> option ObjectId)
    (authHeader : option string) : Async User :=
  u ← authenticate jwt_verify authHeader;
  _ ← ShipmentService.liftResult (adminOnly (Some u));
  mret u.

End AuthMiddleware.

(** ** Sequences of requests, and what they keep *)

Module Requests.
Import ShipmentModel ShipmentStatics ShipmentService.

(** A call of the shipment service. *)
Inductive ShipmentRequest :=
| Create (e : Env) (data : ShipmentData) (userId : ObjectId)
| Update (e : Env) (id : ObjectId) (body : UpdateData) (userId : ObjectId)
    (isAdmin : bool)
| SetStatus (e : Env) (id : ObjectId) (status : SHIPMENT_STATUS)
    (userId : ObjectId) (notes : option string) (isAdmin : bool)
| Delete (id userId : ObjectId) (isAdmin : bool)
| Attach (e : Env) (id : ObjectId) (info : AttachmentInfo)
    (userId : ObjectId) (isAdmin : bool)
| Detach (e : Env) (id : ObjectId) (attachmentId : string)
    (userId : ObjectId) (isAdmin : bool).

(** The database a call leaves, whatever it answers. *)
Definition serve (r : ShipmentRequest) (db : Db) : Db :=
  match r with
  | Create e data userId => snd (createShipment e data userId db)
  | Update e id body userId isAdmin =>
      snd (updateShipment e id body userId isAdmin db)
  | SetStatus e id st userId notes isAdmin =>
      snd (updateStatus e id st userId notes isAdmin db)
  | Delete id userId isAdmin => snd (deleteShipment id userId isAdmin db)
  | Attach e id info userId isAdmin =>
      snd (addAttachment e id info userId isAdmin db)
  | Detach e id attachmentId userId isAdmin =>
      snd (removeAttachment e id attachmentId userId isAdmin db)
  end.

Definition serveAll (rs : list ShipmentRequest) (db : Db) : Db :=
  foldl (fun db r => serve r db) db rs.

(** The tracking-number generator answers with a non-empty string, as
    the "SHP-" prefix makes it. *)
Definition generatorAnswers (r : ShipmentRequest) : Prop :=
  match r with
  | Create e _ _ => JsString.truthy (generatedTrackingNumber e) = true
  | _ => True
  end.

(** The last entry of the status history names the current status. *)
Definition historyCurrent (s : Shipment) : Prop :=
  last (entry_status <$> statusHistory s) = Some (status s).

Definition deliveredHasDate (s : Shipment) : Prop :=
  status s = DELIVERED -> is_Some (actualDelivery s).

Definition wellFormed (s : Shipment) : Prop :=
  historyCurrent s /\ deliveredHasDate s
  /\ JsString.truthy (trackingNumber s) = true.

Definition trackingUnique (db : Db) : Prop :=
  forall k1 k2 s1 s2,
    shipments db !! k1 = Some s1 -> shipments db !! k2 = Some s2 ->
    trackingNumber s1 = trackingNumber s2 -> k1 = k2.

Definition consistent (db : Db) : Prop :=
  (forall id s, shipments db !! id = Some s -> wellFormed s)
  /\ trackingUnique db.

(** The fields no update may touch. *)
Definition protected (s : Shipment)
    : string * ObjectId * list StatusHistoryEntry * list Attachment
      * option Date * Date :=
  (trackingNumber s, createdBy s, statusHistory s, attachments s,
   actualDelivery s, createdAt s).

(** [d'] comes from [d] by assignments that leave the protected fields,
    the status, the identity and the marks on [trackingNumber] and
    [status] alone. *)
Definition gentle (d d' : Document) : Prop :=
  doc_id d' = doc_id d /\ isNew d' = isNew d
  /\ protected (doc d') = protected (doc d)
  /\ status (doc d') = status (doc d)
  /\ isModified "trackingNumber" d' = isModified "trackingNumber" d
  /\ isModified "status" d' = isModified "status" d
  /\ (modifiedPaths d' = [] -> d' = d).

(** A call of the user service. *)
Inductive UserRequest :=
| Register (e : Env) (data : UserService.UserData)
| Login (e : Env) (email password : string)
| Activate (e : Env) (id : ObjectId)
| Deactivate (e : Env) (id : ObjectId)
| SetRole (e : Env) (id : ObjectId) (r : USER_ROLES)
| DeleteUser (id : ObjectId)
| ChangePassword (e : Env) (id : ObjectId) (current new : string)
| UpdateProfile (e : Env) (id : UserAccount.IdArg)
    (body : UserAccount.ProfileData)
| UpdateAvatar (e : Env) (id : ObjectId) (path : string).

Definition serveUser (K : Collaborators) (r : UserRequest) (db : Db) : Db :=
  match r with
  | Register e data => snd (UserService.register K e data db)
  | Login e email password => snd (UserService.login K e email password db)
  | Activate e id => snd (UserService.activateUser e id db)
  | Deactivate e id => snd (UserService.deactivateUser e id db)
  | SetRole e id r => snd (UserService.updateUserRole e id r db)
  | DeleteUser id => snd (UserService.deleteUser id db)
  | ChangePassword e id current new =>
      snd (UserAccount.changePassword K e id current new db)
  | UpdateProfile e id body => snd (UserAccount.updateProfile e id body db)
  | UpdateAvatar e id path => snd (UserAccount.updateAvatar e id path db)
  end.

Definition serveAllUsers (K : Collaborators) (rs : list UserRequest)
    (db : Db) : Db :=
  foldl (fun db r => serveUser K r db) db rs.

End Requests.

(** ** The pages of a listing *)

Module Paging.
Import ShipmentModel ShipmentStatics ShipmentQueries.

(** The same listing options, asking for page [p]. *)
Definition atPage (p : Z) (options : SearchOptions) : SearchOptions :=
  {| opt_page := Some p;
     opt_limit := opt_limit options;
     opt_status := opt_status options;
     opt_search := opt_search options;
     opt_sortBy := opt_sortBy options;
     opt_sortOrder := opt_sortOrder options;
     opt_createdBy := opt_createdBy options |}.

(** The stored shipments that pass the filter of a listing. *)
Definition matching (regexTest : string -> string -> bool)
    (options : SearchOptions) (db : Db) : list (ObjectId * Shipment) :=
  filter (fun kv => matchesFilter regexTest options kv = true)
    (map_to_list (shipments db)).

(** The shipments of an answer; none when the call failed. *)
Definition items (r : Result SearchResult * Db) : list Populated :=
  match fst r with
  | Ok res => result_shipments res
  | Throw _ => []
  end.

(** A listed shipment as a stored pair. *)
Definition stored (p : Populated) : ObjectId * Shipment :=
  (shipment_id p, shipment p).

(** The number of pages the pagination block of an answer announces. *)
Definition announcedPages (r : Result SearchResult * Db) : Z :=
  match fst r with
  | Ok res =>
      ApiResponse.totalPages
        (ApiResponse.paginated (result_page res) (result_limit res)
           (result_total res))
  | Throw _ => 0
  end.

End Paging.

(** ** How assignments and hooks act on a document *)

Module DocumentFacts.
Import ShipmentModel ShipmentStatics ShipmentService Lifecycle.


Lemma assign_doc_id p c s' d : doc_id (assign p c s' d) = doc_id d.
Proof. unfold assign. destruct (c || isNew d); reflexivity. Qed.

Lemma assign_isNew p c s' d : isNew (assign p c s' d) = isNew d.
Proof. unfold assign. destruct (c || isNew d); reflexivity. Qed.

Lemma assign_modifiedPaths p c s' d :
  modifiedPaths (assign p c s' d) = mark (c || isNew d) p ++ modifiedPaths d.
Proof. unfold assign. destruct (c || isNew d); reflexivity. Qed.

Lemma assign_doc p c s' d :
  (c || isNew d = false -> s' = doc d) -> doc (assign p c s' d) = s'.
Proof.
  unfold assign. destruct (c || isNew d); intros H; [reflexivity|].
  symmetry. apply H. reflexivity.
Qed.

Lemma withStatus_id s : withStatus (status s) s = s.
Proof. destruct s; reflexivity. Qed.
Lemma withUpdatedBy_id s : withUpdatedBy (updatedBy s) s = s.
Proof. destruct s; reflexivity. Qed.
Lemma withActualDelivery_id s : withActualDelivery (actualDelivery s) s = s.
Proof. destruct s; reflexivity. Qed.

Lemma set_status_doc v d : doc (set_status v d) = withStatus v (doc d).
Proof.
  unfold set_status. apply assign_doc. intros H.
  apply orb_false_elim in H as [H _]. apply negb_false_iff in H.
  apply bool_decide_eq_true_1 in H. rewrite <- H. apply withStatus_id.
Qed.

Lemma set_status_modifiedPaths v d :
  modifiedPaths (set_status v d) =
  mark (negb (bool_decide (status (doc d) = v)) || isNew d) "status"
    ++ modifiedPaths d.
Proof. apply assign_modifiedPaths. Qed.

Lemma set_updatedBy_doc v d :
  doc (set_updatedBy v d) = withUpdatedBy (Some v) (doc d).
Proof.
  unfold set_updatedBy. apply assign_doc. intros H.
  apply orb_false_elim in H as [H _]. apply negb_false_iff in H.
  apply bool_decide_eq_true_1 in H. rewrite <- H. apply withUpdatedBy_id.
Qed.

Lemma set_updatedBy_modifiedPaths v d :
  modifiedPaths (set_updatedBy v d) =
  mark (negb (bool_decide (updatedBy (doc d) = Some v)) || isNew d) "updatedBy"
    ++ modifiedPaths d.
Proof. apply assign_modifiedPaths. Qed.

Lemma push_statusHistory_doc h d :
  doc (push_statusHistory h d)
  = withStatusHistory (statusHistory (doc d) ++ [h]) (doc d).
Proof. unfold push_statusHistory. apply assign_doc. discriminate. Qed.

Lemma push_statusHistory_modifiedPaths h d :
  modifiedPaths (push_statusHistory h d) = "statusHistory" :: modifiedPaths d.
Proof. apply assign_modifiedPaths. Qed.

Lemma set_actualDelivery_doc v d :
  doc (set_actualDelivery v d) = withActualDelivery (Some v) (doc d).
Proof.
  unfold set_actualDelivery. apply assign_doc. intros H.
  apply orb_false_elim in H as [H _]. apply negb_false_iff in H.
  apply bool_decide_eq_true_1 in H. rewrite <- H.
  apply withActualDelivery_id.
Qed.

Lemma set_actualDelivery_modifiedPaths v d :
  modifiedPaths (set_actualDelivery v d) =
  mark (negb (bool_decide (actualDelivery (doc d) = Some v)) || isNew d)
    "actualDelivery" ++ modifiedPaths d.
Proof. apply assign_modifiedPaths. Qed.

Lemma preSaveTimestamps_stored e d :
  isNew d = false -> modifiedPaths d <> [] ->
  preSaveTimestamps e d =
    {| doc_id := doc_id d;
       doc := withTimestamps (createdAt (doc d)) (now e) (doc d);
       isNew := false; modifiedPaths := modifiedPaths d |}.
Proof.
  intros Hn Hm. unfold preSaveTimestamps. rewrite Hn.
  rewrite bool_decide_eq_false_2 by exact Hm. reflexivity.
Qed.

Lemma preSaveTrackingNumber_given e d :
  JsString.truthy (trackingNumber (doc d)) = true ->
  preSaveTrackingNumber e d = d.
Proof. intros H. unfold preSaveTrackingNumber. rewrite H. reflexivity. Qed.

Lemma preSaveStatus_unmodified e d :
  isModified "status" d = false -> preSaveStatus e d = d.
Proof. intros H. unfold preSaveStatus. rewrite H. reflexivity. Qed.

Lemma preSaveStatus_modified_doc e d :
  isModified "status" d = true ->
  doc (preSaveStatus e d) = afterStatusHook e (doc d).
Proof.
  intros H. unfold preSaveStatus, afterStatusHook. rewrite H.
  rewrite !push_statusHistory_doc.
  cbn [status actualDelivery withStatusHistory].
  destruct (bool_decide (status (doc d) = DELIVERED)
            && negb (bool_decide (is_Some (actualDelivery (doc d))))).
  - rewrite set_actualDelivery_doc, push_statusHistory_doc. reflexivity.
  - rewrite push_statusHistory_doc. reflexivity.
Qed.

Lemma preSaveStatus_doc_id e d : doc_id (preSaveStatus e d) = doc_id d.
Proof.
  unfold preSaveStatus. destruct (isModified "status" d); [|reflexivity].
  match goal with |- context [if ?b then _ else _] => destruct b end;
    unfold set_actualDelivery, push_statusHistory;
    rewrite ?assign_doc_id; reflexivity.
Qed.

Lemma preSaveStatus_isNew e d : isNew (preSaveStatus e d) = isNew d.
Proof.
  unfold preSaveStatus. destruct (isModified "status" d); [|reflexivity].
  match goal with |- context [if ?b then _ else _] => destruct b end;
    unfold set_actualDelivery, push_statusHistory;
    rewrite ?assign_isNew; reflexivity.
Qed.

(** The hooks only ever add marks. *)
Lemma preSaveStatus_modifiedPaths e d :
  exists b1 b2,
    modifiedPaths (preSaveStatus e d)
    = mark b1 "actualDelivery" ++ mark b2 "statusHistory" ++ modifiedPaths d.
Proof.
  unfold preSaveStatus. destruct (isModified "status" d).
  - match goal with |- context [if ?b then _ else _] => destruct b end.
    + rewrite set_actualDelivery_modifiedPaths,
        push_statusHistory_modifiedPaths.
      eexists _, true. reflexivity.
    + rewrite push_statusHistory_modifiedPaths.
      exists false, true. reflexivity.
  - exists false, false. reflexivity.
Qed.

Lemma elem_of_mark p b q : p ∈ mark b q <-> b = true /\ p = q.
Proof.
  destruct b; cbn [mark].
  - rewrite list_elem_of_singleton. tauto.
  - rewrite elem_of_nil. split; [tauto | intros [? _]; discriminate].
Qed.

(** What [preSave] does to a stored, modified document that has a
    tracking number. *)
Lemma preSave_stored e d :
  isNew d = false -> modifiedPaths d <> [] ->
  JsString.truthy (trackingNumber (doc d)) = true ->
  doc_id (preSave e d) = doc_id d
  /\ isNew (preSave e d) = false
  /\ doc (preSave e d)
     = (let s1 := withTimestamps (createdAt (doc d)) (now e) (doc d) in
        if isModified "status" d then afterStatusHook e s1 else s1)
  /\ exists b1 b2,
       modifiedPaths (preSave e d)
       = mark b1 "actualDelivery" ++ mark b2 "statusHistory"
         ++ modifiedPaths d.
Proof.
  intros Hn Hm Ht. unfold preSave.
  rewrite (preSaveTimestamps_stored e d Hn Hm).
  rewrite preSaveTrackingNumber_given by exact Ht.
  set (d1 := {| doc_id := doc_id d;
                doc := withTimestamps (createdAt (doc d)) (now e) (doc d);
                isNew := false; modifiedPaths := modifiedPaths d |}).
  assert (Hs : isModified "status" d1 = isModified "status" d)
    by reflexivity.
  split; [rewrite preSaveStatus_doc_id; reflexivity|].
  split; [rewrite preSaveStatus_isNew; reflexivity|].
  split; [|apply (preSaveStatus_modifiedPaths e d1)].
  cbv zeta. rewrite <- Hs.
  destruct (isModified "status" d1) eqn:H1.
  - apply preSaveStatus_modified_doc, H1.
  - rewrite preSaveStatus_unmodified by exact H1. reflexivity.
Qed.

(** Saving a stored, modified document writes it back under its id. *)
Lemma save_stored e d db :
  isNew d = false -> modifiedPaths d <> [] ->
  JsString.truthy (trackingNumber (doc d)) = true ->
  isModified "trackingNumber" d = false ->
  save e d db
  = (Ok {| doc_id := doc_id d; doc := doc (preSave e d); isNew := false;
           modifiedPaths := [] |},
     withShipments (<[doc_id d := doc (preSave e d)]> (shipments db)) db).
Proof.
  intros Hn Hm Ht Htn.
  destruct (preSave_stored e d Hn Hm Ht) as (Hid & Hnew & _ & b1 & b2 & Hmp).
  unfold save. cbv zeta. rewrite Hnew, Hid.
  rewrite bool_decide_eq_false_2.
  2:{ rewrite Hmp. intros Happ.
      apply app_eq_nil in Happ as [_ Happ].
      apply app_eq_nil in Happ as [_ Happ]. exact (Hm Happ). }
  assert (Hf : isModified "trackingNumber" (preSave e d) = false).
  { unfold isModified in *. apply bool_decide_eq_false_2.
    apply bool_decide_eq_false_1 in Htn.
    rewrite Hmp, !elem_of_app, !elem_of_mark.
    intros [[_ ?] | [[_ ?] | ?]]; [discriminate | discriminate | tauto]. }
  rewrite Hf. reflexivity.
Qed.

End DocumentFacts.

(** ** The status-change operation, step by step *)

Module UpdateStatusFacts.
Import ShipmentModel ShipmentStatics ShipmentService Lifecycle.
Import DocumentFacts.

Lemma updateStatus_unfold e id req userId notes isAdmin db s :
  shipments db !! id = Some s ->
  updateStatus e id req userId notes isAdmin db =
    if negb isAdmin && negb (bool_decide (createdBy s = userId))
    then (Throw (HttpErr.forbidden
                   "You do not have access to this shipment"), db)
    else match validateStatusTransition (status s) req with
         | Throw err => (Throw err, db)
         | Ok _ =>
             (_ ← save e (edited e id s req userId notes);
              found' ← findById id; populateOpt true found') db
         end.
Proof.
  intros H. unfold updateStatus, mbind, Async_bind, findById. rewrite H.
  cbn [fmap option_fmap option_map doc].
  destruct (negb isAdmin && negb (bool_decide (createdBy s = userId)));
    [reflexivity|].
  unfold liftResult.
  destruct (validateStatusTransition (status s) req); reflexivity.
Qed.

Lemma edited_facts e id s req userId notes :
  let d := edited e id s req userId notes in
  doc_id d = id /\ isNew d = false /\ modifiedPaths d <> []
  /\ doc d = withStatusHistory
               (statusHistory s ++ [serviceEntry e req userId notes])
               (withUpdatedBy (Some userId) (withStatus req s))
  /\ isModified "trackingNumber" d = false
  /\ isModified "status" d = negb (bool_decide (status s = req)).
Proof.
  cbv zeta. unfold edited.
  assert (Hmp : modifiedPaths
            (push_statusHistory (serviceEntry e req userId notes)
               (set_updatedBy userId (set_status req (hydrate id s))))
          = "statusHistory"
            :: mark (negb (bool_decide
                             (updatedBy (withStatus req s) = Some userId)))
                 "updatedBy"
            ++ mark (negb (bool_decide (status s = req))) "status").
  { rewrite push_statusHistory_modifiedPaths, set_updatedBy_modifiedPaths,
      set_status_modifiedPaths, set_status_doc.
    unfold set_status. rewrite assign_isNew. cbn [hydrate isNew doc modifiedPaths].
    rewrite !orb_false_r, app_nil_r. reflexivity. }
  split; [unfold push_statusHistory, set_updatedBy, set_status;
          rewrite !assign_doc_id; reflexivity|].
  split; [unfold push_statusHistory, set_updatedBy, set_status;
          rewrite !assign_isNew; reflexivity|].
  split; [rewrite Hmp; discriminate|].
  split; [rewrite push_statusHistory_doc, set_updatedBy_doc, set_status_doc;
          reflexivity|].
  unfold isModified. rewrite Hmp. split.
  - apply bool_decide_eq_false_2.
    rewrite elem_of_cons, elem_of_app, !elem_of_mark.
    intros [? | [[_ ?] | [_ ?]]]; discriminate.
  - destruct (negb (bool_decide (status s = req))); cbn [mark].
    + apply bool_decide_eq_true_2.
      rewrite elem_of_cons, elem_of_app, list_elem_of_singleton. tauto.
    + apply bool_decide_eq_false_2.
      rewrite elem_of_cons, elem_of_app, elem_of_mark, elem_of_nil.
      intros [? | [[_ ?] | ?]]; [discriminate | discriminate | tauto].
Qed.

(** An authorized request that passes the validation stores the edited
    shipment and returns it. *)
Lemma updateStatus_accepted e id req userId notes isAdmin db s :
  shipments db !! id = Some s ->
  negb isAdmin && negb (bool_decide (createdBy s = userId)) = false ->
  validateStatusTransition (status s) req = Ok tt ->
  JsString.truthy (trackingNumber s) = true ->
  let s' := storedByUpdateStatus e s req userId notes in
  exists p,
    updateStatus e id req userId notes isAdmin db
    = (Ok (Some p), withShipments (<[id := s']> (shipments db)) db)
    /\ shipment p = s'.
Proof.
  intros Hs Hauth Hval Ht. cbv zeta.
  rewrite (updateStatus_unfold _ _ _ _ _ _ _ _ Hs), Hauth, Hval.
  destruct (edited_facts e id s req userId notes)
    as (Hid & Hn & Hm & Hdoc & Htn & Hst).
  assert (Ht' : JsString.truthy
                  (trackingNumber (doc (edited e id s req userId notes)))
                = true) by (rewrite Hdoc; exact Ht).
  destruct (preSave_stored e _ Hn Hm Ht') as (_ & _ & Hpre & _).
  assert (Hfinal : doc (preSave e (edited e id s req userId notes))
                   = storedByUpdateStatus e s req userId notes).
  { rewrite Hpre. cbv zeta. rewrite Hst, Hdoc. unfold storedByUpdateStatus.
    destruct (bool_decide (status s = req)); reflexivity. }
  unfold mbind, Async_bind.
  rewrite (save_stored e _ db Hn Hm Ht' Htn), Hid, Hfinal.
  unfold findById. cbn [shipments withShipments].
  rewrite lookup_insert_eq. cbn [fmap option_fmap option_map].
  unfold populateOpt, mbind, Async_bind, populate, mret, Async_ret.
  cbn [doc doc_id]. eexists. split; reflexivity.
Qed.

End UpdateStatusFacts.

(** ** The transition table and the stored result of a status change *)

Module TransitionFacts.
Import ShipmentModel ShipmentStatics ShipmentService Lifecycle.
Import DocumentFacts UpdateStatusFacts.

(** The table in the code is the table of the specification. *)
Lemma validTransitions_tableEdge current requested :
  bool_decide (requested ∈ validTransitions current)
  = tableEdge current requested.
Proof. destruct current, requested; reflexivity. Qed.

Lemma validate_self current : validateStatusTransition current current = Ok tt.
Proof.
  unfold validateStatusTransition.
  rewrite bool_decide_eq_true_2 by reflexivity. reflexivity.
Qed.

Lemma validate_edge current requested :
  current <> requested ->
  validateStatusTransition current requested
  = if tableEdge current requested then Ok tt
    else Throw (rejection current requested).
Proof.
  intros Hne. unfold validateStatusTransition, rejection.
  rewrite bool_decide_eq_false_2 by exact Hne.
  rewrite validTransitions_tableEdge.
  destruct (tableEdge current requested); reflexivity.
Qed.

Lemma canAccess_guard isAdmin userId s :
  canAccess isAdmin userId s ->
  negb isAdmin && negb (bool_decide (createdBy s = userId)) = false.
Proof.
  intros [-> | <-]; [reflexivity|].
  rewrite bool_decide_eq_true_2 by reflexivity. apply andb_false_r.
Qed.

(** Stored fields after an accepted change to a different status. *)
Lemma stored_changed e s req userId notes :
  status s <> req ->
  let s' := storedByUpdateStatus e s req userId notes in
  status s' = req
  /\ trackingNumber s' = trackingNumber s
  /\ createdBy s' = createdBy s
  /\ statusHistory s'
     = statusHistory s
       ++ [serviceEntry e req userId notes;
           {| entry_status := req; changedAt := now e;
              changedBy := userId; notes := None |}]
  /\ actualDelivery s'
     = (if bool_decide (req = DELIVERED)
        then Some (default (now e) (actualDelivery s))
        else actualDelivery s).
Proof.
  intros Hne. cbv zeta. unfold storedByUpdateStatus.
  rewrite bool_decide_eq_false_2 by exact Hne.
  unfold afterStatusHook, hookEntry.
  cbn [status actualDelivery withTimestamps withStatusHistory
       withUpdatedBy withStatus statusHistory createdBy updatedBy
       trackingNumber default from_option].
  destruct (decide (req = DELIVERED)) as [Hd | Hd].
  - rewrite !(bool_decide_eq_true_2 _ Hd).
    destruct (actualDelivery s) as [a|] eqn:Ha; cbn;
      rewrite <- ?app_assoc; repeat split; try reflexivity; exact Ha.
  - rewrite !(bool_decide_eq_false_2 _ Hd). cbn.
    rewrite <- app_assoc. repeat split; reflexivity.
Qed.

(** Stored fields after an accepted request for the current status. *)
Lemma stored_same e s userId notes :
  let s' := storedByUpdateStatus e s (status s) userId notes in
  status s' = status s
  /\ statusHistory s'
     = statusHistory s ++ [serviceEntry e (status s) userId notes]
  /\ actualDelivery s' = actualDelivery s
  /\ updatedBy s' = Some userId.
Proof.
  cbv zeta. unfold storedByUpdateStatus.
  rewrite bool_decide_eq_true_2 by reflexivity.
  repeat split; reflexivity.
Qed.

End TransitionFacts.

(** ** Properties of the shipment lifecycle *)

Module LifecycleSpec.
Import ShipmentModel ShipmentStatics ShipmentService Lifecycle.
Import DocumentFacts UpdateStatusFacts TransitionFacts.

(** C1. A request for a status other than the current one succeeds only
    along an edge of the transition table; off the table an authorized
    request is rejected with a 400 whose message carries both statuses
    and nothing is written; along an edge it succeeds and stores the
    requested status.  In particular pending -> delivered is rejected,
    and pending -> in_transit followed by in_transit -> delivered
    succeeds and leaves [actualDelivery] set. *)
Theorem updateStatus_follows_transition_table
    (e : Env) (id : ObjectId) (req : SHIPMENT_STATUS) (userId : ObjectId)
    (notes : option string) (isAdmin : bool) (db : Db) (s : Shipment)
    (Hfound : shipments db !! id = Some s)
    (Hne : status s <> req) :
  let r := updateStatus e id req userId notes isAdmin db in
  (isOk (fst r) = true -> tableEdge (status s) req = true)
  /\ (canAccess isAdmin userId s -> tableEdge (status s) req = false ->
      r = (Throw (rejection (status s) req), db))
  /\ (canAccess isAdmin userId s ->
      JsString.truthy (trackingNumber s) = true ->
      tableEdge (status s) req = true ->
      isOk (fst r) = true
      /\ status <$> shipments (snd r) !! id = Some req)
  /\ (canAccess isAdmin userId s -> status s = PENDING -> req = DELIVERED ->
      r = (Throw (HttpError "Cannot transition from pending to delivered"
                    400), db))
  /\ (forall (e2 : Env) (userId2 : ObjectId) (notes2 : option string)
             (isAdmin2 : bool),
        canAccess isAdmin userId s -> canAccess isAdmin2 userId2 s ->
        JsString.truthy (trackingNumber s) = true ->
        status s = PENDING -> req = IN_TRANSIT ->
        let r2 := updateStatus e2 id DELIVERED userId2 notes2 isAdmin2
                    (snd r) in
        isOk (fst r) = true /\ isOk (fst r2) = true
        /\ exists s2,
             shipments (snd r2) !! id = Some s2
             /\ status s2 = DELIVERED
             /\ actualDelivery s2
                = Some (default (now e2) (actualDelivery s))).
Proof.
  cbv zeta.
  pose proof (updateStatus_unfold e id req userId notes isAdmin db s Hfound)
    as Hrun.
  rewrite (validate_edge _ _ Hne) in Hrun.
  assert (Hrej : canAccess isAdmin userId s ->
                 tableEdge (status s) req = false ->
                 updateStatus e id req userId notes isAdmin db
                 = (Throw (rejection (status s) req), db)).
  { intros Hacc Hedge. rewrite Hrun, (canAccess_guard _ _ _ Hacc), Hedge.
    reflexivity. }
  assert (Hacc : canAccess isAdmin userId s ->
                 JsString.truthy (trackingNumber s) = true ->
                 tableEdge (status s) req = true ->
                 exists p,
                   updateStatus e id req userId notes isAdmin db
                   = (Ok (Some p),
                      withShipments
                        (<[id := storedByUpdateStatus e s req userId notes]>
                           (shipments db)) db)).
  { intros Ha Ht Hedge.
    destruct (updateStatus_accepted e id req userId notes isAdmin db s
                Hfound (canAccess_guard _ _ _ Ha)) as (p & Hp & _);
      [rewrite (validate_edge _ _ Hne), Hedge; reflexivity | exact Ht |].
    exists p. exact Hp. }
  split; [|split; [exact Hrej|split; [|split]]].
  - rewrite Hrun.
    destruct (negb isAdmin && negb (bool_decide (createdBy s = userId)));
      [discriminate|].
    destruct (tableEdge (status s) req); [reflexivity | discriminate].
  - intros Ha Ht Hedge. destruct (Hacc Ha Ht Hedge) as (p & ->).
    split; [reflexivity|]. cbn [snd shipments withShipments].
    rewrite lookup_insert_eq. cbn [fmap option_fmap option_map].
    f_equal. apply (stored_changed e s req userId notes Hne).
  - intros Ha Hp ->. rewrite (Hrej Ha) by (rewrite Hp; reflexivity).
    rewrite Hp. reflexivity.
  - intros e2 userId2 notes2 isAdmin2 Ha Ha2 Ht Hp ->.
    destruct (Hacc Ha Ht) as (p & ->); [rewrite Hp; reflexivity|].
    cbn [fst snd isOk].
    destruct (stored_changed e s IN_TRANSIT userId notes Hne)
      as (Hst & Htn & Hcb & _ & Had).
    set (s1 := storedByUpdateStatus e s IN_TRANSIT userId notes) in *.
    set (db1 := withShipments (<[id := s1]> (shipments db)) db).
    assert (Hf1 : shipments db1 !! id = Some s1)
      by apply lookup_insert_eq.
    assert (Hne1 : status s1 <> DELIVERED) by (rewrite Hst; discriminate).
    destruct (updateStatus_accepted e2 id DELIVERED userId2 notes2 isAdmin2
                db1 s1 Hf1) as (p2 & -> & _).
    + apply canAccess_guard. destruct Ha2 as [? | ?];
        [left; assumption | right; rewrite Hcb; assumption].
    + rewrite (validate_edge _ _ Hne1), Hst. reflexivity.
    + rewrite Htn. exact Ht.
    + split; [reflexivity|]. split; [reflexivity|].
      eexists. cbn [snd shipments withShipments].
      split; [apply lookup_insert_eq|].
      destruct (stored_changed e2 s1 DELIVERED userId2 notes2 Hne1)
        as (Hst2 & _ & _ & _ & Had2).
      split; [exact Hst2|]. rewrite Had2, Had. reflexivity.
Qed.

Lemma updateStatus_follows_transition_table_witness :
  shipments Example.db_pending !! "s1" = Some Example.pending_s1
  /\ status Example.pending_s1 <> IN_TRANSIT
  /\ isOk (fst (updateStatus (Example.env 200 "x") "s1" IN_TRANSIT "u1"
                  (Some "Package picked up") false Example.db_pending))
     = true.
Proof.
  assert (Hf : shipments Example.db_pending !! "s1"
               = Some Example.pending_s1) by (vm_compute; reflexivity).
  assert (Hne : status Example.pending_s1 <> IN_TRANSIT) by discriminate.
  split; [exact Hf|]. split; [exact Hne|].
  destruct (updateStatus_follows_transition_table (Example.env 200 "x")
              "s1" IN_TRANSIT "u1" (Some "Package picked up") false
              Example.db_pending Example.pending_s1 Hf Hne)
    as (_ & _ & Hedge & _).
  apply Hedge; [right; reflexivity | reflexivity | reflexivity].
Defined.

(** C2 (the code at the failing input). A request for the status the
    shipment already has succeeds, but it is not a no-op: the service
    pushes its history entry before saving, so [statusHistory] grows
    from one entry to two and [updatedBy] is set. *)
Theorem updateStatus_same_status_appends_history :
  let r := updateStatus (Example.env 150 "x") "s1" PENDING "u1" None false
             Example.db_pending in
  status <$> Example.s1 Example.db_pending = Some PENDING
  /\ isOk (fst r) = true
  /\ statusHistory <$> Example.s1 Example.db_pending
     = Some [ {| entry_status := PENDING; changedAt := 100;
                 changedBy := "u1"; notes := None |} ]
  /\ statusHistory <$> Example.s1 (snd r)
     = Some [ {| entry_status := PENDING; changedAt := 100;
                 changedBy := "u1"; notes := None |};
              {| entry_status := PENDING; changedAt := 150;
                 changedBy := "u1"; notes := Some "" |} ]
  /\ actualDelivery <$> Example.s1 (snd r) = Some None.
Proof. vm_compute. repeat split; reflexivity. Qed.

(** Every accepted request for a different status appends two entries to
    [statusHistory]: the service's entry (new status, now, actor, the
    caller's notes or the empty string) followed by the save hook's entry
    (new status, now, actor, no notes).  The earlier entries stay where
    they were, and when the new status is delivered and [actualDelivery]
    was unset it becomes now. *)
Lemma updateStatus_accepted_history
    (e : Env) (id : ObjectId) (req : SHIPMENT_STATUS) (userId : ObjectId)
    (notes : option string) (isAdmin : bool) (db : Db) (s : Shipment)
    (Hfound : shipments db !! id = Some s)
    (Hne : status s <> req)
    (Htn : JsString.truthy (trackingNumber s) = true)
    (Hok : isOk (fst (updateStatus e id req userId notes isAdmin db))
           = true) :
  exists s',
    shipments (snd (updateStatus e id req userId notes isAdmin db)) !! id
    = Some s'
    /\ status s' = req
    /\ statusHistory s'
       = statusHistory s
         ++ [ {| entry_status := req; changedAt := now e;
                 changedBy := userId; notes := Some (default "" notes) |};
              {| entry_status := req; changedAt := now e;
                 changedBy := userId; notes := None |} ]
    /\ length (statusHistory s') = length (statusHistory s) + 2
    /\ (forall i h, statusHistory s !! i = Some h ->
                    statusHistory s' !! i = Some h)
    /\ (req = DELIVERED -> actualDelivery s = None ->
        actualDelivery s' = Some (now e)).
Proof.
  pose proof (updateStatus_unfold e id req userId notes isAdmin db s Hfound)
    as Hrun.
  rewrite (validate_edge _ _ Hne) in Hrun.
  destruct (negb isAdmin && negb (bool_decide (createdBy s = userId)))
    eqn:Hguard; [rewrite Hrun in Hok; discriminate|].
  destruct (tableEdge (status s) req) eqn:Hedge;
    [|rewrite Hrun in Hok; discriminate].
  destruct (updateStatus_accepted e id req userId notes isAdmin db s
              Hfound Hguard) as (p & -> & _);
    [rewrite (validate_edge _ _ Hne), Hedge; reflexivity | exact Htn |].
  destruct (stored_changed e s req userId notes Hne)
    as (Hst & _ & _ & Hh & Had).
  eexists. cbn [snd shipments withShipments].
  split; [apply lookup_insert_eq|].
  split; [exact Hst|]. split; [exact Hh|].
  split; [rewrite Hh, length_app; reflexivity|].
  split.
  - intros i h Hi. rewrite Hh. apply lookup_app_l_Some. exact Hi.
  - intros -> Hnone. rewrite Had, Hnone. reflexivity.
Qed.

(** Every authorized request for the status the shipment already has
    succeeds, keeps status and [actualDelivery], and appends the service's
    entry to [statusHistory]. *)
Lemma updateStatus_same_status
    (e : Env) (id userId : ObjectId) (notes : option string)
    (isAdmin : bool) (db : Db) (s : Shipment) :
  shipments db !! id = Some s ->
  canAccess isAdmin userId s ->
  JsString.truthy (trackingNumber s) = true ->
  let r := updateStatus e id (status s) userId notes isAdmin db in
  exists s',
    isOk (fst r) = true
    /\ shipments (snd r) !! id = Some s'
    /\ status s' = status s
    /\ actualDelivery s' = actualDelivery s
    /\ statusHistory s'
       = statusHistory s
         ++ [ {| entry_status := status s; changedAt := now e;
                 changedBy := userId; notes := Some (default "" notes) |} ].
Proof.
  intros Hfound Hacc Htn. cbv zeta.
  destruct (updateStatus_accepted e id (status s) userId notes isAdmin db s
              Hfound (canAccess_guard _ _ _ Hacc) (validate_self _) Htn)
    as (p & -> & _).
  destruct (stored_same e s userId notes) as (Hst & Hh & Had & _).
  eexists. cbn [fst snd isOk shipments withShipments].
  split; [reflexivity|]. split; [apply lookup_insert_eq|].
  split; [exact Hst|]. split; [exact Had | exact Hh].
Qed.

(** C3 (the code at the failing input). An accepted pending -> in_transit
    request on a shipment with one history entry leaves three entries, not
    two: the service's entry with the notes, and after it the entry of the
    save hook. *)
Theorem updateStatus_accepted_appends_two_entries :
  let r := updateStatus (Example.env 200 "x") "s1" IN_TRANSIT "u1"
             (Some "Package picked up") false Example.db_pending in
  isOk (fst r) = true
  /\ statusHistory <$> Example.s1 Example.db_pending
     = Some [ {| entry_status := PENDING; changedAt := 100;
                 changedBy := "u1"; notes := None |} ]
  /\ statusHistory <$> Example.s1 (snd r)
     = Some [ {| entry_status := PENDING; changedAt := 100;
                 changedBy := "u1"; notes := None |};
              {| entry_status := IN_TRANSIT; changedAt := 200;
                 changedBy := "u1"; notes := Some "Package picked up" |};
              {| entry_status := IN_TRANSIT; changedAt := 200;
                 changedBy := "u1"; notes := None |} ].
Proof. vm_compute. repeat split; reflexivity. Qed.

(** The status-change operation never takes a delivered or cancelled
    shipment anywhere: every request for another status is rejected. *)
Lemma updateStatus_terminal_rejected
    (e : Env) (id userId : ObjectId) (req : SHIPMENT_STATUS)
    (notes : option string) (isAdmin : bool) (db : Db) (s : Shipment) :
  shipments db !! id = Some s ->
  isTerminal (status s) = true -> status s <> req ->
  isOk (fst (updateStatus e id req userId notes isAdmin db)) = false
  /\ snd (updateStatus e id req userId notes isAdmin db) = db.
Proof.
  intros Hfound Hterm Hne.
  rewrite (updateStatus_unfold e id req userId notes isAdmin db s Hfound).
  rewrite (validate_edge _ _ Hne).
  destruct (negb isAdmin && negb (bool_decide (createdBy s = userId)));
    [split; reflexivity|].
  destruct (status s), req; try discriminate; try congruence;
    split; reflexivity.
Qed.

End LifecycleSpec.

(** ** Deletion, terminal states, access and public tracking *)

Module AccessSpec.
Import ShipmentModel ShipmentStatics ShipmentService Lifecycle.

Lemma deleteShipment_unfold id userId isAdmin db s :
  shipments db !! id = Some s ->
  deleteShipment id userId isAdmin db =
    if negb isAdmin && negb (bool_decide (createdBy s = userId))
    then (Throw (HttpErr.forbidden
                   "You do not have access to this shipment"), db)
    else if negb isAdmin && negb (bool_decide (status s = PENDING))
            && negb (bool_decide (status s = CANCELLED))
    then (Throw (HttpErr.badRequest
                   "Can only delete pending or cancelled shipments"), db)
    else (Ok "Shipment deleted successfully",
          withShipments (delete id (shipments db)) db).
Proof.
  intros H. unfold deleteShipment, mbind, Async_bind, findById. rewrite H.
  cbn [fmap option_fmap option_map doc].
  destruct (negb isAdmin && negb (bool_decide (createdBy s = userId)));
    [reflexivity|].
  destruct (negb isAdmin && negb (bool_decide (status s = PENDING))
            && negb (bool_decide (status s = CANCELLED))); reflexivity.
Qed.

(** C6. Deleting as a non-admin owner succeeds exactly when the status is
    pending or cancelled; otherwise it fails with the 400 "Can only
    delete pending or cancelled shipments" and the database is left as
    it was.  Deleting as an admin succeeds whatever the status.  A
    successful delete removes the shipment. *)
Theorem deleteShipment_rule
    (id userId : ObjectId) (isAdmin : bool) (db : Db) (s : Shipment)
    (Hfound : shipments db !! id = Some s) :
  let r := deleteShipment id userId isAdmin db in
  let deleted :=
    (Ok "Shipment deleted successfully",
     withShipments (delete id (shipments db)) db) in
  shipments (snd deleted) !! id = None
  /\ (isAdmin = true -> r = deleted)
  /\ (isAdmin = false -> createdBy s = userId ->
      (status s = PENDING \/ status s = CANCELLED -> r = deleted)
      /\ (status s <> PENDING -> status s <> CANCELLED ->
          r = (Throw (HttpError
                        "Can only delete pending or cancelled shipments"
                        400), db))
      /\ (isOk (fst r) = true <->
          status s = PENDING \/ status s = CANCELLED)).
Proof.
  cbv zeta. rewrite (deleteShipment_unfold _ _ _ _ _ Hfound).
  split; [apply lookup_delete_eq|]. split.
  - intros ->. reflexivity.
  - intros -> <-. cbn [negb andb].
    rewrite (bool_decide_eq_true_2 (createdBy s = createdBy s))
      by reflexivity.
    cbn [negb].
    destruct (status s); cbn; (split; [|split; [|split]]);
      try reflexivity; try discriminate; try tauto;
      intros; try (left; reflexivity); try (right; reflexivity);
      try congruence;
      match goal with H : _ \/ _ |- _ => destruct H; discriminate end.
Qed.

Lemma deleteShipment_rule_witness :
  shipments Example.db_pending !! "s1" = Some Example.pending_s1
  /\ deleteShipment "s1" "u1" false Example.db_pending
     = (Ok "Shipment deleted successfully",
        withShipments (delete "s1" (shipments Example.db_pending))
          Example.db_pending).
Proof.
  assert (Hf : shipments Example.db_pending !! "s1"
               = Some Example.pending_s1) by (vm_compute; reflexivity).
  split; [exact Hf|].
  destruct (deleteShipment_rule "s1" "u1" false Example.db_pending
              Example.pending_s1 Hf) as (_ & _ & Howner).
  destruct (Howner eq_refl eq_refl) as (Hdel & _).
  apply Hdel. left. reflexivity.
Defined.

(** The guard shared by update, status change, delete and the attachment
    operations: a non-admin who is not the owner gets the 403 and nothing
    is written. *)
Lemma stranger_forbidden
    (e : Env) (id userId : ObjectId) (db : Db) (s : Shipment)
    (body : UpdateData) (req : SHIPMENT_STATUS) (notes : option string)
    (info : AttachmentInfo) (attachmentId : string) :
  shipments db !! id = Some s ->
  createdBy s <> userId ->
  let refused {A} : Result A * Db :=
    (Throw (HttpError "You do not have access to this shipment" 403), db) in
  updateShipment e id body userId false db = refused
  /\ updateStatus e id req userId notes false db = refused
  /\ deleteShipment id userId false db = refused
  /\ addAttachment e id info userId false db = refused
  /\ removeAttachment e id attachmentId userId false db = refused.
Proof.
  intros Hfound Hne. cbv zeta.
  unfold updateShipment, updateStatus, deleteShipment, addAttachment,
    removeAttachment, mbind, Async_bind, findById.
  rewrite Hfound. cbn [fmap option_fmap option_map doc negb andb].
  rewrite (bool_decide_eq_false_2 _ Hne). cbn [negb].
  repeat split; reflexivity.
Qed.

(** Reading by id applies the same rule, on the populated owner: with the
    owner's account in place and an actor id given, a non-admin who is not
    the owner gets the 403 and everybody else gets the shipment. *)
Lemma getShipmentById_rule
    (id : ObjectId) (uid : string) (isAdmin : bool) (db : Db) (s : Shipment)
    (owner : PopulatedUser) :
  shipments db !! id = Some s ->
  populateUser db (createdBy s) = Some owner ->
  JsString.truthy uid = true ->
  getShipmentById id (Some uid) isAdmin db
  = if negb isAdmin && negb (bool_decide (createdBy s = uid))
    then (Throw (HttpError "You do not have access to this shipment" 403),
          db)
    else (Ok {| shipment_id := id; shipment := s;
                populatedCreatedBy := Some owner;
                populatedChangedBy :=
                  Some ((fun h => populateUser db (changedBy h))
                          <$> statusHistory s) |}, db).
Proof.
  intros Hfound Howner Huid.
  assert (Hid : pop_id owner = createdBy s).
  { unfold populateUser in Howner.
    destruct (UserModel.lookupById (createdBy s) (users db))
      as [[i u]|] eqn:Hl; [|discriminate].
    injection Howner as <-. cbn [pop_id snd].
    apply list_find_Some in Hl as (_ & Hu & _). exact Hu. }
  unfold getShipmentById, mbind, Async_bind, findById, populate.
  rewrite Hfound. cbn [fmap option_fmap option_map doc doc_id].
  cbn [populatedCreatedBy]. rewrite Huid, Howner, Hid, andb_true_r.
  destruct (negb isAdmin); cbn [andb]; [|reflexivity].
  destruct (bool_decide (createdBy s = uid)); reflexivity.
Qed.

(** Saving a loaded shipment whose attachments were replaced and whose
    [updatedBy] was set stores it with the status it had. *)
Lemma attachments_edit_saved
    (e : Env) (id userId : ObjectId) (atts : list Attachment) (db : Db)
    (s : Shipment) :
  JsString.truthy (trackingNumber s) = true ->
  let d := set_updatedBy userId
             (assign "attachments" true (withAttachments atts s)
                (hydrate id s)) in
  exists s',
    save e d db
    = (Ok {| doc_id := id; doc := s'; isNew := false; modifiedPaths := [] |},
       withShipments (<[id := s']> (shipments db)) db)
    /\ status s' = status s /\ attachments s' = atts.
Proof.
  intros Htn. cbv zeta.
  set (d0 := assign "attachments" true (withAttachments atts s)
               (hydrate id s)).
  set (d := set_updatedBy userId d0).
  assert (Hd0 : doc d0 = withAttachments atts s)
    by (apply DocumentFacts.assign_doc; discriminate).
  assert (Hdoc : doc d = withUpdatedBy (Some userId) (withAttachments atts s))
    by (unfold d; rewrite DocumentFacts.set_updatedBy_doc, Hd0; reflexivity).
  assert (Hmp : exists b, modifiedPaths d
                          = mark b "updatedBy" ++ ["attachments"]).
  { eexists. unfold d. rewrite DocumentFacts.set_updatedBy_modifiedPaths.
    unfold d0. rewrite DocumentFacts.assign_modifiedPaths. reflexivity. }
  destruct Hmp as (b & Hmp).
  assert (Hn : isNew d = false).
  { unfold d, set_updatedBy, d0.
    rewrite !DocumentFacts.assign_isNew. reflexivity. }
  assert (Hid : doc_id d = id).
  { unfold d, set_updatedBy, d0.
    rewrite !DocumentFacts.assign_doc_id. reflexivity. }
  assert (Hm : modifiedPaths d <> [])
    by (rewrite Hmp; destruct b; discriminate).
  assert (Ht : JsString.truthy (trackingNumber (doc d)) = true)
    by (rewrite Hdoc; exact Htn).
  assert (Hno : forall p, p <> "updatedBy" -> p <> "attachments" ->
                          isModified p d = false).
  { intros p H1 H2. unfold isModified. apply bool_decide_eq_false_2.
    rewrite Hmp, elem_of_app, DocumentFacts.elem_of_mark,
      list_elem_of_singleton. tauto. }
  destruct (DocumentFacts.preSave_stored e d Hn Hm Ht) as (_ & _ & Hpre & _).
  rewrite (Hno "status") in Hpre by discriminate. cbv zeta in Hpre.
  rewrite (DocumentFacts.save_stored e d db Hn Hm Ht
             (Hno "trackingNumber" ltac:(discriminate) ltac:(discriminate))).
  rewrite Hid, Hpre, Hdoc. eexists. split; [reflexivity|].
  split; reflexivity.
Qed.

(** Adding or removing an attachment never changes the status of the
    shipment, whatever the outcome of the call. *)
Lemma attachments_keep_status
    (e : Env) (id userId : ObjectId) (info : AttachmentInfo)
    (attachmentId : string) (isAdmin : bool) (db : Db) (s : Shipment) :
  shipments db !! id = Some s ->
  JsString.truthy (trackingNumber s) = true ->
  status <$> shipments (snd (addAttachment e id info userId isAdmin db)) !! id
  = Some (status s)
  /\ status
       <$> shipments
             (snd (removeAttachment e id attachmentId userId isAdmin db))
           !! id
     = Some (status s).
Proof.
  intros Hfound Htn.
  assert (Hsame : status <$> shipments db !! id = Some (status s))
    by (rewrite Hfound; reflexivity).
  unfold addAttachment, removeAttachment, mbind, Async_bind, findById.
  rewrite Hfound. cbn [fmap option_fmap option_map doc].
  destruct (negb isAdmin && negb (bool_decide (createdBy s = userId)));
    [split; exact Hsame|].
  split.
  - unfold push_attachment. cbn [doc].
    destruct (attachments_edit_saved e id userId
                (attachments s ++ [mkAttachment (newSubdocId e 0) (now e) info])
                db s Htn) as (s' & Hsave & Hst & _).
    unfold hydrate in Hsave. rewrite Hsave.
    cbn [snd mret Async_ret shipments withShipments].
    rewrite lookup_insert_eq. cbn. rewrite Hst. reflexivity.
  - destruct (list_find _ (attachments s)) as [[i a]|]; [|exact Hsame].
    unfold splice_attachment. cbn [doc].
    destruct (attachments_edit_saved e id userId (delete i (attachments s))
                db s Htn) as (s' & Hsave & Hst & _).
    unfold hydrate in Hsave. rewrite Hsave.
    cbn [snd mret Async_ret shipments withShipments].
    rewrite lookup_insert_eq. cbn. rewrite Hst. reflexivity.
Qed.

(** C4 (the code at the failing input). The shipment of the running
    example has been delivered; the status-change operation refuses to
    move it, but the generic update, given a body with
    [status: "pending"], stores the status pending again. *)
Theorem updateShipment_reopens_delivered :
  let body := Example.setStatusOnly PENDING in
  let r := updateShipment (Example.env 400 "x") "s1" body "u1" false
             Example.db_delivered in
  status <$> Example.s1 Example.db_delivered = Some DELIVERED
  /\ fst (updateStatus (Example.env 400 "x") "s1" PENDING "u1" None false
            Example.db_delivered)
     = Throw (HttpError "Cannot transition from delivered to pending" 400)
  /\ isOk (fst r) = true
  /\ status <$> Example.s1 (snd r) = Some PENDING.
Proof. vm_compute. repeat split; reflexivity. Qed.

(** C5 (the code at the failing input). Bob ([u2], not an admin) does not
    own Alice's shipment: reading it by id is refused with 403, but
    reading it by tracking number, which takes no actor at all, returns
    the whole shipment together with the owner's name and email. *)
Theorem getShipmentByTrackingNumber_ignores_ownership :
  createdBy <$> Example.s1 Example.db_pending = Some "u1"
  /\ fst (getShipmentById "s1" (Some "u2") false Example.db_pending)
     = Throw (HttpError "You do not have access to this shipment" 403)
  /\ fst (getShipmentByTrackingNumber "SHP-LX2K9-S1" Example.db_pending)
     = Ok {| shipment_id := "s1";
             shipment := Example.pending_s1;
             populatedCreatedBy :=
               Some {| pop_id := "u1"; pop_name := "Alice";
                       pop_email := "alice@example.com" |};
             populatedChangedBy := None |}.
Proof. vm_compute. repeat split; reflexivity. Qed.

(** The projection of the public tracking answer never has a key outside
    the selected paths and [_id]; in particular no [createdBy] key. *)
Lemma trackShipment_keys trackingNumber db v :
  fst (trackShipment trackingNumber db) = Ok v ->
  (forall k, k ∈ keys v -> k ∈ publicKeys)
  /\ getField "createdBy" v = None.
Proof.
  unfold trackShipment, mbind, Async_bind.
  destruct (findByTrackingNumber trackingNumber db) as [[[[id s]|]|err] db'];
    cbn [fst mret Async_ret throw]; try discriminate.
  intros [= <-].
  assert (Hk : forall k, k ∈ keys (select trackFields (toObject id s)) ->
                         k ∈ publicKeys).
  { intros k. unfold keys, select. rewrite list_elem_of_fmap.
    intros ((k' & v') & -> & Hin).
    apply list_elem_of_filter in Hin. destruct Hin as [Hp _].
    cbn [fst] in *. destruct Hp as [-> | Hp].
    - apply list_elem_of_here.
    - replace (JsString.words trackFields) with (tail publicKeys) in Hp
        by (vm_compute; reflexivity).
      apply list_elem_of_further. exact Hp. }
  split; [exact Hk|].
  unfold getField.
  destruct (list_find _ _) as [[i [k' v']]|] eqn:Hfind; [|reflexivity].
  apply list_find_Some in Hfind as (Hi & Hkey & _). cbn [fst] in Hkey.
  subst k'. exfalso.
  assert (Hin : "createdBy" ∈ keys (select trackFields (toObject id s))).
  { unfold keys. apply list_elem_of_fmap. exists ("createdBy", v').
    split; [reflexivity|]. apply list_elem_of_lookup. exists i. exact Hi. }
  apply Hk in Hin.
  revert Hin. apply (bool_decide_eq_false_1 ("createdBy" ∈ publicKeys)).
  vm_compute. reflexivity.
Qed.

(** C7 (the code at the failing input). The public tracking answer for
    Alice's shipment has no [createdBy] key, yet her user id is in it:
    the selected [statusHistory] carries [changedBy], and the entry
    written at creation was changed by the owner. *)
Theorem trackShipment_exposes_owner_id :
  exists v,
    fst (trackShipment "SHP-LX2K9-S1" Example.db_pending) = Ok v
    /\ createdBy <$> Example.s1 Example.db_pending = Some "u1"
    /\ getField "createdBy" v = None
    /\ getField "statusHistory" v
       = Some (VArray [VObject [("status", VString "pending");
                                ("changedAt", VDate 100);
                                ("changedBy", VObjectId "u1")]])
    /\ mentionsId "u1" (VObject v) = true.
Proof. eexists. vm_compute. repeat split; reflexivity. Qed.

End AccessSpec.

(** ** Letter case and trimming *)

Module JsStringFacts.
Import JsString.

Lemma lowerChar_idemp c : lowerChar (lowerChar c) = lowerChar c.
Proof. destruct c as [[] [] [] [] [] [] [] []]; reflexivity. Qed.

Lemma isSpace_lowerChar c : isSpace (lowerChar c) = isSpace c.
Proof. destruct c as [[] [] [] [] [] [] [] []]; reflexivity. Qed.

Lemma toLowerCase_idemp s : toLowerCase (toLowerCase s) = toLowerCase s.
Proof.
  induction s as [|c s IH]; [reflexivity|].
  cbn [toLowerCase]. rewrite lowerChar_idemp, IH. reflexivity.
Qed.

Lemma toLowerCase_trimStart s :
  toLowerCase (trimStart s) = trimStart (toLowerCase s).
Proof.
  induction s as [|c s IH]; [reflexivity|].
  cbn [toLowerCase trimStart]. rewrite isSpace_lowerChar.
  destruct (isSpace c); [exact IH | reflexivity].
Qed.

Lemma toLowerCase_trimEnd s :
  toLowerCase (trimEnd s) = trimEnd (toLowerCase s).
Proof.
  induction s as [|c s IH]; [reflexivity|].
  cbn [toLowerCase trimEnd]. rewrite <- IH, isSpace_lowerChar.
  destruct (trimEnd s); [destruct (isSpace c)|]; reflexivity.
Qed.

Lemma toLowerCase_trim s : toLowerCase (trim s) = trim (toLowerCase s).
Proof.
  unfold trim. rewrite toLowerCase_trimEnd, toLowerCase_trimStart.
  reflexivity.
Qed.

End JsStringFacts.

(** ** Looking users up *)

Module UserFacts.
Import UserModel UserService Accounts JsStringFacts.

(** What the [email] setters store is already in lower case. *)
Lemma emailSetter_lower v :
  JsString.toLowerCase (emailSetter v) = emailSetter v.
Proof.
  unfold emailSetter.
  rewrite toLowerCase_trim, toLowerCase_idemp. reflexivity.
Qed.

(** The query of [findByEmail] only depends on the lowered email. *)
Lemma emailSetter_toLowerCase v :
  emailSetter (JsString.toLowerCase v) = emailSetter v.
Proof. unfold emailSetter. rewrite toLowerCase_idemp. reflexivity. Qed.

Lemma findByEmail_same_case v w us :
  JsString.toLowerCase v = JsString.toLowerCase w ->
  findByEmail v us = findByEmail w us.
Proof. intros H. unfold findByEmail. rewrite H. reflexivity. Qed.

Lemma findOneByEmail_Some v us u :
  findOneByEmail v us = Some u ->
  exists i, list_find (fun u => email u = emailSetter v) us = Some (i, u).
Proof.
  unfold findOneByEmail.
  destruct (list_find _ us) as [[i u']|]; [|discriminate].
  intros [= <-]. exists i. reflexivity.
Qed.

(** With unique ids, the document found by email is the one
    [findByIdAndUpdate] reaches through its [_id]. *)
Lemma lookupById_found us i u :
  NoDup (_id <$> us) -> us !! i = Some u ->
  lookupById (_id u) us = Some (i, u).
Proof.
  intros Hnd Hi. unfold lookupById. apply list_find_Some.
  split; [exact Hi|]. split; [reflexivity|].
  intros j y Hj Hlt Hy.
  assert (j = i); [|lia].
  apply (NoDup_lookup (_id <$> us) j i (_id u) Hnd).
  - rewrite list_lookup_fmap, Hj. cbn. rewrite Hy. reflexivity.
  - rewrite list_lookup_fmap, Hi. reflexivity.
Qed.

(** Overwriting the found document with one of the same email keeps it
    the first match. *)
Lemma list_find_email_insert v us i u u' :
  list_find (fun u => email u = v) us = Some (i, u) ->
  email u' = v ->
  list_find (fun u => email u = v) (<[i := u']> us) = Some (i, u').
Proof.
  intros Hfind He. apply list_find_Some in Hfind as (Hi & _ & Hmin).
  apply list_find_Some. split.
  - apply list_lookup_insert_eq. apply lookup_lt_Some in Hi. exact Hi.
  - split; [exact He|]. intros j y Hj Hlt.
    rewrite list_lookup_insert_ne in Hj by lia. exact (Hmin j y Hj Hlt).
Qed.

Lemma login_unfold K e v password db :
  login K e v password db =
    match findOneByEmail (JsString.toLowerCase v) (users db) with
    | None => (Throw (HttpErr.unauthorized "Invalid email or password"), db)
    | Some u =>
        if negb (isActive u)
        then (Throw (HttpErr.forbidden "Account is deactivated"), db)
        else if negb (comparePassword K u password)
        then (Throw (HttpErr.unauthorized "Invalid email or password"), db)
        else
          (u ← save K e (negb (bool_decide (lastLogin u = Some (now e))))
                 (withLastLogin (now e) u);
           mret {| user := toJSON u; token := generateAuthToken K u |}) db
    end.
Proof.
  unfold login, mbind, Async_bind, getDb.
  destruct (findOneByEmail _ _) as [u|]; [|reflexivity].
  destruct (negb (isActive u)); [reflexivity|].
  destruct (negb (comparePassword K u password)); reflexivity.
Qed.

Lemma save_isOk K e modified u db : isOk (fst (save K e modified u db)) = true.
Proof.
  unfold save. destruct (negb modified); [reflexivity|].
  destruct (lookupById _ _) as [[i u']|]; reflexivity.
Qed.

(** An active account and the right password: the login goes through. *)
Lemma login_succeeds K e v password db u :
  findOneByEmail (JsString.toLowerCase v) (users db) = Some u ->
  isActive u = true -> comparePassword K u password = true ->
  isOk (fst (login K e v password db)) = true.
Proof.
  intros Hf Ha Hp. rewrite login_unfold, Hf, Ha, Hp. cbn [negb].
  unfold mbind, Async_bind.
  pose proof (save_isOk K e
                (negb (bool_decide (lastLogin u = Some (now e))))
                (withLastLogin (now e) u) db) as Hs.
  destruct (save K e _ _ db) as [[u'|err] db']; [reflexivity|discriminate].
Qed.

End UserFacts.

(** ** Properties of accounts *)

Module AccountSpec.
Import UserModel UserService Accounts JsStringFacts UserFacts.

(** C10. The active flag is checked before the password: for a
    deactivated account the login ends with the 403 "Account is
    deactivated" whatever password is supplied and whatever the password
    check would answer, and nothing is written. *)
Theorem login_deactivated_whatever_password
    (K : Collaborators) (e : Env) (v password : string) (db : Db) (u : User)
    (Hfound : findOneByEmail (JsString.toLowerCase v) (users db) = Some u)
    (Hinactive : isActive u = false) :
  login K e v password db
  = (Throw (HttpError "Account is deactivated" 403), db)
  /\ forall (K' : Collaborators) (password' : string),
       login K' e v password' db = login K e v password db.
Proof.
  assert (H : forall K' p',
            login K' e v p' db
            = (Throw (HttpError "Account is deactivated" 403), db)).
  { intros K' p'. rewrite login_unfold, Hfound, Hinactive. reflexivity. }
  split; [apply H|]. intros K' p'. rewrite !H. reflexivity.
Qed.

Lemma login_deactivated_whatever_password_witness :
  findOneByEmail (JsString.toLowerCase "Alice@Example.com")
    (users Example.db_deactivated) = Some Example.alice_inactive
  /\ isActive Example.alice_inactive = false
  /\ login Example.toy (Example.env 50 "x") "Alice@Example.com"
       "not the password" Example.db_deactivated
     = (Throw (HttpError "Account is deactivated" 403),
        Example.db_deactivated).
Proof.
  assert (Hf : findOneByEmail (JsString.toLowerCase "Alice@Example.com")
                 (users Example.db_deactivated)
               = Some Example.alice_inactive) by (vm_compute; reflexivity).
  split; [exact Hf|]. split; [reflexivity|].
  apply (login_deactivated_whatever_password Example.toy
           (Example.env 50 "x") "Alice@Example.com" "not the password"
           Example.db_deactivated Example.alice_inactive Hf eq_refl).
Defined.

(** C8. For a user whose active flag is false, a login with the correct
    password fails with 403 (not the 401 of bad credentials) and writes
    nothing; once the user is activated again, the same credentials log
    in, while a wrong password then gets the 401. *)
Theorem login_deactivated_forbidden_until_reactivated
    (K : Collaborators) (e e1 e2 : Env) (v password : string) (db : Db)
    (u : User)
    (Hids : idsUnique db)
    (Hfound : findOneByEmail (JsString.toLowerCase v) (users db) = Some u)
    (Hinactive : isActive u = false)
    (Hpassword : comparePassword K u password = true) :
  login K e v password db
  = (Throw (HttpErr.forbidden "Account is deactivated"), db)
  /\ errorHandler (HttpErr.forbidden "Account is deactivated") = 403%Z
  /\ errorHandler (HttpErr.unauthorized "Invalid email or password") = 401%Z
  /\ let reactivated := activateUser e1 (_id u) db in
     isOk (fst reactivated) = true
     /\ isOk (fst (login K e2 v password (snd reactivated))) = true
     /\ forall wrong,
          comparePassword K u wrong = false ->
          fst (login K e2 v wrong (snd reactivated))
          = Throw (HttpErr.unauthorized "Invalid email or password").
Proof.
  split; [apply (login_deactivated_whatever_password K e v password db u
                   Hfound Hinactive)|].
  split; [reflexivity|]. split; [reflexivity|]. cbv zeta.
  destruct (findOneByEmail_Some _ _ _ Hfound) as (i & Hfind).
  pose proof (proj1 (list_find_Some _ _ _ _) Hfind) as (Hi & _ & _).
  unfold activateUser, updateById.
  rewrite (lookupById_found (users db) i u Hids Hi).
  set (u' := withUpdatedAt (now e1) (withIsActive true u)).
  cbn [fst snd isOk users withUsers].
  assert (Hfound' : findOneByEmail (JsString.toLowerCase v)
                      (<[i := u']> (users db)) = Some u').
  { unfold findOneByEmail.
    rewrite (list_find_email_insert _ _ _ _ u' Hfind); [reflexivity|].
    apply list_find_Some in Hfind as (_ & He & _). exact He. }
  split; [reflexivity|]. split.
  - apply (login_succeeds K e2 v password _ u'); [exact Hfound' | | ];
      [reflexivity | exact Hpassword].
  - intros wrong Hwrong. rewrite login_unfold.
    cbn [users withUsers]. rewrite Hfound'.
    change (isActive u') with true.
    change (comparePassword K u' wrong) with (comparePassword K u wrong).
    rewrite Hwrong. reflexivity.
Qed.

Lemma login_deactivated_forbidden_until_reactivated_witness :
  idsUnique Example.db_deactivated
  /\ findOneByEmail (JsString.toLowerCase "Alice@Example.com")
       (users Example.db_deactivated) = Some Example.alice_inactive
  /\ comparePassword Example.toy Example.alice_inactive "password123"
     = true
  /\ isOk (fst (login Example.toy (Example.env 70 "x") "Alice@Example.com"
                  "password123"
                  (snd (activateUser (Example.env 60 "x") "u1"
                          Example.db_deactivated))))
     = true.
Proof.
  assert (Hids : idsUnique Example.db_deactivated).
  { unfold idsUnique.
    replace (_id <$> users Example.db_deactivated) with ["u1"; "u2"; "u3"]
      by (vm_compute; reflexivity).
    repeat (apply NoDup_cons; split;
            [rewrite ?elem_of_cons, elem_of_nil;
             intros H; repeat destruct H as [H | H]; discriminate || exact H
            |]).
    apply NoDup_nil. exact I. }
  assert (Hf : findOneByEmail (JsString.toLowerCase "Alice@Example.com")
                 (users Example.db_deactivated)
               = Some Example.alice_inactive) by (vm_compute; reflexivity).
  assert (Hp : comparePassword Example.toy Example.alice_inactive
                 "password123" = true) by (vm_compute; reflexivity).
  split; [exact Hids|]. split; [exact Hf|]. split; [exact Hp|].
  destruct (login_deactivated_forbidden_until_reactivated Example.toy
              (Example.env 50 "x") (Example.env 60 "x")
              (Example.env 70 "x") "Alice@Example.com" "password123"
              Example.db_deactivated Example.alice_inactive
              Hids Hf eq_refl Hp) as (_ & _ & _ & _ & Hlogin & _).
  exact Hlogin.
Defined.

Lemma register_unfold K e data db :
  register K e data db =
    match findByEmail (data_email data) (users db) with
    | Some _ => (Throw (HttpErr.conflict "Email already registered"), db)
    | None =>
        match create K e data db with
        | (Ok u, db') =>
            (Ok {| user := toJSON u; token := generateAuthToken K u |}, db')
        | (Throw err, db') => (Throw err, db')
        end
    end.
Proof.
  unfold register, mbind, Async_bind, getDb.
  destruct (findByEmail _ _); [reflexivity|].
  destruct (create K e data db) as [[u|err] db']; reflexivity.
Qed.

(** [create] either throws and writes nothing, or appends one user whose
    email is the setters' image of the requested one. *)
Lemma create_cases K e data db :
  (exists err, create K e data db = (Throw err, db))
  \/ (exists u,
        create K e data db = (Ok u, withUsers (users db ++ [u]) db)
        /\ email u = emailSetter (data_email data)).
Proof.
  unfold create.
  destruct (existsb _ (users db)); [left; eexists; reflexivity|].
  destruct (existsb _ (users db)); [left; eexists; reflexivity|].
  right. eexists. split; reflexivity.
Qed.

(** Registration keeps stored emails unique up to letter case. *)
Lemma register_emailsUnique K e data db :
  emailsUnique db -> emailsUnique (snd (register K e data db)).
Proof.
  intros [Hlow Hnd]. rewrite register_unfold.
  destruct (findByEmail (data_email data) (users db)) as [x|] eqn:Hfind;
    [split; assumption|].
  destruct (create_cases K e data db) as [(err & ->) | (u & -> & He)];
    [split; assumption|].
  cbn [snd]. unfold emailsUnique. cbn [users withUsers].
  assert (Hu : JsString.toLowerCase (email u) = email u)
    by (rewrite He; apply emailSetter_lower).
  split.
  - apply Forall_app. split; [exact Hlow|].
    apply Forall_singleton. exact Hu.
  - rewrite fmap_app. apply NoDup_app. split; [exact Hnd|]. split.
    + intros x Hx Hx'. apply list_elem_of_singleton in Hx'. cbn in Hx'.
      apply list_elem_of_fmap in Hx as (u0 & -> & Hin).
      unfold findByEmail, findOneByEmail in Hfind.
      destruct (list_find _ (users db)) as [p|] eqn:Hlf; [discriminate|].
      apply list_find_None in Hlf.
      rewrite Forall_forall in Hlf, Hlow.
      apply (Hlf u0 Hin).
      rewrite emailSetter_toLowerCase, <- He, <- Hu, <- Hx'.
      symmetry. apply Hlow, Hin.
    + apply NoDup_singleton.
Qed.

(** C9. When a registration has succeeded, a second registration whose
    email equals the first up to letter case fails with the 409 "Email
    already registered" and writes nothing, so no second user is
    created; and every registration, whatever its outcome, keeps the
    stored emails unique up to letter case. *)
Theorem register_same_email_conflict
    (K : Collaborators) (e1 e2 : Env) (first second : UserData) (db : Db)
    (Hfirst : isOk (fst (register K e1 first db)) = true)
    (Hsame : JsString.toLowerCase (data_email first)
             = JsString.toLowerCase (data_email second)) :
  let db1 := snd (register K e1 first db) in
  register K e2 second db1
  = (Throw (HttpError "Email already registered" 409), db1)
  /\ length (users db1) = S (length (users db))
  /\ length (users (snd (register K e2 second db1))) = length (users db1)
  /\ (emailsUnique db ->
      emailsUnique db1 /\ emailsUnique (snd (register K e2 second db1))).
Proof.
  cbv zeta.
  assert (Hinv : emailsUnique db ->
            emailsUnique (snd (register K e1 first db))
            /\ emailsUnique
                 (snd (register K e2 second
                         (snd (register K e1 first db))))).
  { intros H. split; repeat apply register_emailsUnique; exact H. }
  revert Hinv. rewrite (register_unfold K e1 first db) in *.
  destruct (findByEmail (data_email first) (users db)); [discriminate|].
  destruct (create_cases K e1 first db) as [(err & Hc) | (u & Hc & He)];
    rewrite Hc in *; [discriminate|].
  cbn [snd]. intros Hinv.
  assert (Hconflict :
            register K e2 second (withUsers (users db ++ [u]) db)
            = (Throw (HttpError "Email already registered" 409),
               withUsers (users db ++ [u]) db)).
  { rewrite register_unfold.
    rewrite <- (findByEmail_same_case _ _ _ Hsame).
    unfold findByEmail, findOneByEmail. cbn [users withUsers].
    destruct (list_find _ (users db ++ [u])) as [p|] eqn:Hlf;
      [reflexivity|].
    apply list_find_None in Hlf. rewrite Forall_forall in Hlf.
    exfalso. apply (Hlf u).
    - apply elem_of_app. right. apply list_elem_of_singleton. reflexivity.
    - rewrite emailSetter_toLowerCase. exact He. }
  split; [exact Hconflict|]. split.
  - cbn [users withUsers]. rewrite length_app. cbn. lia.
  - split; [rewrite Hconflict; reflexivity | exact Hinv].
Qed.

Lemma register_same_email_conflict_witness :
  isOk (fst (register Example.toy (Example.env 10 "u1") Example.alice
               Example.empty)) = true
  /\ JsString.toLowerCase (data_email Example.alice)
     = JsString.toLowerCase (data_email Example.alice_again)
  /\ fst (register Example.toy (Example.env 20 "u2") Example.alice_again
            (snd (register Example.toy (Example.env 10 "u1") Example.alice
                    Example.empty)))
     = Throw (HttpError "Email already registered" 409).
Proof.
  assert (H1 : isOk (fst (register Example.toy (Example.env 10 "u1")
                            Example.alice Example.empty)) = true)
    by (vm_compute; reflexivity).
  assert (H2 : JsString.toLowerCase (data_email Example.alice)
               = JsString.toLowerCase (data_email Example.alice_again))
    by (vm_compute; reflexivity).
  split; [exact H1|]. split; [exact H2|].
  destruct (register_same_email_conflict Example.toy (Example.env 10 "u1")
              (Example.env 20 "u2") Example.alice Example.alice_again
              Example.empty H1 H2) as (Hconflict & _).
  rewrite Hconflict. reflexivity.
Defined.

End AccountSpec.

(** ** Virtuals, generated names and the pagination block *)

Module UtilitySpec.
Import ShipmentModel ShipmentVirtuals.

(** [ceilDiv a b] is the least [n] with [a <= n * b]. *)
Lemma ceilDiv_spec (a b : Z) :
  (0 < b)%Z ->
  ((ceilDiv a b - 1) * b < a <= ceilDiv a b * b)%Z.
Proof.
  intros Hb. unfold ceilDiv.
  pose proof (Z.mul_div_le (- a) b Hb).
  pose proof (Z.mul_succ_div_gt (- a) b Hb).
  nia.
Qed.

Lemma ceilDiv_least (a b n : Z) :
  (0 < b)%Z -> (a <= n * b)%Z -> (ceilDiv a b <= n)%Z.
Proof. intros Hb Hn. pose proof (ceilDiv_spec a b Hb). nia. Qed.

(** X1. The days-in-transit virtual is 0 while the shipment is pending;
    otherwise it is the least number of whole days that covers the time
    between creation and the delivery (or now, while undelivered), so it
    is never negative; and once [actualDelivery] is set it no longer
    depends on the clock. *)
Theorem daysInTransit_whole_days (e : Env) (s : Shipment) :
  (status s = PENDING -> daysInTransit e s = 0%Z)
  /\ (status s <> PENDING ->
      let elapsed :=
        Z.abs (default (now e) (actualDelivery s) - createdAt s) in
      (0 <= daysInTransit e s)%Z
      /\ ((daysInTransit e s - 1) * msPerDay < elapsed
          <= daysInTransit e s * msPerDay)%Z
      /\ forall n, (elapsed <= n * msPerDay)%Z -> (daysInTransit e s <= n)%Z)
  /\ (is_Some (actualDelivery s) ->
      forall e', daysInTransit e' s = daysInTransit e s).
Proof.
  assert (Hday : (0 < msPerDay)%Z) by reflexivity.
  unfold daysInTransit. split; [|split].
  - intros ->. reflexivity.
  - intros Hne. rewrite bool_decide_eq_false_2 by exact Hne. cbv zeta.
    set (elapsed := Z.abs _).
    pose proof (ceilDiv_spec elapsed msPerDay Hday) as Hs.
    assert (0 <= elapsed)%Z by apply Z.abs_nonneg.
    split; [nia|]. split; [exact Hs|].
    intros n Hn. apply ceilDiv_least; assumption.
  - intros [a Ha] e'. rewrite Ha. reflexivity.
Qed.

(** X2. In the pagination block of a listing answer, for a positive page
    size: [totalPages] is the least number of pages that holds all items,
    [hasNextPage] says exactly that items remain after the current page,
    and [hasPrevPage] that the page is not the first. *)
Theorem paginated_block (page limit total : Z) (Hlimit : (0 < limit)%Z) :
  let p := ApiResponse.paginated page limit total in
  (total <= ApiResponse.totalPages p * limit)%Z
  /\ (forall n, (total <= n * limit)%Z -> (ApiResponse.totalPages p <= n)%Z)
  /\ (ApiResponse.hasNextPage p = true <-> (page * limit < total)%Z)
  /\ (ApiResponse.hasPrevPage p = true <-> (1 < page)%Z)
  /\ ApiResponse.totalItems p = total.
Proof.
  cbv zeta. unfold ApiResponse.paginated.
  cbn [ApiResponse.totalPages ApiResponse.hasNextPage ApiResponse.hasPrevPage
       ApiResponse.totalItems].
  pose proof (ceilDiv_spec total limit Hlimit) as Hs.
  split; [lia|]. split; [intros n Hn; apply ceilDiv_least; assumption|].
  split; [|split; [apply Z.ltb_lt | reflexivity]].
  rewrite Z.ltb_lt. split; intros H; nia.
Qed.

Lemma paginated_block_witness :
  (0 < 10)%Z
  /\ ApiResponse.paginated 2 10 25
     = {| ApiResponse.currentPage := 2; ApiResponse.totalPages := 3;
          ApiResponse.totalItems := 25; ApiResponse.itemsPerPage := 10;
          ApiResponse.hasNextPage := true; ApiResponse.hasPrevPage := true |}
  /\ (25 <= ApiResponse.totalPages (ApiResponse.paginated 2 10 25) * 10)%Z.
Proof.
  split; [reflexivity|]. split; [reflexivity|].
  apply (paginated_block 2 10 25). reflexivity.
Defined.

Lemma upperChar_idemp c :
  JsString.upperChar (JsString.upperChar c) = JsString.upperChar c.
Proof. destruct c as [[] [] [] [] [] [] [] []]; reflexivity. Qed.

Lemma toUpperCase_idemp s :
  JsString.toUpperCase (JsString.toUpperCase s) = JsString.toUpperCase s.
Proof.
  induction s as [|c s IH]; [reflexivity|].
  cbn [JsString.toUpperCase]. rewrite upperChar_idemp, IH. reflexivity.
Qed.

Lemma toUpperCase_app s t :
  JsString.toUpperCase (s +:+ t)
  = JsString.toUpperCase s +:+ JsString.toUpperCase t.
Proof.
  induction s as [|c s IH]; [reflexivity|].
  simpl. rewrite IH. reflexivity.
Qed.

Lemma upperChar_lowerChar c :
  JsString.upperChar (JsString.lowerChar c) = JsString.upperChar c.
Proof. destruct c as [[] [] [] [] [] [] [] []]; reflexivity. Qed.

(** Upper case does not see the letter case of its argument. *)
Lemma toUpperCase_toLowerCase s :
  JsString.toUpperCase (JsString.toLowerCase s) = JsString.toUpperCase s.
Proof.
  induction s as [|c s IH]; [reflexivity|].
  cbn [JsString.toUpperCase JsString.toLowerCase].
  rewrite upperChar_lowerChar, IH. reflexivity.
Qed.

(** X3. A generated tracking number starts with "SHP-", is not empty, and
    is its own upper-case form: the [uppercase] setter stores it as it is
    and the save hook, which generates one only when none is set, leaves
    it alone. *)
Theorem generateTrackingNumber_shape (nowMs : Z) (randomText : string) :
  let t := generateTrackingNumber nowMs randomText in
  String.prefix "SHP-" t = true
  /\ JsString.truthy t = true
  /\ JsString.toUpperCase t = t
  /\ forall e d,
       trackingNumber (doc d) = t -> preSaveTrackingNumber e d = d.
Proof.
  cbv zeta. unfold generateTrackingNumber. cbv zeta.
  set (ts := JsString.toUpperCase (toString36 (Z.to_N nowMs))).
  set (rs := JsString.toUpperCase (String.substring 2 6 randomText)).
  assert (Hup : JsString.toUpperCase ("SHP" +:+ "-" +:+ ts +:+ "-" +:+ rs)
                = "SHP" +:+ "-" +:+ ts +:+ "-" +:+ rs).
  { rewrite !toUpperCase_app. unfold ts, rs. rewrite !toUpperCase_idemp.
    reflexivity. }
  clearbody ts rs.
  split; [simpl; destruct (ts +:+ "-" +:+ rs); reflexivity|].
  split; [reflexivity|]. split; [exact Hup|].
  intros e d Hd. unfold preSaveTrackingNumber. rewrite Hd. reflexivity.
Qed.

Lemma substring_length n s :
  (String.length (String.substring 0 n s) <= n)%nat.
Proof.
  revert s. induction n as [|n IH]; intros [|c s]; cbn; try lia.
  specialize (IH s). lia.
Qed.

Lemma substring_short n s :
  (String.length s <= n)%nat -> String.substring 0 n s = s.
Proof.
  revert s. induction n as [|n IH]; intros [|c s]; cbn; try reflexivity;
    try lia.
  intros H. rewrite IH by lia. reflexivity.
Qed.

Lemma substring_Forall (P : ascii -> Prop) n s :
  Forall P (String.list_ascii_of_string s) ->
  Forall P (String.list_ascii_of_string (String.substring 0 n s)).
Proof.
  revert s. induction n as [|n IH]; intros [|c s]; cbn;
    try (intros; constructor).
  - inversion H; assumption.
  - apply IH. inversion H; assumption.
Qed.

Lemma sanitized_char c :
  let c' := if Upload.isLowerAlnum (JsString.lowerChar c)
            then JsString.lowerChar c else "-"%char in
  (Upload.isLowerAlnum c' = true \/ c' = "-"%char)
  /\ JsString.lowerChar c' = c'.
Proof. destruct c as [[] [] [] [] [] [] [] []]; cbn; auto. Qed.

Lemma replaceNonAlnum_clean s :
  Forall (fun c => Upload.isLowerAlnum c = true \/ c = "-"%char)
    (String.list_ascii_of_string s) ->
  JsString.toLowerCase s = s
  /\ Upload.replaceNonAlnum s = s.
Proof.
  induction s as [|c s IH]; [split; reflexivity|].
  cbn. intros H. inversion H as [|? ? Hc Hs]; subst.
  destruct (IH Hs) as [-> ->].
  assert (JsString.lowerChar c = c
          /\ (if Upload.isLowerAlnum c then c else "-"%char) = c) as [-> ->];
    [|split; reflexivity].
  destruct Hc as [Hc | ->]; [|split; reflexivity].
  revert Hc. destruct c as [[] [] [] [] [] [] [] []]; cbn; intros;
    (discriminate || (split; reflexivity)).
Qed.

(** X4. The base name under which an upload is stored has at most 50
    characters, each of them a digit, a lower-case letter or a dash; a
    name that already has this form is kept, so cleaning twice changes
    nothing more. *)
Theorem sanitizeBaseName_clean (baseName : string) :
  let clean := Upload.sanitizeBaseName baseName in
  (String.length clean <= 50)%nat
  /\ Forall (fun c => Upload.isLowerAlnum c = true \/ c = "-"%char)
       (String.list_ascii_of_string clean)
  /\ Upload.sanitizeBaseName clean = clean.
Proof.
  cbv zeta.
  assert (Hlen : (String.length (Upload.sanitizeBaseName baseName) <= 50)%nat)
    by apply substring_length.
  assert (Hall : Forall (fun c => Upload.isLowerAlnum c = true \/ c = "-"%char)
                   (String.list_ascii_of_string
                      (Upload.sanitizeBaseName baseName))).
  { unfold Upload.sanitizeBaseName. apply substring_Forall. clear Hlen.
    induction baseName as [|c s IH]; [constructor|].
    cbn. constructor; [|exact IH]. apply (sanitized_char c). }
  split; [exact Hlen|]. split; [exact Hall|].
  destruct (replaceNonAlnum_clean _ Hall) as [Hl Hr].
  unfold Upload.sanitizeBaseName at 1. rewrite Hl, Hr.
  apply substring_short. exact Hlen.
Qed.

End UtilitySpec.

(** ** Statistics and listings *)

Module QuerySpec.
Import ShipmentModel ShipmentStatics ShipmentQueries.
Local Open Scope Z_scope.





Lemma pages_concat {A} (L : nat) (l : list A) (n : nat) :
  (0 < L)%nat -> (length l <= n * L)%nat ->
  concat ((fun i => take L (drop (i * L) l)) <$> seq 0 n) = l.
Proof.
  intros HL. revert l. induction n as [|n IH]; intros l Hlen.
  - destruct l; [reflexivity | cbn in Hlen; lia].
  - cbn [seq fmap list_fmap concat]. rewrite <- fmap_S_seq, <- list_fmap_compose.
    cbn [Nat.mul drop].
    transitivity (take L l ++ drop L l); [|apply take_drop]. f_equal.
    rewrite <- (IH (drop L l)) by (rewrite length_drop; lia).
    f_equal. apply list_fmap_ext. intros _ i _. cbn [compose Nat.mul].
    rewrite drop_drop. reflexivity.
Qed.

Section Listing.
Context (regexTest : string -> string -> bool)
        (sortDocs : string -> Z -> list (ObjectId * Shipment)
                    -> list (ObjectId * Shipment)).
Hypothesis sortDocs_perm : forall sortBy direction l,
  sortDocs sortBy direction l ≡ₚ l.

Lemma length_sorted by_ dir l : length (sortDocs by_ dir l) = length l.
Proof. apply Permutation_length, sortDocs_perm. Qed.





Lemma fmap_concat_pages {A B} (h : A -> B) (f : Z -> list A)
    (g : Z -> list B) (l : list Z) :
  (forall p, h <$> f p = g p) ->
  h <$> concat (f <$> l) = concat (g <$> l).
Proof.
  intros Hfg. induction l as [|p l IH]; [reflexivity|].
  cbn [fmap list_fmap concat]. rewrite fmap_app, Hfg. f_equal. exact IH.
Qed.

Lemma items_atPage (options : SearchOptions) (db : Db) (p : Z) :
  Paging.stored
    <$> Paging.items
          (getShipments regexTest sortDocs (Paging.atPage p options) db)
  = take (Z.to_nat (default 10 (opt_limit options)))
      (drop (Z.to_nat ((p - 1) * default 10 (opt_limit options)))
         (sortDocs (default "createdAt" (opt_sortBy options))
            (if bool_decide (default "desc" (opt_sortOrder options) = "desc")
             then -1 else 1)
            (Paging.matching regexTest options db))).
Proof.
  unfold Paging.items, getShipments, search.
  cbn [fst result_shipments Paging.atPage opt_page opt_limit opt_sortBy
       opt_sortOrder default from_option].
  rewrite <- list_fmap_compose.
  transitivity (id <$> take (Z.to_nat (default 10 (opt_limit options)))
      (drop (Z.to_nat ((p - 1) * default 10 (opt_limit options)))
         (sortDocs (default "createdAt" (opt_sortBy options))
            (if bool_decide (default "desc" (opt_sortOrder options) = "desc")
             then -1 else 1)
            (Paging.matching regexTest options db)))).
  - apply list_fmap_ext. intros _ [k s] _. reflexivity.
  - apply list_fmap_id.
Qed.

(** X8. The pages of a listing. Asking for pages 1 up to the announced
    [totalPages] one after the other, with the same filter, order and page
    size, lists every stored shipment that passes the filter exactly once;
    every later page is empty. *)
Theorem pages_cover (options : SearchOptions) (db : Db)
    (Hlimit : 1 <= default 10 (opt_limit options)) :
  let page p :=
    Paging.items
      (getShipments regexTest sortDocs (Paging.atPage p options) db) in
  let n :=
    Paging.announcedPages (getShipments regexTest sortDocs options db) in
  Paging.stored <$> concat (page <$> seqZ 1 n)
    ≡ₚ Paging.matching regexTest options db
  /\ NoDup (shipment_id <$> concat (page <$> seqZ 1 n))
  /\ forall p, n < p -> page p = [].
Proof.
  intros page n.
  set (limit := default 10 (opt_limit options)) in *.
  set (sorted :=
    sortDocs (default "createdAt" (opt_sortBy options))
      (if bool_decide (default "desc" (opt_sortOrder options) = "desc")
       then -1 else 1)
      (Paging.matching regexTest options db)).
  assert (Hn : n = ShipmentVirtuals.ceilDiv (Z.of_nat (length sorted)) limit).
  { unfold n, Paging.announcedPages, getShipments, search, ApiResponse.paginated.
    cbn [fst result_total result_limit ApiResponse.totalPages].
    unfold sorted. rewrite length_sorted. reflexivity. }
  pose proof (UtilitySpec.ceilDiv_spec (Z.of_nat (length sorted)) limit
                ltac:(lia)) as Hceil.
  rewrite <- Hn in Hceil.
  assert (Hn0 : 0 <= n) by nia.
  assert (Hall : Paging.stored <$> concat (page <$> seqZ 1 n) = sorted).
  { rewrite (fmap_concat_pages Paging.stored page
               (fun p => take (Z.to_nat limit)
                           (drop (Z.to_nat ((p - 1) * limit)) sorted)))
      by (intros p; apply items_atPage).
    unfold seqZ. rewrite <- list_fmap_compose.
    transitivity
      (concat ((fun i => take (Z.to_nat limit)
                           (drop (i * Z.to_nat limit) sorted))
               <$> seq 0 (Z.to_nat n)));
      [|apply pages_concat; [lia | nia]].
    f_equal. apply list_fmap_ext. intros _ i _. cbn [compose]. do 2 f_equal.
    rewrite <- (Nat2Z.id (i * Z.to_nat limit)). f_equal.
    rewrite Nat2Z.inj_mul, Z2Nat.id by lia. lia. }
  split; [|split].
  - rewrite Hall. apply sortDocs_perm.
  - assert (Hkeys : shipment_id <$> concat (page <$> seqZ 1 n)
                    = fst <$> (Paging.stored <$> concat (page <$> seqZ 1 n))).
    { rewrite <- list_fmap_compose. reflexivity. }
    rewrite Hkeys, Hall. unfold sorted. rewrite sortDocs_perm.
    unfold Paging.matching.
    apply (sublist_NoDup _ _ (NoDup_fst_map_to_list (shipments db))).
    apply fmap_sublist, sublist_filter.
  - intros p Hp.
    apply (fmap_nil_inv Paging.stored). unfold page. rewrite items_atPage.
    fold limit. fold sorted.
    rewrite drop_ge; [apply take_nil|].
    apply Nat2Z.inj_le. rewrite Z2Nat.id by nia. nia.
Qed.

End Listing.



Lemma pages_cover_witness :
  let options :=
    {| opt_page := None; opt_limit := Some 1; opt_status := None;
       opt_search := None; opt_sortBy := None; opt_sortOrder := None;
       opt_createdBy := None |} in
  let list p :=
    Paging.items
      (getShipments (fun _ _ => true) (fun _ _ l => l)
         (Paging.atPage p options) Example.db_pending) in
  1 <= default 10 (opt_limit options)
  /\ forall p,
       Paging.announcedPages
         (getShipments (fun _ _ => true) (fun _ _ l => l) options
            Example.db_pending) < p ->
       list p = [].
Proof.
  intros options list.
  assert (Hlimit : 1 <= default 10 (opt_limit options)) by (cbn; lia).
  split; [exact Hlimit|].
  apply (pages_cover (fun _ _ => true) (fun _ _ l => l)
           (fun _ _ l => Permutation_refl l) options Example.db_pending
           Hlimit).
Defined.

End QuerySpec.

(** ** Accounts: credentials, profiles and the users collection *)

Module ProfileSpec.
Import UserModel UserService UserAccount Accounts JsStringFacts UserFacts.

Lemma lookupById_Some id us i u :
  lookupById id us = Some (i, u) -> us !! i = Some u /\ _id u = id.
Proof.
  unfold lookupById. intros H. apply list_find_Some in H.
  destruct H as (Hi & Hid & _). split; assumption.
Qed.

(** Overwriting a stored user by one with the same [_id] keeps it the
    one its [_id] finds. *)
Lemma lookupById_insert id (us : list User) (i : nat) u u' :
  lookupById id us = Some (i, u) -> _id u' = id ->
  lookupById id (<[i := u']> us) = Some (i, u').
Proof.
  unfold lookupById. intros Hfind Hid.
  apply list_find_Some in Hfind as (Hi & _ & Hmin).
  apply list_find_Some. split.
  - apply list_lookup_insert_eq. apply lookup_lt_Some in Hi. exact Hi.
  - split; [exact Hid|]. intros j y Hj Hlt.
    rewrite list_lookup_insert_ne in Hj by lia. exact (Hmin j y Hj Hlt).
Qed.

Lemma fmap_insert_same {B} (f : User -> B) (us : list User) (i : nat) u u' :
  us !! i = Some u -> f u' = f u -> f <$> <[i := u']> us = f <$> us.
Proof.
  intros Hi Hf. rewrite list_fmap_insert, Hf.
  apply list_insert_id. rewrite list_lookup_fmap, Hi. reflexivity.
Qed.

Lemma existsb_false_Forall {A} (p : A -> bool) (l : list A) :
  existsb p l = false -> Forall (fun x => p x = false) l.
Proof.
  induction l as [|x l IH]; cbn; [constructor|].
  intros H. apply orb_false_elim in H. destruct H as [Hx Hl].
  constructor; [exact Hx | exact (IH Hl)].
Qed.

(** A registration that goes through appends the new user, found by its
    email and by its [_id]. *)
Lemma register_Ok K e data db :
  isOk (fst (register K e data db)) = true ->
  let u :=
    {| _id := newObjectId e;
       name := JsString.trim (data_name data);
       email := emailSetter (data_email data);
       password := bcrypt_hash K (data_password data) (salt e);
       role := default USER (data_role data);
       isActive := true;
       lastLogin := None;
       avatar := None;
       createdAt := now e;
       updatedAt := now e |} in
  register K e data db
  = (Ok {| user := toJSON u; token := generateAuthToken K u |},
     withUsers (users db ++ [u]) db)
  /\ list_find (fun x => email x = emailSetter (data_email data))
       (users db ++ [u]) = Some (length (users db), u)
  /\ lookupById (newObjectId e) (users db ++ [u])
     = Some (length (users db), u).
Proof.
  intros Hok u. rewrite AccountSpec.register_unfold in Hok |- *.
  destruct (findByEmail (data_email data) (users db)) as [x|] eqn:Hfind;
    [discriminate|].
  unfold create in Hok |- *. fold u in Hok |- *.
  change (preSavePassword K e true _) with u in Hok |- *.
  destruct (existsb (fun x => bool_decide (_id x = _id u)) (users db))
    eqn:Hid; [discriminate|].
  destruct (existsb (fun x => bool_decide (email x = email u)) (users db))
    eqn:Hem; [discriminate|].
  split; [reflexivity|].
  apply existsb_false_Forall in Hid, Hem.
  rewrite Forall_forall in Hid, Hem.
  split.
  - apply list_find_Some. split.
    + rewrite lookup_app_r by lia. rewrite Nat.sub_diag. reflexivity.
    + split; [reflexivity|]. intros j y Hj Hlt Hy.
      rewrite lookup_app_l in Hj by exact Hlt.
      apply list_elem_of_lookup_2 in Hj. specialize (Hem y Hj).
      apply bool_decide_eq_false_1 in Hem. apply Hem. exact Hy.
  - unfold lookupById. apply list_find_Some. split.
    + rewrite lookup_app_r by lia. rewrite Nat.sub_diag. reflexivity.
    + split; [reflexivity|]. intros j y Hj Hlt Hy.
      rewrite lookup_app_l in Hj by exact Hlt.
      apply list_elem_of_lookup_2 in Hj. specialize (Hid y Hj).
      apply bool_decide_eq_false_1 in Hid. apply Hid. exact Hy.
Qed.

(** A login that passes its checks, when the user found by email is the
    one its [_id] finds. *)
Lemma login_Ok K e v password db i u :
  list_find (fun x => email x = emailSetter v) (users db) = Some (i, u) ->
  lookupById (_id u) (users db) = Some (i, u) ->
  isActive u = true -> comparePassword K u password = true ->
  exists u' db',
    login K e v password db
    = (Ok {| user := toJSON u'; token := generateAuthToken K u |}, db')
    /\ _id u' = _id u /\ email u' = email u /\ role u' = role u
    /\ lastLogin u' = Some (now e)
    /\ shipments db' = shipments db.
Proof.
  intros Hfind Hid Hact Hpw. rewrite login_unfold.
  unfold findOneByEmail. rewrite emailSetter_toLowerCase, Hfind.
  cbn [fmap option_fmap option_map snd]. rewrite Hact, Hpw. cbn [negb].
  unfold mbind, Async_bind, save.
  destruct (bool_decide (lastLogin u = Some (now e))) eqn:Hll; cbn [negb].
  - exists (withLastLogin (now e) u), db. repeat split; reflexivity.
  - change (_id (withUpdatedAt _ _)) with (_id u). rewrite Hid.
    eexists _, _. split; [reflexivity|]. repeat split; reflexivity.
Qed.

(** X9. register, then login. After a registration that went through, a
    login with the same email in any letter case and with spaces around
    it, and the registered password, succeeds when bcrypt accepts the
    password against its own hash: the answer carries the registered
    user (the id of the registration, the stored email, the role) with
    [lastLogin] set to the time of the login, and a token signed for that
    user. A password bcrypt rejects gets the 401 and writes nothing. *)
Theorem register_then_login
    (K : Collaborators) (e e' : Env) (data : UserData) (v : string)
    (db : Db)
    (Hregistered : isOk (fst (register K e data db)) = true)
    (Hemail : emailSetter v = emailSetter (data_email data))
    (Hbcrypt :
       bcrypt_compare K (data_password data)
         (bcrypt_hash K (data_password data) (salt e)) = true) :
  let db1 := snd (register K e data db) in
  (exists session db2,
     login K e' v (data_password data) db1 = (Ok session, db2)
     /\ json_id (user session) = newObjectId e
     /\ json_email (user session) = emailSetter (data_email data)
     /\ json_role (user session) = default USER (data_role data)
     /\ json_lastLogin (user session) = Some (now e')
     /\ token session
        = jwt_sign K (newObjectId e) (emailSetter (data_email data))
            (default USER (data_role data)))
  /\ forall wrong,
       bcrypt_compare K wrong
         (bcrypt_hash K (data_password data) (salt e)) = false ->
       login K e' v wrong db1
       = (Throw (HttpError "Invalid email or password" 401), db1).
Proof.
  destruct (register_Ok K e data db Hregistered) as (Hrun & Hfind & Hid).
  cbv zeta in Hrun, Hfind, Hid |- *. rewrite Hrun. cbn [snd].
  set (u := {| _id := newObjectId e |}) in *.
  rewrite <- Hemail in Hfind.
  split.
  - destruct (login_Ok K e' v (data_password data)
                (withUsers (users db ++ [u]) db) (length (users db)) u
                Hfind Hid eq_refl Hbcrypt)
      as (u' & db2 & Hlogin & Hid' & Hem' & Hrole' & Hll' & _).
    eexists _, db2. split; [exact Hlogin|].
    cbn [user token toJSON json_id json_email json_role json_lastLogin].
    rewrite Hid', Hem', Hrole', Hll'. repeat split; reflexivity.
  - intros wrong Hwrong. rewrite login_unfold.
    unfold findOneByEmail. rewrite emailSetter_toLowerCase.
    cbn [users withUsers]. cbn [users withUsers] in Hfind. rewrite Hfind.
    cbn [fmap option_fmap option_map snd].
    change (isActive u) with true.
    change (comparePassword K u wrong)
      with (bcrypt_compare K wrong
              (bcrypt_hash K (data_password data) (salt e))).
    rewrite Hwrong. reflexivity.
Qed.

Lemma register_then_login_witness :
  isOk (fst (register Example.toy (Example.env 10 "u1") Example.alice
               Example.empty)) = true
  /\ emailSetter "  ALICE@example.com "
     = emailSetter (data_email Example.alice)
  /\ exists session db2,
       login Example.toy (Example.env 50 "x") "  ALICE@example.com "
         "password123"
         (snd (register Example.toy (Example.env 10 "u1") Example.alice
                 Example.empty))
       = (Ok session, db2)
       /\ json_id (user session) = "u1".
Proof.
  assert (H1 : isOk (fst (register Example.toy (Example.env 10 "u1")
                            Example.alice Example.empty)) = true)
    by (vm_compute; reflexivity).
  assert (H2 : emailSetter "  ALICE@example.com "
               = emailSetter (data_email Example.alice))
    by (vm_compute; reflexivity).
  split; [exact H1|]. split; [exact H2|].
  destruct (register_then_login Example.toy (Example.env 10 "u1")
              (Example.env 50 "x") Example.alice "  ALICE@example.com "
              Example.empty H1 H2 eq_refl)
    as ((session & db2 & Hlogin & Hid & _) & _).
  exists session, db2. split; [exact Hlogin | exact Hid].
Defined.

Lemma changePassword_unfold K e userId current new db :
  changePassword K e userId current new db
  = match lookupById userId (users db) with
    | None => (Throw (HttpErr.notFound "User not found"), db)
    | Some (i, u) =>
        if negb (comparePassword K u current)
        then (Throw (HttpErr.badRequest "Current password is incorrect"), db)
        else if bool_decide (password u = new)
        then (Ok (generateAuthToken K u), db)
        else
          (Ok (generateAuthToken K u),
           withUsers
             (<[i := withUpdatedAt (now e)
                       (withPassword (bcrypt_hash K new (salt e)) u)]>
                (users db)) db)
    end.
Proof.
  unfold changePassword, mbind, Async_bind, getDb, throw.
  destruct (lookupById userId (users db)) as [[i u]|] eqn:Hfind;
    [|reflexivity].
  destruct (negb (comparePassword K u current)); [reflexivity|].
  unfold savePassword, mret, Async_ret.
  destruct (bool_decide (password u = new)); cbn [negb]; [reflexivity|].
  change (_id (withUpdatedAt _ _)) with (_id u).
  destruct (lookupById_Some _ _ _ _ Hfind) as [_ Hid].
  rewrite Hid, Hfind. reflexivity.
Qed.

(** X10. changePassword. With a current password bcrypt rejects, the
    call fails with the 400 "Current password is incorrect" and writes
    nothing. With the right one it answers a token for the same user and
    stores the hash of the new password: a login with the new password
    then succeeds, and one with a password that does not match the new
    hash (the old one, say) gets the 401. *)
Theorem changePassword_then_login
    (K : Collaborators) (e e' : Env) (v current new : string) (db : Db)
    (u : User)
    (Hids : idsUnique db)
    (Hfound : findOneByEmail (JsString.toLowerCase v) (users db) = Some u)
    (Hactive : isActive u = true)
    (Hcurrent : comparePassword K u current = true)
    (Hnew : password u <> new)
    (Hbcrypt : bcrypt_compare K new (bcrypt_hash K new (salt e)) = true) :
  let r := changePassword K e (_id u) current new db in
  (forall wrong,
     comparePassword K u wrong = false ->
     changePassword K e (_id u) wrong new db
     = (Throw (HttpError "Current password is incorrect" 400), db))
  /\ fst r = Ok (generateAuthToken K u)
  /\ shipments (snd r) = shipments db
  /\ isOk (fst (login K e' v new (snd r))) = true
  /\ forall old,
       bcrypt_compare K old (bcrypt_hash K new (salt e)) = false ->
       fst (login K e' v old (snd r))
       = Throw (HttpError "Invalid email or password" 401).
Proof.
  destruct (findOneByEmail_Some _ _ _ Hfound) as (i & Hfind).
  pose proof (proj1 (list_find_Some _ _ _ _) Hfind) as (Hi & Hem & _).
  pose proof (lookupById_found (users db) i u Hids Hi) as Hid.
  cbv zeta. split.
  - intros wrong Hwrong. rewrite changePassword_unfold, Hid, Hwrong.
    reflexivity.
  - rewrite changePassword_unfold, Hid, Hcurrent. cbn [negb].
    rewrite (bool_decide_eq_false_2 _ Hnew).
    set (u' := withUpdatedAt (now e)
                 (withPassword (bcrypt_hash K new (salt e)) u)).
    cbn [fst snd]. split; [reflexivity|]. split; [reflexivity|].
    assert (Hfound' : findOneByEmail (JsString.toLowerCase v)
                        (users (withUsers (<[i := u']> (users db)) db))
                      = Some u').
    { unfold findOneByEmail. cbn [users withUsers].
      rewrite (list_find_email_insert _ _ _ _ u' Hfind); [reflexivity|].
      exact Hem. }
    split.
    + apply (login_succeeds K e' v new _ u' Hfound'); [exact Hactive|].
      exact Hbcrypt.
    + intros old Hold. rewrite login_unfold, Hfound'.
      change (isActive u') with (isActive u). rewrite Hactive. cbn [negb].
      change (comparePassword K u' old)
        with (bcrypt_compare K old (bcrypt_hash K new (salt e))).
      rewrite Hold. reflexivity.
Qed.

Lemma changePassword_then_login_witness :
  let db :=
    snd (activateUser (Example.env 60 "x") "u1" Example.db_deactivated) in
  let u := withUpdatedAt 60 (withIsActive true Example.alice_inactive) in
  idsUnique db
  /\ findOneByEmail (JsString.toLowerCase "Alice@Example.com") (users db)
     = Some u
  /\ comparePassword Example.toy u "password123" = true
  /\ password u <> "new-password"
  /\ isOk (fst (login Example.toy (Example.env 80 "x") "Alice@Example.com"
                  "new-password"
                  (snd (changePassword Example.toy (Example.env 70 "x")
                          "u1" "password123" "new-password" db))))
     = true.
Proof.
  intros db u.
  assert (Hids : idsUnique db).
  { unfold idsUnique. apply (bool_decide_unpack _). vm_compute. exact I. }
  assert (Hf : findOneByEmail (JsString.toLowerCase "Alice@Example.com")
                 (users db) = Some u) by (vm_compute; reflexivity).
  assert (Hp : comparePassword Example.toy u "password123" = true)
    by (vm_compute; reflexivity).
  assert (Hn : password u <> "new-password") by (vm_compute; discriminate).
  split; [exact Hids|]. split; [exact Hf|]. split; [exact Hp|].
  split; [exact Hn|].
  destruct (changePassword_then_login Example.toy (Example.env 70 "x")
              (Example.env 80 "x") "Alice@Example.com" "password123"
              "new-password" db u Hids Hf eq_refl Hp Hn eq_refl)
    as (_ & _ & _ & Hlogin & _).
  exact Hlogin.
Defined.

Lemma updateProfile_unfold e userId body db :
  updateProfile e userId body db
  = if match prof_email body with
       | Some v =>
           if JsString.truthy v then
             match findByEmail v (users db) with
             | Some existingUser => differsFrom (_id existingUser) userId
             | None => false
             end
           else false
       | None => false
       end
    then (Throw (HttpErr.conflict "Email already in use"), db)
    else updateByIdIndexed e (castId userId) (applyAllowedUpdates body) db.
Proof.
  unfold updateProfile, mbind, Async_bind, getDb, throw.
  destruct (match prof_email body with Some _ => _ | None => _ end);
    reflexivity.
Qed.

Lemma applyAllowedUpdates_fields body u :
  _id (applyAllowedUpdates body u) = _id u
  /\ password (applyAllowedUpdates body u) = password u
  /\ role (applyAllowedUpdates body u) = role u
  /\ isActive (applyAllowedUpdates body u) = isActive u
  /\ name (applyAllowedUpdates body u)
     = from_option JsString.trim (name u) (prof_name body)
  /\ email (applyAllowedUpdates body u)
     = from_option emailSetter (email u) (prof_email body).
Proof.
  unfold applyAllowedUpdates.
  destruct (prof_name body), (prof_email body); repeat split; reflexivity.
Qed.

(** X11. updateProfile. Whatever the body holds for [password], [role]
    and [isActive], and whatever the outcome, every stored user keeps its
    id, password, role and active flag, and no shipment is touched; the
    user answered is the stored one with the trimmed [name] and the
    lower-cased, trimmed [email] of the body in place. *)
Theorem updateProfile_keeps_sensitive
    (e : Env) (userId : IdArg) (body : ProfileData) (db : Db) :
  let r := updateProfile e userId body db in
  let sensitive u := (_id u, password u, role u, isActive u) in
  sensitive <$> users (snd r) = sensitive <$> users db
  /\ shipments (snd r) = shipments db
  /\ forall u',
       fst r = Ok u' ->
       exists i u,
         users db !! i = Some u /\ _id u = castId userId
         /\ users (snd r) = <[i := u']> (users db)
         /\ sensitive u' = sensitive u
         /\ name u' = from_option JsString.trim (name u) (prof_name body)
         /\ email u' = from_option emailSetter (email u) (prof_email body).
Proof.
  cbv zeta. rewrite updateProfile_unfold.
  destruct (match prof_email body with Some _ => _ | None => _ end).
  { cbn [fst snd]. split; [reflexivity|]. split; [reflexivity|].
    intros u' H. discriminate. }
  unfold updateByIdIndexed.
  destruct (lookupById (castId userId) (users db)) as [[i u]|] eqn:Hfind.
  2:{ cbn [fst snd]. split; [reflexivity|]. split; [reflexivity|].
      intros u' H. discriminate. }
  destruct (lookupById_Some _ _ _ _ Hfind) as [Hi Hid].
  destruct (applyAllowedUpdates_fields body u)
    as (Hid' & Hpw & Hrole & Hact & Hname & Hemail).
  set (u1 := withUpdatedAt (now e) (applyAllowedUpdates body u)).
  destruct (negb (bool_decide (email u1 = email u)) && existsb _ (users db)).
  { cbn [fst snd]. split; [reflexivity|]. split; [reflexivity|].
    intros u' H. discriminate. }
  cbn [fst snd users shipments withUsers].
  assert (Hs : (_id u1, password u1, role u1, isActive u1)
               = (_id u, password u, role u, isActive u)).
  { unfold u1. cbn [_id password role isActive withUpdatedAt].
    rewrite Hid', Hpw, Hrole, Hact. reflexivity. }
  split.
  - apply (fmap_insert_same
             (fun u => (_id u, password u, role u, isActive u))
             (users db) i u u1 Hi Hs).
  - split; [reflexivity|]. intros u' [= <-]. exists i, u.
    split; [exact Hi|]. split; [exact Hid|]. split; [reflexivity|].
    split; [exact Hs|]. split; [exact Hname | exact Hemail].
Qed.



Lemma elem_of_insert_inv {A} (l : list A) (i : nat) (x y : A) :
  y ∈ <[i := x]> l -> y = x \/ y ∈ l.
Proof.
  revert i. induction l as [|a l IH]; intros i Hy.
  - right. exact Hy.
  - destruct i as [|i]; cbn in Hy; apply elem_of_cons in Hy;
      destruct Hy as [-> | Hy].
    + left. reflexivity.
    + right. apply list_elem_of_further, Hy.
    + right. apply list_elem_of_here.
    + destruct (IH i Hy) as [-> | Hin]; [left; reflexivity|].
      right. apply list_elem_of_further, Hin.
Qed.

Lemma NoDup_insert_fresh {A} (l : list A) (i : nat) (x : A) :
  NoDup l -> x ∉ l -> NoDup (<[i := x]> l).
Proof.
  revert i. induction l as [|a l IH]; intros i Hnd Hx; [exact Hnd|].
  apply NoDup_cons in Hnd. destruct Hnd as [Ha Hnd].
  apply not_elem_of_cons in Hx. destruct Hx as [Hxa Hx].
  destruct i as [|i]; cbn; apply NoDup_cons.
  - split; assumption.
  - split; [|apply IH; assumption].
    intros Hin. apply elem_of_insert_inv in Hin.
    destruct Hin as [-> | Hin]; [apply Hxa; reflexivity | exact (Ha Hin)].
Qed.

(** Overwriting a stored user keeps the collection sound when the new
    document has the same [_id] and an email in stored form that is the
    old one or nobody's. *)
Lemma sound_insert db i u u' :
  users db !! i = Some u -> _id u' = _id u ->
  JsString.toLowerCase (email u') = email u' ->
  email u' = email u \/ Forall (fun x => email x <> email u') (users db) ->
  idsUnique db -> emailsUnique db ->
  idsUnique (withUsers (<[i := u']> (users db)) db)
  /\ emailsUnique (withUsers (<[i := u']> (users db)) db).
Proof.
  intros Hi Hid Hlow Hem Hids [Hlows Hnd].
  unfold idsUnique, emailsUnique. cbn [users withUsers]. split.
  - rewrite (fmap_insert_same _id (users db) i u u' Hi Hid). exact Hids.
  - split; [apply Forall_insert; assumption|].
    destruct Hem as [Hsame | Hfresh].
    + rewrite (fmap_insert_same
                 (fun u => JsString.toLowerCase (email u))
                 (users db) i u u' Hi); [exact Hnd|].
      cbn. rewrite Hsame. reflexivity.
    + rewrite list_fmap_insert. apply NoDup_insert_fresh; [exact Hnd|].
      intros Hin. apply list_elem_of_fmap in Hin.
      destruct Hin as (x & Hx & Hin).
      rewrite Forall_forall in Hfresh, Hlows.
      apply (Hfresh x Hin). rewrite <- (Hlows x Hin), <- Hx, Hlow.
      reflexivity.
Qed.

Lemma sound_delete db i :
  idsUnique db -> emailsUnique db ->
  idsUnique (withUsers (delete i (users db)) db)
  /\ emailsUnique (withUsers (delete i (users db)) db).
Proof.
  intros Hids [Hlows Hnd].
  unfold idsUnique, emailsUnique. cbn [users withUsers]. split.
  - apply (sublist_NoDup _ _ Hids), fmap_sublist, sublist_delete.
  - split; [apply Forall_delete, Hlows|].
    apply (sublist_NoDup _ _ Hnd), fmap_sublist, sublist_delete.
Qed.

Lemma updateById_sound e id change db :
  (forall u, _id (change u) = _id u /\ email (change u) = email u) ->
  idsUnique db -> emailsUnique db ->
  idsUnique (snd (updateById e id change db))
  /\ emailsUnique (snd (updateById e id change db))
  /\ shipments (snd (updateById e id change db)) = shipments db.
Proof.
  intros Hchange Hids Hems. unfold updateById.
  destruct (lookupById id (users db)) as [[i u]|] eqn:Hfind;
    [|cbn [snd]; auto].
  destruct (lookupById_Some _ _ _ _ Hfind) as [Hi _].
  destruct (Hchange u) as [Hid Hem]. cbn [snd].
  destruct (sound_insert db i u (withUpdatedAt (now e) (change u)) Hi)
    as [H1 H2]; auto.
  - cbn [email withUpdatedAt]. rewrite Hem.
    destruct Hems as [Hlows _]. rewrite Forall_forall in Hlows.
    apply Hlows. apply list_elem_of_lookup_2 in Hi. exact Hi.
Qed.

Lemma register_sound K e data db :
  idsUnique db -> emailsUnique db ->
  idsUnique (snd (register K e data db))
  /\ emailsUnique (snd (register K e data db))
  /\ shipments (snd (register K e data db)) = shipments db.
Proof.
  intros Hids Hems.
  split; [|split; [apply AccountSpec.register_emailsUnique, Hems|]].
  - destruct (isOk (fst (register K e data db))) eqn:Hok.
    + destruct (register_Ok K e data db Hok) as (Hrun & _ & Hid).
      cbv zeta in Hrun, Hid. rewrite Hrun. cbn [snd].
      unfold idsUnique. cbn [users withUsers].
      rewrite AccountSpec.register_unfold in Hok.
      destruct (findByEmail _ _); [discriminate|].
      unfold create in Hok.
      destruct (existsb _ (users db)) eqn:Hex; [discriminate|].
      rewrite fmap_app. apply NoDup_app. split; [exact Hids|].
      split; [|apply NoDup_singleton].
      intros x Hx Hx'. apply list_elem_of_singleton in Hx'. cbn in Hx'.
      apply list_elem_of_fmap in Hx. destruct Hx as (y & -> & Hy).
      apply existsb_false_Forall in Hex. rewrite Forall_forall in Hex.
      specialize (Hex y Hy). apply bool_decide_eq_false_1 in Hex.
      apply Hex. exact Hx'.
    + rewrite AccountSpec.register_unfold in Hok |- *.
      destruct (findByEmail _ _); [exact Hids|].
      destruct (AccountSpec.create_cases K e data db)
        as [(err & Hc) | (u & Hc & _)]; rewrite Hc in Hok |- *;
        [exact Hids | discriminate].
  - rewrite AccountSpec.register_unfold.
    destruct (findByEmail _ _); [reflexivity|].
    destruct (AccountSpec.create_cases K e data db)
      as [(err & Hc) | (u & Hc & _)]; rewrite Hc; reflexivity.
Qed.

Lemma login_sound K e v password db :
  idsUnique db -> emailsUnique db ->
  idsUnique (snd (login K e v password db))
  /\ emailsUnique (snd (login K e v password db))
  /\ shipments (snd (login K e v password db)) = shipments db.
Proof.
  intros Hids Hems. rewrite login_unfold.
  destruct (findOneByEmail _ _) as [u|] eqn:Hfound; [|cbn [snd]; auto].
  destruct (negb (isActive u)); [cbn [snd]; auto|].
  destruct (negb (comparePassword K u password)); [cbn [snd]; auto|].
  unfold mbind, Async_bind, save.
  destruct (negb (bool_decide (lastLogin u = Some (now e))));
    cbn [negb]; [|cbn [snd]; auto].
  change (_id (withUpdatedAt _ _)) with (_id u).
  destruct (findOneByEmail_Some _ _ _ Hfound) as (i & Hfind).
  pose proof (proj1 (list_find_Some _ _ _ _) Hfind) as (Hi & _ & _).
  rewrite (lookupById_found (users db) i u Hids Hi). cbn [snd].
  destruct (sound_insert db i u
              (withUpdatedAt (now e)
                 (preSavePassword K e false (withLastLogin (now e) u))) Hi)
    as [H1 H2]; auto.
  cbn [email withUpdatedAt preSavePassword negb withLastLogin].
  destruct Hems as [Hlows _]. rewrite Forall_forall in Hlows.
  apply Hlows. apply list_elem_of_lookup_2 in Hi. exact Hi.
Qed.

Lemma changePassword_sound K e id current new db :
  idsUnique db -> emailsUnique db ->
  idsUnique (snd (changePassword K e id current new db))
  /\ emailsUnique (snd (changePassword K e id current new db))
  /\ shipments (snd (changePassword K e id current new db)) = shipments db.
Proof.
  intros Hids Hems. rewrite changePassword_unfold.
  destruct (lookupById id (users db)) as [[i u]|] eqn:Hfind;
    [|cbn [snd]; auto].
  destruct (negb (comparePassword K u current)); [cbn [snd]; auto|].
  destruct (bool_decide (password u = new)); [cbn [snd]; auto|].
  destruct (lookupById_Some _ _ _ _ Hfind) as [Hi _]. cbn [snd].
  destruct (sound_insert db i u
              (withUpdatedAt (now e)
                 (withPassword (bcrypt_hash K new (salt e)) u)) Hi)
    as [H1 H2]; auto.
  cbn [email withUpdatedAt withPassword].
  destruct Hems as [Hlows _]. rewrite Forall_forall in Hlows.
  apply Hlows. apply list_elem_of_lookup_2 in Hi. exact Hi.
Qed.

Lemma updateProfile_sound e id body db :
  idsUnique db -> emailsUnique db ->
  idsUnique (snd (updateProfile e id body db))
  /\ emailsUnique (snd (updateProfile e id body db))
  /\ shipments (snd (updateProfile e id body db)) = shipments db.
Proof.
  intros Hids Hems. rewrite updateProfile_unfold.
  destruct (match prof_email body with Some _ => _ | None => _ end);
    [cbn [snd]; auto|].
  unfold updateByIdIndexed.
  destruct (lookupById (castId id) (users db)) as [[i u]|] eqn:Hfind;
    [|cbn [snd]; auto].
  destruct (lookupById_Some _ _ _ _ Hfind) as [Hi _].
  destruct (applyAllowedUpdates_fields body u)
    as (Hid' & _ & _ & _ & _ & Hemail).
  set (u1 := withUpdatedAt (now e) (applyAllowedUpdates body u)).
  assert (Hlow : JsString.toLowerCase (email u1) = email u1).
  { unfold u1. cbn [email withUpdatedAt]. rewrite Hemail.
    destruct (prof_email body) as [v|]; cbn [from_option].
    - apply emailSetter_lower.
    - destruct Hems as [Hlows _]. rewrite Forall_forall in Hlows.
      apply Hlows. apply list_elem_of_lookup_2 in Hi. exact Hi. }
  destruct (bool_decide (email u1 = email u)) eqn:Hsame; cbn [negb andb].
  - apply bool_decide_eq_true_1 in Hsame. cbn [snd].
    destruct (sound_insert db i u u1 Hi) as [H1 H2]; auto.
  - destruct (existsb (fun x => bool_decide (email x = email u1)) (users db))
      eqn:Hex; [cbn [snd]; auto|].
    cbn [snd].
    destruct (sound_insert db i u u1 Hi) as [H1 H2]; auto.
    right. apply existsb_false_Forall in Hex.
    rewrite Forall_forall in Hex |- *. intros x Hx.
    exact (bool_decide_eq_false_1 _ (Hex x Hx)).
Qed.

Lemma deleteUser_sound id db :
  idsUnique db -> emailsUnique db ->
  idsUnique (snd (deleteUser id db))
  /\ emailsUnique (snd (deleteUser id db))
  /\ shipments (snd (deleteUser id db)) = shipments db.
Proof.
  intros Hids Hems. unfold deleteUser, deleteById.
  destruct (lookupById id (users db)) as [[i u]|]; cbn [snd]; [|auto].
  destruct (sound_delete db i Hids Hems) as [H1 H2]. auto.
Qed.

Lemma serveUser_sound K r db :
  idsUnique db -> emailsUnique db ->
  idsUnique (Requests.serveUser K r db)
  /\ emailsUnique (Requests.serveUser K r db)
  /\ shipments (Requests.serveUser K r db) = shipments db.
Proof.
  intros Hids Hems. destruct r; cbn [Requests.serveUser].
  - apply register_sound; assumption.
  - apply login_sound; assumption.
  - apply updateById_sound; [|assumption..]. intros u; split; reflexivity.
  - apply updateById_sound; [|assumption..]. intros u; split; reflexivity.
  - apply updateById_sound; [|assumption..]. intros u; split; reflexivity.
  - apply deleteUser_sound; assumption.
  - apply changePassword_sound; assumption.
  - apply updateProfile_sound; assumption.
  - apply updateById_sound; [|assumption..]. intros u; split; reflexivity.
Qed.

(** X13. The users collection under any sequence of calls. Registering,
    logging in, activating, deactivating, changing a role, deleting,
    changing a password, updating a profile or an avatar, in any order
    and with any outcome, keep the stored user ids pairwise different and
    the stored emails in lower case and pairwise different; none of them
    touches a shipment. *)
Theorem users_stay_unique
    (K : Collaborators) (rs : list Requests.UserRequest) (db : Db)
    (Hids : idsUnique db) (Hemails : emailsUnique db) :
  idsUnique (Requests.serveAllUsers K rs db)
  /\ emailsUnique (Requests.serveAllUsers K rs db)
  /\ shipments (Requests.serveAllUsers K rs db) = shipments db.
Proof.
  unfold Requests.serveAllUsers. revert db Hids Hemails.
  induction rs as [|r rs IH]; intros db Hids Hems; cbn [foldl]; [auto|].
  destruct (serveUser_sound K r db Hids Hems) as (H1 & H2 & H3).
  destruct (IH _ H1 H2) as (H4 & H5 & H6).
  split; [exact H4|]. split; [exact H5|]. rewrite H6. exact H3.
Qed.

Lemma users_stay_unique_witness :
  let rs :=
    [Requests.Register (Example.env 10 "u1") Example.alice;
     Requests.Register (Example.env 20 "u2") Example.alice_again;
     Requests.Register (Example.env 30 "u1") Example.bob;
     Requests.UpdateProfile (Example.env 40 "x") (IdString "u1")
       {| prof_password := None; prof_role := Some ADMIN;
          prof_isActive := None; prof_name := None;
          prof_email := Some "Bob@Example.com" |};
     Requests.DeleteUser "u1"] in
  idsUnique Example.empty
  /\ emailsUnique Example.empty
  /\ idsUnique (Requests.serveAllUsers Example.toy rs Example.empty).
Proof.
  intros rs.
  assert (Hids : idsUnique Example.empty) by apply NoDup_nil_2.
  assert (Hems : emailsUnique Example.empty)
    by (split; [apply Forall_nil_2 | apply NoDup_nil_2]).
  split; [exact Hids|]. split; [exact Hems|].
  apply (users_stay_unique Example.toy rs Example.empty Hids Hems).
Defined.

Lemma lookupById_delete id (us : list User) (i : nat) u :
  NoDup (_id <$> us) -> lookupById id us = Some (i, u) ->
  lookupById id (delete i us) = None.
Proof.
  intros Hnd Hfind. destruct (lookupById_Some _ _ _ _ Hfind) as [Hi Hid].
  unfold lookupById. apply list_find_None. apply Forall_forall.
  intros x Hx Hxid. apply list_elem_of_lookup_1 in Hx. destruct Hx as [j Hj].
  assert (Hk : exists k, us !! k = Some x /\ k <> i).
  { destruct (decide (j < i)) as [Hlt | Hge].
    - rewrite list_lookup_delete_lt in Hj by exact Hlt.
      exists j. split; [exact Hj | lia].
    - rewrite list_lookup_delete_ge in Hj by lia.
      exists (S j). split; [exact Hj | lia]. }
  destruct Hk as (k & Hk & Hne). apply Hne.
  apply (NoDup_lookup (_id <$> us) k i id Hnd).
  - rewrite list_lookup_fmap, Hk. cbn. rewrite Hxid. reflexivity.
  - rewrite list_lookup_fmap, Hi. cbn. rewrite Hid. reflexivity.
Qed.

(** X14. deleteUser does not cascade. Deleting a user leaves every
    shipment stored, the user's own included. Such a shipment then has no
    owner to populate: a read by id on behalf of any non-admin ends in the
    TypeError of reading [_id] of null, which the error handler answers
    with 500, instead of the 403 or the shipment; an admin reads it with
    [createdBy] null. *)
Theorem deleteUser_leaves_shipments
    (uid id : ObjectId) (db : Db) (s : ShipmentModel.Shipment)
    (Hids : idsUnique db)
    (Hstored : shipments db !! id = Some s)
    (Howner : ShipmentModel.createdBy s = uid)
    (Hdeleted : isOk (fst (deleteUser uid db)) = true) :
  let db' := snd (deleteUser uid db) in
  let crash := TypeError "Cannot read properties of null (reading '_id')" in
  shipments db' = shipments db
  /\ (forall reader,
        JsString.truthy reader = true ->
        ShipmentService.getShipmentById id (Some reader) false db'
        = (Throw crash, db'))
  /\ errorHandler crash = 500%Z
  /\ exists p,
       ShipmentService.getShipmentById id None true db' = (Ok p, db')
       /\ ShipmentStatics.shipment p = s
       /\ ShipmentStatics.populatedCreatedBy p = None.
Proof.
  cbv zeta. unfold deleteUser, deleteById in Hdeleted |- *.
  destruct (lookupById uid (users db)) as [[i u]|] eqn:Hfind;
    [|discriminate].
  cbn [snd]. split; [reflexivity|].
  pose proof (lookupById_delete uid (users db) i u Hids Hfind) as Hgone.
  assert (Hpop : ShipmentStatics.populateUser
                   (withUsers (delete i (users db)) db)
                   (ShipmentModel.createdBy s) = None).
  { unfold ShipmentStatics.populateUser. cbn [users withUsers].
    rewrite Howner, Hgone. reflexivity. }
  split; [|split; [reflexivity|]].
  - intros reader Hreader.
    unfold ShipmentService.getShipmentById, mbind, Async_bind,
      ShipmentStatics.findById, ShipmentStatics.populate, throw.
    cbn [shipments withShipments withUsers]. rewrite Hstored.
    cbn [fmap option_fmap option_map ShipmentModel.doc
         ShipmentModel.doc_id ShipmentStatics.populatedCreatedBy negb andb].
    rewrite Hreader, Hpop. reflexivity.
  - eexists. split.
    + unfold ShipmentService.getShipmentById, mbind, Async_bind,
        ShipmentStatics.findById, ShipmentStatics.populate, throw.
      cbn [shipments withShipments withUsers]. rewrite Hstored.
      cbn [fmap option_fmap option_map ShipmentModel.doc
           ShipmentModel.doc_id]. reflexivity.
    + cbn [ShipmentStatics.shipment ShipmentStatics.populatedCreatedBy].
      split; [reflexivity | exact Hpop].
Qed.

Lemma deleteUser_leaves_shipments_witness :
  idsUnique Example.db_pending
  /\ shipments Example.db_pending !! "s1" = Some Example.pending_s1
  /\ isOk (fst (deleteUser "u1" Example.db_pending)) = true
  /\ ShipmentService.getShipmentById "s1" (Some "u1") false
       (snd (deleteUser "u1" Example.db_pending))
     = (Throw (TypeError "Cannot read properties of null (reading '_id')"),
        snd (deleteUser "u1" Example.db_pending)).
Proof.
  assert (Hids : idsUnique Example.db_pending).
  { unfold idsUnique. apply (bool_decide_unpack _). vm_compute. exact I. }
  assert (Hs : shipments Example.db_pending !! "s1"
               = Some Example.pending_s1) by (vm_compute; reflexivity).
  assert (Hd : isOk (fst (deleteUser "u1" Example.db_pending)) = true)
    by (vm_compute; reflexivity).
  split; [exact Hids|]. split; [exact Hs|]. split; [exact Hd|].
  destruct (deleteUser_leaves_shipments "u1" "s1" Example.db_pending
              Example.pending_s1 Hids Hs eq_refl Hd) as (_ & Hread & _).
  apply Hread. reflexivity.
Defined.

Lemma verifyTokenAndGetUser_cases jwt_verify token db :
  (exists u,
     verifyTokenAndGetUser jwt_verify token db = (Ok u, db)
     /\ u ∈ users db /\ isActive u = true
     /\ jwt_verify token = Some (_id u))
  \/ verifyTokenAndGetUser jwt_verify token db
     = (Throw (HttpError "Invalid or expired token" 401), db).
Proof.
  unfold verifyTokenAndGetUser.
  destruct (jwt_verify token) as [id|]; [|right; reflexivity].
  destruct (lookupById id (users db)) as [[i u]|] eqn:Hfind;
    [|right; reflexivity].
  destruct (lookupById_Some _ _ _ _ Hfind) as [Hi Hid].
  destruct (isActive u) eqn:Hact; [|right; reflexivity].
  left. exists u. split; [reflexivity|].
  split; [apply list_elem_of_lookup_2 in Hi; exact Hi|].
  split; [exact Hact|]. rewrite Hid. reflexivity.
Qed.

(** X15. The guard of the user-administration routes ([authenticate]
    followed by [adminOnly]). It lets a request through only for a stored,
    active user with the admin role whose id the token of the
    Authorization header verifies to; every other request is answered 401
    "No token provided", 401 "Invalid or expired token" or 403, and the
    guard writes nothing. *)
Theorem adminRoute_guard
    (jwt_verify : string -> option ObjectId) (authHeader : option string)
    (db : Db) :
  let r := AuthMiddleware.adminRoute jwt_verify authHeader db in
  snd r = db
  /\ (forall u,
        fst r = Ok u ->
        u ∈ users db /\ isActive u = true /\ role u = ADMIN
        /\ exists h,
             authHeader = Some h /\ String.prefix "Bearer " h = true
             /\ jwt_verify
                  (default EmptyString
                     (AuthMiddleware.splitSpace EmptyString h !! 1%nat))
                = Some (_id u))
  /\ (forall err,
        fst r = Throw err ->
        err = HttpError "No token provided" 401
        \/ err = HttpError "Invalid or expired token" 401
        \/ err = HttpError
                   "You do not have permission to perform this action" 403).
Proof.
  cbv zeta.
  unfold AuthMiddleware.adminRoute, AuthMiddleware.authenticate, mbind,
    Async_bind, throw.
  destruct authHeader as [h|].
  2:{ cbn [fst snd]. split; [reflexivity|]. split.
      - intros u H. discriminate.
      - intros err [= <-]. left. reflexivity. }
  destruct (negb (JsString.truthy h)) eqn:Htruthy; cbn [orb].
  { cbn [fst snd]. split; [reflexivity|]. split.
    - intros u H. discriminate.
    - intros err [= <-]. left. reflexivity. }
  destruct (String.prefix "Bearer " h) eqn:Hprefix; cbn [negb].
  2:{ cbn [fst snd]. split; [reflexivity|]. split.
      - intros u H. discriminate.
      - intros err [= <-]. left. reflexivity. }
  set (token := default EmptyString _).
  destruct (verifyTokenAndGetUser_cases jwt_verify token db)
    as [(u & Hrun & Hin & Hact & Hver) | Hrun]; rewrite Hrun.
  2:{ cbn [fst snd]. split; [reflexivity|]. split.
      - intros u H. discriminate.
      - intros err [= <-]. right. left. reflexivity. }
  unfold ShipmentService.liftResult, AuthMiddleware.adminOnly,
    AuthMiddleware.authorize.
  destruct (bool_decide (role u ∈ [ADMIN])) eqn:Hrole; cbn [negb].
  - apply bool_decide_eq_true_1 in Hrole.
    apply list_elem_of_singleton in Hrole.
    cbn [fst snd]. split; [reflexivity|]. split.
    + intros u' [= <-]. split; [exact Hin|]. split; [exact Hact|].
      split; [exact Hrole|]. exists h. split; [reflexivity|].
      split; [exact Hprefix | exact Hver].
    + intros err H. discriminate.
  - cbn [fst snd]. split; [reflexivity|]. split.
    + intros u' H. discriminate.
    + intros err [= <-]. right. right. reflexivity.
Qed.

Lemma append_cons (a : ascii) (p t : string) :
  String a p +:+ t = String a (p +:+ t).
Proof. reflexivity. Qed.

Lemma append_empty_l (t : string) : EmptyString +:+ t = t.
Proof. reflexivity. Qed.

Lemma append_empty_r (p : string) : p +:+ EmptyString = p.
Proof.
  induction p as [|a p IH]; [reflexivity|].
  rewrite append_cons, IH. reflexivity.
Qed.

Lemma append_snoc (p : string) (c : ascii) (t : string) :
  (p +:+ String c EmptyString) +:+ t = p +:+ String c t.
Proof.
  induction p as [|a p IH]; [reflexivity|].
  rewrite !append_cons, IH. reflexivity.
Qed.

Lemma splitSpace_plain (piece t : string) :
  ~ In " "%char (list_ascii_of_string t) ->
  AuthMiddleware.splitSpace piece t = [piece +:+ t].
Proof.
  revert piece. induction t as [|c t IH]; intros piece Hno.
  - cbn. rewrite append_empty_r. reflexivity.
  - cbn [AuthMiddleware.splitSpace].
    destruct (Ascii.eqb c " ") eqn:Hc.
    + apply Ascii.eqb_eq in Hc. exfalso. apply Hno. left. exact Hc.
    + rewrite IH by (intros Hin; apply Hno; right; exact Hin).
      rewrite append_snoc. reflexivity.
Qed.

(** X16. authenticate and the Authorization header. A request without
    the header, or with one that does not start with "Bearer ", is
    answered 401 "No token provided" without looking at the users; for a
    header "Bearer <token>" whose token holds no space, the user is the
    one [verifyTokenAndGetUser] gives for exactly that token. *)
Theorem authenticate_bearer
    (jwt_verify : string -> option ObjectId) (t : string) (db : Db)
    (Hplain : ~ In " "%char (list_ascii_of_string t)) :
  AuthMiddleware.authenticate jwt_verify (Some ("Bearer " +:+ t)) db
  = verifyTokenAndGetUser jwt_verify t db
  /\ AuthMiddleware.authenticate jwt_verify None db
     = (Throw (HttpError "No token provided" 401), db)
  /\ forall h,
       String.prefix "Bearer " h = false ->
       AuthMiddleware.authenticate jwt_verify (Some h) db
       = (Throw (HttpError "No token provided" 401), db).
Proof.
  split; [|split].
  - unfold AuthMiddleware.authenticate.
    rewrite !append_cons, append_empty_l.
    assert (Hp : String.prefix "Bearer " ("Bearer " +:+ t) = true)
      by (rewrite !append_cons, append_empty_l; cbn; destruct t; reflexivity).
    rewrite !append_cons, append_empty_l in Hp. rewrite Hp.
    cbn [JsString.truthy negb orb].
    cbn [AuthMiddleware.splitSpace Ascii.eqb Bool.eqb].
    rewrite !append_empty_l.
    rewrite (splitSpace_plain EmptyString t Hplain). reflexivity.
  - reflexivity.
  - intros h Hh. unfold AuthMiddleware.authenticate. rewrite Hh.
    cbn [negb]. rewrite orb_true_r. reflexivity.
Qed.

Lemma authenticate_bearer_witness :
  ~ In " "%char (list_ascii_of_string "abc.def.ghi")
  /\ AuthMiddleware.authenticate (fun _ => Some "u3")
       (Some "Bearer abc.def.ghi") Example.db_users
     = verifyTokenAndGetUser (fun _ => Some "u3") "abc.def.ghi"
         Example.db_users.
Proof.
  assert (Hplain : ~ In " "%char (list_ascii_of_string "abc.def.ghi")).
  { cbn. intros H. repeat destruct H as [H | H]; try discriminate H.
    exact H. }
  split; [exact Hplain|].
  apply (authenticate_bearer (fun _ => Some "u3") "abc.def.ghi"
           Example.db_users Hplain).
Defined.

End ProfileSpec.

(** ** Saving a loaded shipment *)

Module SaveFacts.
Import ShipmentModel ShipmentStatics ShipmentService Lifecycle Requests.
Import DocumentFacts.

(** The field values [save] writes for a loaded document. *)
Lemma save_loaded e d db :
  isNew d = false ->
  JsString.truthy (trackingNumber (doc d)) = true ->
  isModified "trackingNumber" d = false ->
  exists s',
    save e d db
    = (Ok {| doc_id := doc_id d; doc := s'; isNew := false;
             modifiedPaths := [] |},
       if bool_decide (modifiedPaths d = []) then db
       else withShipments (<[doc_id d := s']> (shipments db)) db)
    /\ s' = (if bool_decide (modifiedPaths d = []) then doc d
             else
               let s1 := withTimestamps (createdAt (doc d)) (now e) (doc d) in
               if isModified "status" d then afterStatusHook e s1 else s1).
Proof.
  intros Hn Ht Htn.
  destruct (decide (modifiedPaths d = [])) as [Hm | Hm].
  - rewrite (bool_decide_eq_true_2 _ Hm).
    assert (Hpre : preSave e d = d).
    { unfold preSave, preSaveTimestamps. rewrite Hn.
      rewrite (bool_decide_eq_true_2 _ Hm).
      rewrite preSaveTrackingNumber_given by exact Ht.
      apply preSaveStatus_unmodified. unfold isModified. rewrite Hm.
      reflexivity. }
    exists (doc d). split; [|reflexivity].
    unfold save. cbv zeta. rewrite Hpre, Hn.
    rewrite (bool_decide_eq_true_2 _ Hm). reflexivity.
  - rewrite (bool_decide_eq_false_2 _ Hm).
    destruct (preSave_stored e d Hn Hm Ht) as (_ & _ & Hpre & _).
    rewrite (save_stored e d db Hn Hm Ht Htn).
    eexists. split; [reflexivity | exact Hpre].
Qed.

Lemma afterStatusHook_fields e s :
  let s' := afterStatusHook e s in
  status s' = status s
  /\ protected s'
     = (trackingNumber s, createdBy s, statusHistory s ++ [hookEntry e s],
        attachments s,
        (if bool_decide (status s = DELIVERED)
            && negb (bool_decide (is_Some (actualDelivery s)))
         then Some (now e) else actualDelivery s),
        createdAt s).
Proof.
  cbv zeta. unfold afterStatusHook, protected.
  destruct (bool_decide (status s = DELIVERED)
            && negb (bool_decide (is_Some (actualDelivery s))));
    split; reflexivity.
Qed.

Lemma historyCurrent_hook e s :
  historyCurrent (afterStatusHook e s)
  /\ deliveredHasDate (afterStatusHook e s).
Proof.
  destruct (afterStatusHook_fields e s) as [Hst Hprot]. cbv zeta in Hst, Hprot.
  unfold protected in Hprot. injection Hprot as Htn Hcb Hh Hatt Had Hca.
  split.
  - unfold historyCurrent. rewrite Hh, Hst, fmap_app.
    cbn [fmap list_fmap]. rewrite last_snoc. reflexivity.
  - unfold deliveredHasDate. rewrite Hst, Had. intros Hd.
    rewrite (bool_decide_eq_true_2 _ Hd). cbn [andb].
    destruct (actualDelivery s) as [a|] eqn:Ha.
    + rewrite (bool_decide_eq_true_2 (is_Some (Some a))) by (eexists; reflexivity).
      cbn [negb]. eexists; reflexivity.
    + rewrite (bool_decide_eq_false_2 (is_Some None))
        by (intros [x Hx]; discriminate).
      cbn [negb]. eexists; reflexivity.
Qed.

(** What a saved document looks like is well formed as soon as its
    tracking number is there and, when the status hook stays quiet, the
    edited fields were. *)
Lemma saved_wellFormed e d s' :
  JsString.truthy (trackingNumber (doc d)) = true ->
  (isModified "status" d = false ->
   historyCurrent (doc d) /\ deliveredHasDate (doc d)) ->
  s' = (if bool_decide (modifiedPaths d = []) then doc d
        else
          let s1 := withTimestamps (createdAt (doc d)) (now e) (doc d) in
          if isModified "status" d then afterStatusHook e s1 else s1) ->
  wellFormed s' /\ trackingNumber s' = trackingNumber (doc d).
Proof.
  intros Ht Hquiet ->.
  destruct (bool_decide (modifiedPaths d = [])) eqn:Hm.
  - apply bool_decide_eq_true_1 in Hm.
    assert (Hs : isModified "status" d = false)
      by (unfold isModified; rewrite Hm; reflexivity).
    destruct (Hquiet Hs) as [H1 H2]. split; [|reflexivity].
    split; [exact H1|]. split; [exact H2 | exact Ht].
  - cbv zeta. destruct (isModified "status" d) eqn:Hs.
    + set (s1 := withTimestamps _ _ _).
      destruct (historyCurrent_hook e s1) as [H1 H2].
      destruct (afterStatusHook_fields e s1) as [_ Hprot].
      cbv zeta in Hprot. unfold protected in Hprot.
      injection Hprot as Htn _ _ _ _ _.
      split; [|rewrite Htn; reflexivity].
      split; [exact H1|]. split; [exact H2|]. rewrite Htn. exact Ht.
    + destruct (Hquiet eq_refl) as [H1 H2]. split; [|reflexivity].
      split; [exact H1|]. split; [exact H2 | exact Ht].
Qed.

(** *** Assignments that leave the protected fields alone *)

Lemma gentle_refl d : gentle d d.
Proof. repeat split; reflexivity. Qed.

Lemma gentle_trans d1 d2 d3 : gentle d1 d2 -> gentle d2 d3 -> gentle d1 d3.
Proof.
  intros (A1 & A2 & A3 & A4 & A5 & A6 & A7) (B1 & B2 & B3 & B4 & B5 & B6 & B7).
  repeat split; try congruence.
  intros H. pose proof (B7 H) as ->. apply A7. exact H.
Qed.

Lemma isModified_cons p q d s' :
  p <> q ->
  isModified p {| doc_id := doc_id d; doc := s'; isNew := isNew d;
                  modifiedPaths := q :: modifiedPaths d |}
  = isModified p d.
Proof.
  intros Hne. unfold isModified. cbn [modifiedPaths].
  apply bool_decide_ext. rewrite elem_of_cons. tauto.
Qed.

Lemma gentle_assign p c s' d :
  p <> "trackingNumber" -> p <> "status" ->
  protected s' = protected (doc d) -> status s' = status (doc d) ->
  gentle d (assign p c s' d).
Proof.
  intros Hp1 Hp2 Hprot Hst. unfold assign.
  destruct (c || isNew d); [|apply gentle_refl].
  unfold gentle. cbn [doc_id isNew doc].
  split; [reflexivity|]. split; [reflexivity|]. split; [exact Hprot|].
  split; [exact Hst|].
  split; [apply isModified_cons; congruence|].
  split; [apply isModified_cons; congruence|].
  cbn [modifiedPaths]. discriminate.
Qed.

Lemma gentle_setIfPresent {A} (f : A -> Document -> Document) o d :
  (forall v d, gentle d (f v d)) -> gentle d (setIfPresent f o d).
Proof. intros Hf. destruct o; [apply Hf | apply gentle_refl]. Qed.

Lemma gentle_set_senderName v d : gentle d (set_senderName v d).
Proof. apply gentle_assign; [discriminate | discriminate | reflexivity..]. Qed.
Lemma gentle_set_receiverName v d : gentle d (set_receiverName v d).
Proof. apply gentle_assign; [discriminate | discriminate | reflexivity..]. Qed.
Lemma gentle_set_origin v d : gentle d (set_origin v d).
Proof. apply gentle_assign; [discriminate | discriminate | reflexivity..]. Qed.
Lemma gentle_set_destination v d : gentle d (set_destination v d).
Proof. apply gentle_assign; [discriminate | discriminate | reflexivity..]. Qed.
Lemma gentle_set_weight v d : gentle d (set_weight v d).
Proof. apply gentle_assign; [discriminate | discriminate | reflexivity..]. Qed.
Lemma gentle_set_description v d : gentle d (set_description v d).
Proof. apply gentle_assign; [discriminate | discriminate | reflexivity..]. Qed.
Lemma gentle_set_estimatedDelivery v d : gentle d (set_estimatedDelivery v d).
Proof. apply gentle_assign; [discriminate | discriminate | reflexivity..]. Qed.
Lemma gentle_set_updatedBy v d : gentle d (set_updatedBy v d).
Proof. apply gentle_assign; [discriminate | discriminate | reflexivity..]. Qed.

Lemma set_status_facts v d :
  doc_id (set_status v d) = doc_id d
  /\ isNew (set_status v d) = isNew d
  /\ protected (doc (set_status v d)) = protected (doc d)
  /\ status (doc (set_status v d)) = v
  /\ isModified "trackingNumber" (set_status v d)
     = isModified "trackingNumber" d
  /\ isModified "status" (set_status v d)
     = (negb (bool_decide (status (doc d) = v)) || isNew d)
       || isModified "status" d
  /\ (modifiedPaths (set_status v d) = [] -> set_status v d = d).
Proof.
  split; [apply assign_doc_id|]. split; [apply assign_isNew|].
  split; [rewrite set_status_doc; reflexivity|].
  split; [rewrite set_status_doc; reflexivity|].
  unfold set_status, assign.
  destruct (negb (bool_decide (status (doc d) = v)) || isNew d).
  - split; [apply isModified_cons; discriminate|].
    split; [|cbn [modifiedPaths]; discriminate].
    unfold isModified. cbn [modifiedPaths orb].
    apply bool_decide_eq_true_2, list_elem_of_here.
  - split; [reflexivity|]. split; [reflexivity|]. reflexivity.
Qed.

(** The document the generic update hands to [save]. *)
Lemma assignAllowedUpdates_facts body userId id s :
  let d := assignAllowedUpdates body userId (hydrate id s) in
  doc_id d = id /\ isNew d = false
  /\ protected (doc d) = protected s
  /\ status (doc d) = default (status s) (upd_status body)
  /\ updatedBy (doc d) = Some userId
  /\ isModified "trackingNumber" d = false
  /\ isModified "status" d
     = negb (bool_decide (status s = default (status s) (upd_status body)))
  /\ (modifiedPaths d = [] -> doc d = s).
Proof.
  cbv zeta. unfold assignAllowedUpdates.
  set (d0 := hydrate id s).
  set (d1 := setIfPresent set_senderName _ d0).
  set (d2 := setIfPresent set_receiverName _ d1).
  set (d3 := setIfPresent set_origin _ d2).
  set (d4 := setIfPresent set_destination _ d3).
  set (d5 := setIfPresent set_status _ d4).
  set (d6 := setIfPresent set_weight _ d5).
  set (d7 := setIfPresent set_description _ d6).
  set (d8 := setIfPresent set_estimatedDelivery _ d7).
  assert (G04 : gentle d0 d4).
  { apply (gentle_trans _ d3);
      [|apply gentle_setIfPresent, gentle_set_destination].
    apply (gentle_trans _ d2);
      [|apply gentle_setIfPresent, gentle_set_origin].
    apply (gentle_trans _ d1);
      [|apply gentle_setIfPresent, gentle_set_receiverName].
    apply gentle_setIfPresent, gentle_set_senderName. }
  assert (G5 : gentle d5 (set_updatedBy userId d8)).
  { apply (gentle_trans _ d8); [|apply gentle_set_updatedBy].
    apply (gentle_trans _ d7);
      [|apply gentle_setIfPresent, gentle_set_estimatedDelivery].
    apply (gentle_trans _ d6);
      [|apply gentle_setIfPresent, gentle_set_description].
    apply gentle_setIfPresent, gentle_set_weight. }
  destruct G04 as (A1 & A2 & A3 & A4 & A5 & A6 & A7).
  destruct G5 as (B1 & B2 & B3 & B4 & B5 & B6 & B7).
  assert (Hub : updatedBy (doc (set_updatedBy userId d8)) = Some userId)
    by (rewrite set_updatedBy_doc; reflexivity).
  assert (S5 : doc_id d5 = doc_id d4 /\ isNew d5 = isNew d4
               /\ protected (doc d5) = protected (doc d4)
               /\ status (doc d5)
                  = default (status (doc d4)) (upd_status body)
               /\ isModified "trackingNumber" d5
                  = isModified "trackingNumber" d4
               /\ isModified "status" d5
                  = (negb (bool_decide
                             (status (doc d4)
                              = default (status (doc d4)) (upd_status body)))
                     || isModified "status" d4)
               /\ (modifiedPaths d5 = [] -> d5 = d4)).
  { unfold d5. destruct (upd_status body) as [v|]; cbn [setIfPresent default from_option].
    - destruct (set_status_facts v d4) as (C1 & C2 & C3 & C4 & C5 & C6 & C7).
      rewrite A2 in C6. cbn [d0 hydrate isNew] in C6.
      rewrite orb_false_r in C6. repeat split; assumption.
    - rewrite (bool_decide_eq_true_2 (status (doc d4) = status (doc d4)))
        by reflexivity.
      repeat split; reflexivity. }
  destruct S5 as (C1 & C2 & C3 & C4 & C5 & C6 & C7).
  cbn [d0 hydrate doc_id isNew doc] in A1, A2, A3, A4.
  assert (M0 : forall p, isModified p d0 = false) by reflexivity.
  rewrite M0 in A5, A6. rewrite A4 in C4, C6. rewrite A6, orb_false_r in C6.
  split; [congruence|]. split; [congruence|]. split; [congruence|].
  split; [congruence|]. split; [exact Hub|]. split; [congruence|].
  split; [congruence|].
  intros Hm. rewrite (B7 Hm). rewrite (B7 Hm) in Hm.
  rewrite (C7 Hm). rewrite (C7 Hm) in Hm. rewrite (A7 Hm). reflexivity.
Qed.

Lemma withShipments_insert_id db id s :
  shipments db !! id = Some s ->
  withShipments (<[id := s]> (shipments db)) db = db.
Proof.
  intros H. destruct db as [us ss]. unfold withShipments.
  cbn [users shipments] in *. rewrite insert_id by exact H. reflexivity.
Qed.

(** The generic update, for an actor who may touch the shipment. *)
Lemma updateShipment_run e id body userId isAdmin db s :
  shipments db !! id = Some s ->
  JsString.truthy (trackingNumber s) = true ->
  canAccess isAdmin userId s ->
  let d := assignAllowedUpdates body userId (hydrate id s) in
  exists s' p,
    updateShipment e id body userId isAdmin db
    = (Ok (Some p), withShipments (<[id := s']> (shipments db)) db)
    /\ shipment p = s' /\ shipment_id p = id
    /\ s' = (if bool_decide (modifiedPaths d = []) then doc d
             else
               let s1 := withTimestamps (createdAt (doc d)) (now e) (doc d) in
               if isModified "status" d then afterStatusHook e s1 else s1).
Proof.
  intros Hs Ht Hacc. cbv zeta.
  destruct (assignAllowedUpdates_facts body userId id s)
    as (Hid & Hn & Hprot & Hst & Hub & Htn & Hms & Hsame).
  cbv zeta in Hid, Hn, Hprot, Hst, Hub, Htn, Hms, Hsame.
  set (d := assignAllowedUpdates body userId (hydrate id s)) in *.
  assert (Ht' : JsString.truthy (trackingNumber (doc d)) = true).
  { unfold protected in Hprot. injection Hprot as -> _ _ _ _ _. exact Ht. }
  destruct (save_loaded e d db Hn Ht' Htn) as (s' & Hsave & Hs').
  unfold updateShipment, mbind, Async_bind, findById.
  rewrite Hs. cbn [fmap option_fmap option_map doc].
  rewrite (TransitionFacts.canAccess_guard _ _ _ Hacc).
  fold (hydrate id s). fold d. rewrite Hsave, Hid.
  assert (Hdb : (if bool_decide (modifiedPaths d = []) then db
                 else withShipments (<[id := s']> (shipments db)) db)
                = withShipments (<[id := s']> (shipments db)) db).
  { destruct (bool_decide (modifiedPaths d = [])) eqn:Hm; [|reflexivity].
    apply bool_decide_eq_true_1 in Hm. rewrite Hs', (Hsame Hm).
    symmetry. apply withShipments_insert_id, Hs. }
  rewrite Hdb. cbn [shipments withShipments]. rewrite lookup_insert_eq.
  cbn [fmap option_fmap option_map].
  unfold populateOpt, mbind, Async_bind, populate, mret, Async_ret.
  cbn [doc doc_id]. eexists _, _. split; [reflexivity|].
  cbn [shipment shipment_id]. split; [reflexivity|]. split; [reflexivity|].
  exact Hs'.
Qed.

(** *** Saving a new shipment *)

Lemma trackingNumberTaken_true id s ss :
  trackingNumberTaken id s ss = true <->
  exists k s0,
    k <> id /\ ss !! k = Some s0 /\ trackingNumber s0 = trackingNumber s.
Proof.
  unfold trackingNumberTaken. rewrite existsb_exists. split.
  - intros ([k s0] & Hin & Hp). apply andb_prop in Hp. destruct Hp as [H1 H2].
    apply bool_decide_eq_true_1 in H1, H2. cbn [fst snd] in H1, H2.
    apply list_elem_of_In, elem_of_map_to_list in Hin.
    exists k, s0. repeat split; assumption.
  - intros (k & s0 & Hne & Hk & Htn). exists (k, s0). split.
    + apply list_elem_of_In, elem_of_map_to_list. exact Hk.
    + cbn [fst snd]. rewrite (bool_decide_eq_true_2 _ Hne).
      rewrite (bool_decide_eq_true_2 _ Htn). reflexivity.
Qed.

Lemma trackingNumberTaken_false id s ss :
  trackingNumberTaken id s ss = false <->
  forall k s0,
    k <> id -> ss !! k = Some s0 -> trackingNumber s0 <> trackingNumber s.
Proof.
  split.
  - intros Hf k s0 Hne Hk Htn.
    assert (Ht : trackingNumberTaken id s ss = true)
      by (apply trackingNumberTaken_true; exists k, s0; auto).
    rewrite Hf in Ht. discriminate.
  - intros Hall. destruct (trackingNumberTaken id s ss) eqn:Ht; [|reflexivity].
    apply trackingNumberTaken_true in Ht.
    destruct Ht as (k & s0 & Hne & Hk & Htn).
    exfalso. exact (Hall k s0 Hne Hk Htn).
Qed.

(** Of a new document, [status] is marked exactly when the request
    supplied it. *)
Lemma newDocument_status_mark e data userId history :
  isModified "status" (newDocument e data userId history)
  = bool_decide (is_Some (data_status data)).
Proof.
  unfold isModified, newDocument. cbn [modifiedPaths].
  destruct (data_status data) as [st|].
  - rewrite (bool_decide_eq_true_2 (is_Some (Some st)))
      by (eexists; reflexivity).
    apply bool_decide_eq_true_2.
    rewrite !elem_of_app. right. right. left. apply list_elem_of_here.
  - rewrite (bool_decide_eq_false_2 (is_Some None))
      by (intros [x Hx]; discriminate).
    apply bool_decide_eq_false_2.
    rewrite !elem_of_app. unfold supplied.
    destruct (data_trackingNumber data), (data_weight data),
      (data_description data), (data_estimatedDelivery data),
      (data_attachments data);
      rewrite ?elem_of_cons, ?elem_of_nil;
      intros H; repeat (destruct H as [H | H]); try discriminate H;
      exact H.
Qed.

(** The tracking number a new shipment ends up with. *)
Lemma preSave_new e data userId history :
  JsString.truthy (generatedTrackingNumber e) = true ->
  let d0 := newDocument e data userId history in
  let s0 := withTimestamps (now e) (now e) (doc d0) in
  let s1 :=
    if JsString.truthy (trackingNumber s0) then s0
    else withTrackingNumber
           (JsString.toUpperCase (generatedTrackingNumber e)) s0 in
  doc_id (preSave e d0) = newObjectId e
  /\ isNew (preSave e d0) = true
  /\ doc (preSave e d0)
     = (if bool_decide (is_Some (data_status data))
        then afterStatusHook e s1 else s1).
Proof.
  intros Hgen. cbv zeta.
  set (d0 := newDocument e data userId history).
  set (s0 := withTimestamps (now e) (now e) (doc d0)).
  unfold preSave.
  set (d1 := preSaveTimestamps e d0).
  assert (Hd1 : d1 = {| doc_id := newObjectId e; doc := s0; isNew := true;
                        modifiedPaths := modifiedPaths d0 |}) by reflexivity.
  set (d2 := preSaveTrackingNumber e d1).
  assert (Hd2 : doc_id d2 = newObjectId e /\ isNew d2 = true
                /\ doc d2
                   = (if JsString.truthy (trackingNumber s0) then s0
                      else withTrackingNumber
                             (JsString.toUpperCase (generatedTrackingNumber e))
                             s0)
                /\ isModified "status" d2 = isModified "status" d0).
  { unfold d2, preSaveTrackingNumber. rewrite Hd1. cbn [doc].
    destruct (JsString.truthy (trackingNumber s0)); cbn [negb].
    - repeat split; reflexivity.
    - unfold set_trackingNumber, assign. cbn [isNew doc_id doc modifiedPaths].
      rewrite orb_true_r. cbn [doc_id isNew doc].
      split; [reflexivity|]. split; [reflexivity|]. split; [reflexivity|].
      unfold isModified. cbn [modifiedPaths].
      apply bool_decide_ext. rewrite elem_of_cons.
      split; [intros [H | H]; [discriminate | exact H] | tauto]. }
  destruct Hd2 as (Hid2 & Hn2 & Hdoc2 & Hmod2).
  rewrite preSaveStatus_doc_id, preSaveStatus_isNew.
  split; [exact Hid2|]. split; [exact Hn2|].
  rewrite <- (newDocument_status_mark e data userId history).
  fold d0. rewrite <- Hmod2, <- Hdoc2.
  destruct (isModified "status" d2) eqn:Hm.
  - apply preSaveStatus_modified_doc, Hm.
  - rewrite preSaveStatus_unmodified by exact Hm. reflexivity.
Qed.

Lemma truthy_toUpperCase t :
  JsString.truthy (JsString.toUpperCase t) = JsString.truthy t.
Proof. destruct t; reflexivity. Qed.

(** Running [createShipment] when the new [_id] is free. *)
Lemma createShipment_run e data userId db :
  shipments db !! newObjectId e = None ->
  JsString.truthy (generatedTrackingNumber e) = true ->
  let history :=
    [ {| entry_status := default PENDING (data_status data);
         changedAt := now e; changedBy := userId; notes := None |} ] in
  let s' := doc (preSave e (newDocument e data userId history)) in
  createShipment e data userId db
  = if trackingNumberTaken (newObjectId e) s' (shipments db)
    then (Throw (MongoDuplicateKey "trackingNumber"), db)
    else (Ok (Some {| shipment_id := newObjectId e; shipment := s';
                      populatedCreatedBy := populateUser db (createdBy s');
                      populatedChangedBy := None |}),
          withShipments (<[newObjectId e := s']> (shipments db)) db).
Proof.
  intros Hfresh Hgen. cbv zeta.
  set (history := [ {| entry_status := _ |} ]).
  destruct (preSave_new e data userId history Hgen) as (Hid & Hn & _).
  cbv zeta in Hid, Hn.
  unfold createShipment. fold history.
  unfold mbind, Async_bind, save. cbv zeta. rewrite Hn, Hid, Hfresh.
  rewrite (bool_decide_eq_false_2 (is_Some None))
    by (intros [x Hx]; discriminate).
  destruct (trackingNumberTaken _ _ _); [reflexivity|].
  unfold findById. cbn [doc_id shipments withShipments].
  rewrite lookup_insert_eq. cbn [fmap option_fmap option_map].
  unfold populateOpt, mbind, Async_bind, populate, mret, Async_ret.
  cbn [doc doc_id]. reflexivity.
Qed.

(** The fields of the shipment a create request stores. *)
Lemma created_fields e data userId :
  JsString.truthy (generatedTrackingNumber e) = true ->
  let first :=
    {| entry_status := default PENDING (data_status data);
       changedAt := now e; changedBy := userId; notes := None |} in
  let s' := doc (preSave e (newDocument e data userId [first])) in
  createdBy s' = userId
  /\ status s' = default PENDING (data_status data)
  /\ trackingNumber s'
     = match data_trackingNumber data with
       | Some t =>
           if JsString.truthy t then JsString.toUpperCase t
           else JsString.toUpperCase (generatedTrackingNumber e)
       | None => generatedTrackingNumber e
       end
  /\ JsString.truthy (trackingNumber s') = true
  /\ statusHistory s'
     = (if bool_decide (is_Some (data_status data))
        then [first; first] else [first])
  /\ actualDelivery s'
     = (if bool_decide (data_status data = Some DELIVERED)
        then Some (now e) else None)
  /\ createdAt s' = now e /\ updatedAt s' = now e /\ updatedBy s' = None
  /\ senderName s' = JsString.trim (data_senderName data)
  /\ receiverName s' = JsString.trim (data_receiverName data)
  /\ origin s' = JsString.trim (data_origin data)
  /\ destination s' = JsString.trim (data_destination data).
Proof.
  intros Hgenerator. cbv zeta.
  set (first := {| entry_status := default PENDING (data_status data) |}).
  destruct (preSave_new e data userId [first] Hgenerator) as (_ & _ & Hdoc).
  cbv zeta in Hdoc.
  set (s' := doc (preSave e (newDocument e data userId [first]))) in *.
  set (s0 := withTimestamps (now e) (now e)
               (doc (newDocument e data userId [first]))) in *.
  set (s1 := if JsString.truthy (trackingNumber s0) then s0
             else withTrackingNumber
                    (JsString.toUpperCase (generatedTrackingNumber e)) s0)
    in *.
  assert (F1 : createdBy s1 = userId /\ status s1 = default PENDING (data_status data)
               /\ statusHistory s1 = [first] /\ actualDelivery s1 = None
               /\ createdAt s1 = now e /\ updatedAt s1 = now e
               /\ updatedBy s1 = None
               /\ senderName s1 = JsString.trim (data_senderName data)
               /\ receiverName s1 = JsString.trim (data_receiverName data)
               /\ origin s1 = JsString.trim (data_origin data)
               /\ destination s1 = JsString.trim (data_destination data)).
  { unfold s1. destruct (JsString.truthy (trackingNumber s0));
      repeat split; reflexivity. }
  assert (Ftn : trackingNumber s1
                = match data_trackingNumber data with
                  | Some t =>
                      if JsString.truthy t then JsString.toUpperCase t
                      else JsString.toUpperCase (generatedTrackingNumber e)
                  | None => generatedTrackingNumber e
                  end).
  { unfold s1, s0. cbn [trackingNumber withTimestamps newDocument doc].
    destruct (data_trackingNumber data) as [t|].
    - rewrite truthy_toUpperCase. destruct (JsString.truthy t); reflexivity.
    - rewrite Hgenerator. reflexivity. }
  assert (Ftruthy : JsString.truthy (trackingNumber s1) = true).
  { rewrite Ftn. destruct (data_trackingNumber data) as [t|];
      [|exact Hgenerator].
    destruct (JsString.truthy t) eqn:Ht;
      rewrite truthy_toUpperCase; assumption. }
  destruct F1 as (Fcb & Fst & Fh & Fad & Fca & Fua & Fub & Fsn & Frn & Fo & Fd).
  assert (Fields :
    createdBy s' = userId
    /\ status s' = default PENDING (data_status data)
    /\ trackingNumber s' = trackingNumber s1
    /\ statusHistory s'
       = (if bool_decide (is_Some (data_status data))
          then [first; first] else [first])
    /\ actualDelivery s'
       = (if bool_decide (data_status data = Some DELIVERED)
          then Some (now e) else None)
    /\ createdAt s' = now e /\ updatedAt s' = now e /\ updatedBy s' = None
    /\ senderName s' = JsString.trim (data_senderName data)
    /\ receiverName s' = JsString.trim (data_receiverName data)
    /\ origin s' = JsString.trim (data_origin data)
    /\ destination s' = JsString.trim (data_destination data)).
  { rewrite Hdoc. destruct (data_status data) as [st|] eqn:Hds.
    - rewrite (bool_decide_eq_true_2 (is_Some (Some st)))
        by (eexists; reflexivity).
      cbn [default from_option] in Fst.
      assert (Hentry : hookEntry e s1 = first).
      { unfold hookEntry, first. rewrite Fst, Fcb, Fub.
        reflexivity. }
      unfold afterStatusHook. rewrite Hentry, Fh, Fst, Fad.
      rewrite (bool_decide_eq_false_2 (is_Some None))
        by (intros [x Hx]; discriminate).
      cbn [negb]. rewrite andb_true_r.
      destruct (decide (st = DELIVERED)) as [-> | Hne].
      + rewrite (bool_decide_eq_true_2 (DELIVERED = DELIVERED))
          by reflexivity.
        rewrite (bool_decide_eq_true_2 (Some DELIVERED = Some DELIVERED))
          by reflexivity.
        cbn [createdBy status trackingNumber statusHistory actualDelivery
             createdAt updatedAt updatedBy senderName receiverName origin
             destination withActualDelivery withStatusHistory].
        repeat split; try assumption; reflexivity.
      + rewrite (bool_decide_eq_false_2 _ Hne).
        rewrite (bool_decide_eq_false_2 (Some st = Some DELIVERED))
          by congruence.
        cbn [createdBy status trackingNumber statusHistory actualDelivery
             createdAt updatedAt updatedBy senderName receiverName origin
             destination withActualDelivery withStatusHistory].
        repeat split; try assumption; reflexivity.
    - rewrite (bool_decide_eq_false_2 (is_Some None))
        by (intros [x Hx]; discriminate).
      rewrite (bool_decide_eq_false_2 (None = Some DELIVERED))
        by discriminate.
      repeat split; try assumption; reflexivity. }
  destruct Fields as (G1 & G2 & G3 & G4 & G5 & G6 & G7 & G8 & G9 & G10
                      & G11 & G12).
  split; [exact G1|]. split; [exact G2|].
  split; [rewrite G3; exact Ftn|]. split; [rewrite G3; exact Ftruthy|].
  split; [exact G4|]. split; [exact G5|]. split; [exact G6|].
  split; [exact G7|]. split; [exact G8|]. split; [exact G9|].
  split; [exact G10|]. split; [exact G11 | exact G12].
Qed.

(** *** Finding by tracking number *)

Lemma findByTrackingNumber_found db id s v :
  trackingUnique db -> shipments db !! id = Some s ->
  JsString.toUpperCase v = trackingNumber s ->
  findByTrackingNumber v db = (Ok (Some (id, s)), db).
Proof.
  intros Huniq Hs Hv.
  unfold findByTrackingNumber, findOneByTrackingNumber.
  rewrite UtilitySpec.toUpperCase_idemp.
  assert (Hin : (id, s) ∈ map_to_list (shipments db))
    by (apply elem_of_map_to_list; exact Hs).
  destruct (list_find_elem_of
              (fun kv : ObjectId * Shipment =>
                 trackingNumber (snd kv) = JsString.toUpperCase v)
              _ _ Hin (eq_sym Hv)) as [[i [k s0]] Hfind].
  rewrite Hfind. cbn [fmap option_fmap option_map snd].
  apply list_find_Some in Hfind. destruct Hfind as (Hi & Htn & _).
  apply list_elem_of_lookup_2, elem_of_map_to_list in Hi.
  cbn [snd] in Htn.
  assert (k = id) by (apply (Huniq k id s0 s Hi Hs); congruence).
  subst k. rewrite Hs in Hi. injection Hi as ->. reflexivity.
Qed.

Lemma findByTrackingNumber_missing db v :
  (forall k s0,
     shipments db !! k = Some s0 ->
     trackingNumber s0 <> JsString.toUpperCase v) ->
  findByTrackingNumber v db = (Ok None, db).
Proof.
  intros Hnone. unfold findByTrackingNumber, findOneByTrackingNumber.
  rewrite UtilitySpec.toUpperCase_idemp.
  rewrite (proj2 (list_find_None _ _)); [reflexivity|].
  apply Forall_forall. intros [k s0] Hin.
  apply elem_of_map_to_list in Hin. exact (Hnone k s0 Hin).
Qed.

(** *** Editing the attachments of a loaded shipment *)

Lemma attachments_edit e id userId atts db s :
  JsString.truthy (trackingNumber s) = true ->
  let d := set_updatedBy userId
             (assign "attachments" true (withAttachments atts s)
                (hydrate id s)) in
  let s' :=
    withTimestamps (createdAt s) (now e)
      (withUpdatedBy (Some userId) (withAttachments atts s)) in
  save e d db
  = (Ok {| doc_id := id; doc := s'; isNew := false; modifiedPaths := [] |},
     withShipments (<[id := s']> (shipments db)) db).
Proof.
  intros Htn. cbv zeta.
  set (d0 := assign "attachments" true (withAttachments atts s)
               (hydrate id s)).
  set (d := set_updatedBy userId d0).
  assert (Hd0 : doc d0 = withAttachments atts s)
    by (apply assign_doc; discriminate).
  assert (Hdoc : doc d = withUpdatedBy (Some userId) (withAttachments atts s))
    by (unfold d; rewrite set_updatedBy_doc, Hd0; reflexivity).
  assert (Hmp : exists b, modifiedPaths d
                          = mark b "updatedBy" ++ ["attachments"]).
  { eexists. unfold d. rewrite set_updatedBy_modifiedPaths.
    unfold d0. rewrite assign_modifiedPaths. reflexivity. }
  destruct Hmp as (b & Hmp).
  assert (Hn : isNew d = false).
  { unfold d, set_updatedBy, d0. rewrite !assign_isNew. reflexivity. }
  assert (Hid : doc_id d = id).
  { unfold d, set_updatedBy, d0. rewrite !assign_doc_id. reflexivity. }
  assert (Hm : modifiedPaths d <> [])
    by (rewrite Hmp; destruct b; discriminate).
  assert (Ht : JsString.truthy (trackingNumber (doc d)) = true)
    by (rewrite Hdoc; exact Htn).
  assert (Hno : forall p, p <> "updatedBy" -> p <> "attachments" ->
                          isModified p d = false).
  { intros p H1 H2. unfold isModified. apply bool_decide_eq_false_2.
    rewrite Hmp, elem_of_app, elem_of_mark, list_elem_of_singleton. tauto. }
  destruct (preSave_stored e d Hn Hm Ht) as (_ & _ & Hpre & _).
  rewrite (Hno "status") in Hpre by discriminate. cbv zeta in Hpre.
  rewrite (save_stored e d db Hn Hm Ht
             (Hno "trackingNumber" ltac:(discriminate) ltac:(discriminate))).
  rewrite Hid, Hpre, Hdoc. reflexivity.
Qed.

Lemma addAttachment_run e id info userId isAdmin db s :
  shipments db !! id = Some s ->
  JsString.truthy (trackingNumber s) = true ->
  canAccess isAdmin userId s ->
  let s' :=
    withTimestamps (createdAt s) (now e)
      (withUpdatedBy (Some userId)
         (withAttachments
            (attachments s ++ [mkAttachment (newSubdocId e 0) (now e) info])
            s)) in
  addAttachment e id info userId isAdmin db
  = (Ok s', withShipments (<[id := s']> (shipments db)) db).
Proof.
  intros Hs Ht Hacc. cbv zeta.
  unfold addAttachment, mbind, Async_bind, findById.
  rewrite Hs. cbn [fmap option_fmap option_map doc].
  rewrite (TransitionFacts.canAccess_guard _ _ _ Hacc).
  unfold push_attachment. cbn [doc].
  pose proof (attachments_edit e id userId
                (attachments s ++ [mkAttachment (newSubdocId e 0) (now e) info])
                db s Ht) as Hsave.
  cbv zeta in Hsave. unfold hydrate in Hsave. rewrite Hsave. reflexivity.
Qed.

Lemma removeAttachment_run e id attachmentId userId isAdmin db s :
  shipments db !! id = Some s ->
  JsString.truthy (trackingNumber s) = true ->
  canAccess isAdmin userId s ->
  removeAttachment e id attachmentId userId isAdmin db
  = match list_find (fun att => att_id att = attachmentId) (attachments s) with
    | None => (Throw (HttpErr.notFound "Attachment not found"), db)
    | Some (i, _) =>
        let s' :=
          withTimestamps (createdAt s) (now e)
            (withUpdatedBy (Some userId)
               (withAttachments (delete i (attachments s)) s)) in
        (Ok s', withShipments (<[id := s']> (shipments db)) db)
    end.
Proof.
  intros Hs Ht Hacc.
  unfold removeAttachment, mbind, Async_bind, findById.
  rewrite Hs. cbn [fmap option_fmap option_map doc].
  rewrite (TransitionFacts.canAccess_guard _ _ _ Hacc).
  destruct (list_find _ (attachments s)) as [[i a]|]; [|reflexivity].
  unfold splice_attachment. cbn [doc].
  pose proof (attachments_edit e id userId (delete i (attachments s))
                db s Ht) as Hsave.
  cbv zeta in Hsave. unfold hydrate in Hsave. rewrite Hsave. reflexivity.
Qed.

End SaveFacts.

(** ** What every call keeps of the stored shipments *)

Module StoreFacts.
Import ShipmentModel ShipmentStatics ShipmentService Lifecycle Requests.
Import DocumentFacts SaveFacts.

Lemma consistent_insert db id s' :
  consistent db -> wellFormed s' ->
  (forall k s0,
     k <> id -> shipments db !! k = Some s0 ->
     trackingNumber s0 <> trackingNumber s') ->
  consistent (withShipments (<[id := s']> (shipments db)) db).
Proof.
  intros [Hwf Huniq] Hs' Hfree. split; cbn [shipments withShipments].
  - intros k s0 Hk. destruct (decide (k = id)) as [-> | Hne].
    + rewrite lookup_insert_eq in Hk. injection Hk as <-. exact Hs'.
    + rewrite lookup_insert_ne in Hk by congruence. exact (Hwf k s0 Hk).
  - intros k1 k2 s1 s2 H1 H2 Htn. cbn [shipments withShipments] in H1, H2.
    destruct (decide (k1 = id)) as [-> | Hne1];
      destruct (decide (k2 = id)) as [-> | Hne2]; [reflexivity | | |].
    + rewrite lookup_insert_eq in H1. injection H1 as <-.
      rewrite lookup_insert_ne in H2 by congruence.
      exfalso. apply (Hfree k2 s2 Hne2 H2). symmetry. exact Htn.
    + rewrite lookup_insert_eq in H2. injection H2 as <-.
      rewrite lookup_insert_ne in H1 by congruence.
      exfalso. exact (Hfree k1 s1 Hne1 H1 Htn).
    + rewrite lookup_insert_ne in H1 by congruence.
      rewrite lookup_insert_ne in H2 by congruence.
      exact (Huniq k1 k2 s1 s2 H1 H2 Htn).
Qed.

Lemma consistent_update db id s s' :
  consistent db -> shipments db !! id = Some s -> wellFormed s' ->
  trackingNumber s' = trackingNumber s ->
  consistent (withShipments (<[id := s']> (shipments db)) db).
Proof.
  intros Hc Hs Hs' Htn. apply consistent_insert; [exact Hc | exact Hs' |].
  intros k s0 Hne Hk Heq. apply Hne.
  destruct Hc as [_ Huniq]. apply (Huniq k id s0 s Hk Hs). congruence.
Qed.

Lemma consistent_delete db id :
  consistent db -> consistent (withShipments (delete id (shipments db)) db).
Proof.
  intros [Hwf Huniq]. split; cbn [shipments withShipments].
  - intros k s0 Hk. apply lookup_delete_Some in Hk. destruct Hk as [_ Hk].
    exact (Hwf k s0 Hk).
  - intros k1 k2 s1 s2 H1 H2. cbn [shipments withShipments] in H1, H2.
    apply lookup_delete_Some in H1, H2.
    destruct H1 as [_ H1], H2 as [_ H2]. exact (Huniq k1 k2 s1 s2 H1 H2).
Qed.

Lemma guard_canAccess isAdmin userId s :
  negb isAdmin && negb (bool_decide (createdBy s = userId)) = false ->
  canAccess isAdmin userId s.
Proof.
  intros H. apply andb_false_iff in H. destruct H as [H | H].
  - left. apply negb_false_iff in H. exact H.
  - right. apply negb_false_iff in H.
    apply bool_decide_eq_true_1 in H. exact H.
Qed.

Lemma created_wellFormed e data userId :
  JsString.truthy (generatedTrackingNumber e) = true ->
  wellFormed
    (doc (preSave e
            (newDocument e data userId
               [ {| entry_status := default PENDING (data_status data);
                    changedAt := now e; changedBy := userId;
                    notes := None |} ]))).
Proof.
  intros Hgen.
  destruct (created_fields e data userId Hgen)
    as (_ & Hst & _ & Htruthy & Hh & Had & _).
  cbv zeta in Hst, Htruthy, Hh, Had.
  split; [|split; [|exact Htruthy]].
  - unfold historyCurrent. rewrite Hh, Hst.
    destruct (bool_decide (is_Some (data_status data))); reflexivity.
  - unfold deliveredHasDate. rewrite Hst, Had. intros Hd.
    destruct (data_status data) as [st|]; simpl in Hd.
    + subst st.
      rewrite (bool_decide_eq_true_2 (Some DELIVERED = Some DELIVERED))
        by reflexivity.
      eexists; reflexivity.
    + discriminate.
Qed.

Lemma createShipment_keeps e data userId db :
  JsString.truthy (generatedTrackingNumber e) = true ->
  consistent db ->
  consistent (snd (createShipment e data userId db))
  /\ users (snd (createShipment e data userId db)) = users db.
Proof.
  intros Hgen Hc.
  destruct (shipments db !! newObjectId e) as [s0|] eqn:Hfresh.
  - set (history := [ {| entry_status := default PENDING (data_status data);
                         changedAt := now e; changedBy := userId;
                         notes := None |} ]).
    destruct (preSave_new e data userId history Hgen) as (Hid & Hn & _).
    cbv zeta in Hid, Hn.
    unfold createShipment. fold history.
    unfold mbind, Async_bind, save. cbv zeta. rewrite Hn, Hid, Hfresh.
    rewrite (bool_decide_eq_true_2 (is_Some (Some s0)))
      by (eexists; reflexivity).
    split; [exact Hc | reflexivity].
  - rewrite (createShipment_run e data userId db Hfresh Hgen). cbv zeta.
    destruct (trackingNumberTaken _ _ _) eqn:Htaken; [split; [exact Hc | reflexivity]|].
    cbn [snd]. split; [|reflexivity].
    apply consistent_insert; [exact Hc | |].
    + apply created_wellFormed, Hgen.
    + intros k s0 Hne Hk.
      exact (proj1 (trackingNumberTaken_false _ _ _) Htaken k s0 Hne Hk).
Qed.

Lemma updateShipment_keeps e id body userId isAdmin db :
  consistent db ->
  consistent (snd (updateShipment e id body userId isAdmin db))
  /\ users (snd (updateShipment e id body userId isAdmin db)) = users db.
Proof.
  intros Hc. destruct (shipments db !! id) as [s|] eqn:Hs.
  2:{ unfold updateShipment, mbind, Async_bind, findById. rewrite Hs.
      split; [exact Hc | reflexivity]. }
  destruct (negb isAdmin && negb (bool_decide (createdBy s = userId)))
    eqn:Hguard.
  { unfold updateShipment, mbind, Async_bind, findById. rewrite Hs.
    cbn [fmap option_fmap option_map doc]. rewrite Hguard. split; [exact Hc | reflexivity]. }
  destruct (proj1 Hc id s Hs) as (Hhist & Hdel & Htruthy).
  destruct (updateShipment_run e id body userId isAdmin db s Hs Htruthy
              (guard_canAccess _ _ _ Hguard)) as (s' & p & Hrun & _ & _ & Hs').
  destruct (assignAllowedUpdates_facts body userId id s)
    as (_ & _ & Hprot & Hst & _ & _ & Hms & _).
  cbv zeta in Hs', Hprot, Hst, Hms.
  set (d := assignAllowedUpdates body userId (hydrate id s)) in *.
  unfold protected in Hprot. injection Hprot as Ptn _ Ph _ Pad _.
  destruct (saved_wellFormed e d s') as [Hwf Htn]; [| |exact Hs'|].
  - rewrite Ptn. exact Htruthy.
  - intros Hq. rewrite Hms in Hq. apply negb_false_iff in Hq.
    apply bool_decide_eq_true_1 in Hq. rewrite <- Hst in Hq.
    split.
    + unfold historyCurrent. rewrite Ph, <- Hq. exact Hhist.
    + unfold deliveredHasDate. rewrite Pad, <- Hq. exact Hdel.
  - rewrite Hrun. cbn [snd]. split; [|reflexivity].
    apply (consistent_update db id s s' Hc Hs Hwf). congruence.
Qed.

Lemma storedByUpdateStatus_wellFormed e s req userId notes :
  wellFormed s ->
  wellFormed (storedByUpdateStatus e s req userId notes)
  /\ trackingNumber (storedByUpdateStatus e s req userId notes)
     = trackingNumber s.
Proof.
  intros (Hhist & Hdel & Htruthy).
  destruct (decide (status s = req)) as [<- | Hne].
  - destruct (TransitionFacts.stored_same e s userId notes)
      as (Hst & Hh & Had & _).
    cbv zeta in Hst, Hh, Had.
    assert (Htn : trackingNumber (storedByUpdateStatus e s (status s) userId notes)
                  = trackingNumber s).
    { unfold storedByUpdateStatus.
      rewrite bool_decide_eq_true_2 by reflexivity. reflexivity. }
    split; [|exact Htn]. split; [|split].
    + unfold historyCurrent. rewrite Hh, Hst, fmap_app.
      cbn [fmap list_fmap]. rewrite last_snoc. reflexivity.
    + unfold deliveredHasDate. rewrite Hst, Had. exact Hdel.
    + rewrite Htn. exact Htruthy.
  - destruct (TransitionFacts.stored_changed e s req userId notes Hne)
      as (Hst & Htn & _ & Hh & Had).
    cbv zeta in Hst, Htn, Hh, Had.
    split; [|exact Htn]. split; [|split].
    + unfold historyCurrent. rewrite Hh, Hst, fmap_app, last_app.
      reflexivity.
    + unfold deliveredHasDate. rewrite Hst, Had. intros ->.
      rewrite (bool_decide_eq_true_2 (DELIVERED = DELIVERED)) by reflexivity.
      eexists; reflexivity.
    + rewrite Htn. exact Htruthy.
Qed.

Lemma updateStatus_keeps e id req userId notes isAdmin db :
  consistent db ->
  consistent (snd (updateStatus e id req userId notes isAdmin db))
  /\ users (snd (updateStatus e id req userId notes isAdmin db)) = users db.
Proof.
  intros Hc. destruct (shipments db !! id) as [s|] eqn:Hs.
  2:{ unfold updateStatus, mbind, Async_bind, findById. rewrite Hs.
      split; [exact Hc | reflexivity]. }
  pose proof (proj1 Hc id s Hs) as Hwf.
  destruct (negb isAdmin && negb (bool_decide (createdBy s = userId)))
    eqn:Hguard.
  { rewrite (UpdateStatusFacts.updateStatus_unfold _ _ _ _ _ _ _ _ Hs), Hguard.
    split; [exact Hc | reflexivity]. }
  destruct (validateStatusTransition (status s) req) as [[]|err] eqn:Hval.
  2:{ rewrite (UpdateStatusFacts.updateStatus_unfold _ _ _ _ _ _ _ _ Hs),
        Hguard, Hval. split; [exact Hc | reflexivity]. }
  destruct (UpdateStatusFacts.updateStatus_accepted e id req userId notes
              isAdmin db s Hs Hguard Hval (proj2 (proj2 Hwf)))
    as (p & Hrun & _).
  rewrite Hrun. cbn [snd].
  destruct (storedByUpdateStatus_wellFormed e s req userId notes Hwf)
    as [Hwf' Htn].
  split; [exact (consistent_update db id s _ Hc Hs Hwf' Htn) | reflexivity].
Qed.

Lemma deleteShipment_keeps id userId isAdmin db :
  consistent db ->
  consistent (snd (deleteShipment id userId isAdmin db))
  /\ users (snd (deleteShipment id userId isAdmin db)) = users db.
Proof.
  intros Hc. destruct (shipments db !! id) as [s|] eqn:Hs.
  2:{ unfold deleteShipment, mbind, Async_bind, findById. rewrite Hs.
      split; [exact Hc | reflexivity]. }
  rewrite (AccessSpec.deleteShipment_unfold _ _ _ _ _ Hs).
  destruct (negb isAdmin && negb (bool_decide (createdBy s = userId)));
    [split; [exact Hc | reflexivity]|].
  destruct (negb isAdmin && negb (bool_decide (status s = PENDING))
            && negb (bool_decide (status s = CANCELLED))); [split; [exact Hc | reflexivity]|].
  cbn [snd]. split; [apply consistent_delete, Hc | reflexivity].
Qed.

Lemma addAttachment_keeps e id info userId isAdmin db :
  consistent db ->
  consistent (snd (addAttachment e id info userId isAdmin db))
  /\ users (snd (addAttachment e id info userId isAdmin db)) = users db.
Proof.
  intros Hc. destruct (shipments db !! id) as [s|] eqn:Hs.
  2:{ unfold addAttachment, mbind, Async_bind, findById. rewrite Hs.
      split; [exact Hc | reflexivity]. }
  destruct (negb isAdmin && negb (bool_decide (createdBy s = userId)))
    eqn:Hguard.
  { unfold addAttachment, mbind, Async_bind, findById. rewrite Hs.
    cbn [fmap option_fmap option_map doc]. rewrite Hguard. split; [exact Hc | reflexivity]. }
  pose proof (proj1 Hc id s Hs) as Hwf.
  rewrite (addAttachment_run e id info userId isAdmin db s Hs
             (proj2 (proj2 Hwf)) (guard_canAccess _ _ _ Hguard)).
  cbv zeta. cbn [snd]. split; [|reflexivity].
  apply (consistent_update db id s _ Hc Hs); [exact Hwf | reflexivity].
Qed.

Lemma removeAttachment_keeps e id attachmentId userId isAdmin db :
  consistent db ->
  consistent (snd (removeAttachment e id attachmentId userId isAdmin db))
  /\ users (snd (removeAttachment e id attachmentId userId isAdmin db))
     = users db.
Proof.
  intros Hc. destruct (shipments db !! id) as [s|] eqn:Hs.
  2:{ unfold removeAttachment, mbind, Async_bind, findById. rewrite Hs.
      split; [exact Hc | reflexivity]. }
  destruct (negb isAdmin && negb (bool_decide (createdBy s = userId)))
    eqn:Hguard.
  { unfold removeAttachment, mbind, Async_bind, findById. rewrite Hs.
    cbn [fmap option_fmap option_map doc]. rewrite Hguard. split; [exact Hc | reflexivity]. }
  pose proof (proj1 Hc id s Hs) as Hwf.
  rewrite (removeAttachment_run e id attachmentId userId isAdmin db s Hs
             (proj2 (proj2 Hwf)) (guard_canAccess _ _ _ Hguard)).
  destruct (list_find _ (attachments s)) as [[i a]|];
    [|split; [exact Hc | reflexivity]].
  cbv zeta. cbn [snd]. split; [|reflexivity].
  apply (consistent_update db id s _ Hc Hs); [exact Hwf | reflexivity].
Qed.

Lemma serve_keeps r db :
  generatorAnswers r -> consistent db ->
  consistent (serve r db) /\ users (serve r db) = users db.
Proof.
  intros Hgen Hc. destruct r; cbn [serve].
  - apply createShipment_keeps; [exact Hgen | exact Hc].
  - apply updateShipment_keeps, Hc.
  - apply updateStatus_keeps, Hc.
  - apply deleteShipment_keeps, Hc.
  - apply addAttachment_keeps, Hc.
  - apply removeAttachment_keeps, Hc.
Qed.

End StoreFacts.

(** ** Creating, updating and finding shipments *)

Module ShipmentSpec.
Import ShipmentModel ShipmentStatics ShipmentService Lifecycle Requests.
Import DocumentFacts SaveFacts StoreFacts.





(** X19. Finding by tracking number. When stored tracking numbers are
    pairwise different, a stored shipment is found by its tracking number
    written in any letter case: the authenticated lookup returns it with
    its owner populated, the public one the selected fields of it, and
    neither writes anything. *)
Theorem tracking_round_trip
    (db : Db) (id : ObjectId) (s : Shipment) (v : string)
    (Hunique : trackingUnique db)
    (Hstored : shipments db !! id = Some s)
    (Hnumber : JsString.toUpperCase v = trackingNumber s) :
  getShipmentByTrackingNumber v db
  = (Ok {| shipment_id := id; shipment := s;
           populatedCreatedBy := populateUser db (createdBy s);
           populatedChangedBy := None |}, db)
  /\ trackShipment v db = (Ok (select trackFields (toObject id s)), db)
  /\ forall w,
       JsString.toUpperCase w = JsString.toUpperCase v ->
       getShipmentByTrackingNumber w db = getShipmentByTrackingNumber v db
       /\ trackShipment w db = trackShipment v db.
Proof.
  assert (Hget : forall w,
            JsString.toUpperCase w = trackingNumber s ->
            getShipmentByTrackingNumber w db
            = (Ok {| shipment_id := id; shipment := s;
                     populatedCreatedBy := populateUser db (createdBy s);
                     populatedChangedBy := None |}, db)
            /\ trackShipment w db
               = (Ok (select trackFields (toObject id s)), db)).
  { intros w Hw.
    unfold getShipmentByTrackingNumber, trackShipment, mbind, Async_bind.
    rewrite (findByTrackingNumber_found db id s w Hunique Hstored Hw).
    split; reflexivity. }
  destruct (Hget v Hnumber) as [H1 H2].
  split; [exact H1|]. split; [exact H2|].
  intros w Hw. rewrite Hnumber in Hw. destruct (Hget w Hw) as [H3 H4].
  rewrite H1, H2, H3, H4. split; reflexivity.
Qed.

Lemma tracking_round_trip_witness :
  trackingUnique Example.db_pending
  /\ shipments Example.db_pending !! "s1" = Some Example.pending_s1
  /\ JsString.toUpperCase "shp-lx2k9-s1" = trackingNumber Example.pending_s1
  /\ trackShipment "shp-lx2k9-s1" Example.db_pending
     = (Ok (select trackFields (toObject "s1" Example.pending_s1)),
        Example.db_pending).
Proof.
  assert (Hs : shipments Example.db_pending !! "s1"
               = Some Example.pending_s1) by (vm_compute; reflexivity).
  assert (Hall : shipments Example.db_pending
                 = {[ "s1" := Example.pending_s1 ]})
    by (vm_compute; reflexivity).
  assert (Hu : trackingUnique Example.db_pending).
  { intros k1 k2 s1 s2 H1 H2 _. rewrite Hall in H1, H2.
    apply lookup_singleton_Some in H1, H2.
    destruct H1 as [<- _], H2 as [<- _]. reflexivity. }
  split; [exact Hu|]. split; [exact Hs|]. split; [reflexivity|].
  destruct (tracking_round_trip Example.db_pending "s1" Example.pending_s1
              "shp-lx2k9-s1" Hu Hs eq_refl) as (_ & Htrack & _).
  exact Htrack.
Defined.

(** X20. Attachments. For an actor who may touch a stored shipment,
    adding an attachment appends it, with the id and upload time it is
    given, and changes nothing else but [updatedBy] and [updatedAt];
    removing it again by that id, when no earlier attachment has the
    same id, gives back the attachment list there was. Removing an id no
    attachment has fails with the 404 "Attachment not found" and writes
    nothing. *)
Theorem attachment_round_trip
    (e e' : Env) (id : ObjectId) (info : AttachmentInfo)
    (userId : ObjectId) (isAdmin : bool) (db : Db) (s : Shipment)
    (Hstored : shipments db !! id = Some s)
    (Htracking : JsString.truthy (trackingNumber s) = true)
    (Haccess : canAccess isAdmin userId s)
    (Hfresh : Forall (fun a => att_id a <> newSubdocId e 0) (attachments s)) :
  let added := mkAttachment (newSubdocId e 0) (now e) info in
  let s1 :=
    withTimestamps (createdAt s) (now e)
      (withUpdatedBy (Some userId)
         (withAttachments (attachments s ++ [added]) s)) in
  let db1 := withShipments (<[id := s1]> (shipments db)) db in
  let s2 :=
    withTimestamps (createdAt s) (now e')
      (withUpdatedBy (Some userId) (withAttachments (attachments s) s)) in
  addAttachment e id info userId isAdmin db = (Ok s1, db1)
  /\ removeAttachment e' id (newSubdocId e 0) userId isAdmin db1
     = (Ok s2, withShipments (<[id := s2]> (shipments db)) db)
  /\ attachments s2 = attachments s
  /\ forall unknown,
       Forall (fun a => att_id a <> unknown) (attachments s) ->
       removeAttachment e id unknown userId isAdmin db
       = (Throw (HttpError "Attachment not found" 404), db).
Proof.
  cbv zeta.
  set (added := mkAttachment (newSubdocId e 0) (now e) info).
  set (s1 := withTimestamps (createdAt s) (now e) _).
  split; [apply addAttachment_run; assumption|].
  split; [|split; [reflexivity|]].
  - assert (Hs1 : shipments (withShipments (<[id := s1]> (shipments db)) db)
                    !! id = Some s1)
      by (cbn [shipments withShipments]; apply lookup_insert_eq).
    rewrite (removeAttachment_run e' id (newSubdocId e 0) userId isAdmin _ s1
               Hs1 Htracking Haccess).
    assert (Hfind : list_find (fun att => att_id att = newSubdocId e 0)
                      (attachments s1)
                    = Some (length (attachments s), added)).
    { cbn [s1 attachments withTimestamps withUpdatedBy withAttachments].
      apply list_find_Some. split.
      - rewrite lookup_app_r by apply Nat.le_refl.
        rewrite Nat.sub_diag. reflexivity.
      - split; [reflexivity|]. intros j a Hj Hlt.
        rewrite lookup_app_l in Hj by exact Hlt.
        rewrite Forall_forall in Hfresh. apply Hfresh.
        apply list_elem_of_lookup_2 in Hj. exact Hj. }
    rewrite Hfind. cbv zeta.
    cbn [s1 attachments createdAt withTimestamps withUpdatedBy
         withAttachments shipments withShipments users].
    assert (Hdel : delete (length (attachments s)) (attachments s ++ [added])
                   = attachments s).
    { rewrite delete_take_drop, take_app_length.
      rewrite drop_ge by (rewrite length_app; cbn; lia).
      apply app_nil_r. }
    rewrite Hdel, insert_insert_eq. reflexivity.
  - intros unknown Hunknown.
    rewrite (removeAttachment_run e id unknown userId isAdmin db s
               Hstored Htracking Haccess).
    rewrite (proj2 (list_find_None _ _)); [reflexivity|].
    exact Hunknown.
Qed.

Lemma attachment_round_trip_witness :
  let info :=
    {| info_filename := "label-1.pdf"; info_originalName := "label.pdf";
       info_path := "uploads/label-1.pdf";
       info_mimetype := "application/pdf"; info_size := 1024 |} in
  shipments Example.db_pending !! "s1" = Some Example.pending_s1
  /\ canAccess false "u1" Example.pending_s1
  /\ Forall (fun a => att_id a <> newSubdocId (Example.env 200 "a1") 0)
       (attachments Example.pending_s1)
  /\ isOk (fst (addAttachment (Example.env 200 "a1") "s1" info "u1" false
                  Example.db_pending)) = true.
Proof.
  intros info.
  assert (Hs : shipments Example.db_pending !! "s1"
               = Some Example.pending_s1) by (vm_compute; reflexivity).
  assert (Hacc : canAccess false "u1" Example.pending_s1)
    by (right; reflexivity).
  assert (Hfresh : Forall
            (fun a => att_id a <> newSubdocId (Example.env 200 "a1") 0)
            (attachments Example.pending_s1)) by apply Forall_nil_2.
  split; [exact Hs|]. split; [exact Hacc|]. split; [exact Hfresh|].
  destruct (attachment_round_trip (Example.env 200 "a1")
              (Example.env 300 "x") "s1" info "u1" false Example.db_pending
              Example.pending_s1 Hs eq_refl Hacc Hfresh) as (Hadd & _).
  rewrite Hadd. reflexivity.
Defined.

(** X21. Missing shipments. Reading, updating, changing the status of,
    deleting, or adding an attachment to or removing one from an id that
    is not stored fails with the 404 "Shipment not found" and writes
    nothing, for admins as for everybody else; so do the two lookups by a
    tracking number no stored shipment has. *)
Theorem missing_shipment_not_found
    (e : Env) (id userId : ObjectId) (reader : option string)
    (isAdmin : bool) (body : UpdateData) (req : SHIPMENT_STATUS)
    (notes : option string) (info : AttachmentInfo) (attachmentId : string)
    (db : Db)
    (Hmissing : shipments db !! id = None) :
  let notFound {A} : Result A * Db :=
    (Throw (HttpError "Shipment not found" 404), db) in
  getShipmentById id reader isAdmin db = notFound
  /\ updateShipment e id body userId isAdmin db = notFound
  /\ updateStatus e id req userId notes isAdmin db = notFound
  /\ deleteShipment id userId isAdmin db = notFound
  /\ addAttachment e id info userId isAdmin db = notFound
  /\ removeAttachment e id attachmentId userId isAdmin db = notFound
  /\ forall v,
       (forall k s0,
          shipments db !! k = Some s0 ->
          trackingNumber s0 <> JsString.toUpperCase v) ->
       getShipmentByTrackingNumber v db = notFound
       /\ trackShipment v db = notFound.
Proof.
  cbv zeta.
  unfold getShipmentById, updateShipment, updateStatus, deleteShipment,
    addAttachment, removeAttachment, mbind, Async_bind, findById.
  rewrite Hmissing. cbn [fmap option_fmap option_map].
  do 6 (split; [reflexivity|]).
  intros v Hnone.
  unfold getShipmentByTrackingNumber, trackShipment, mbind, Async_bind.
  rewrite (findByTrackingNumber_missing db v Hnone). split; reflexivity.
Qed.

Lemma missing_shipment_not_found_witness :
  shipments Example.db_pending !! "s9" = None
  /\ deleteShipment "s9" "u3" true Example.db_pending
     = (Throw (HttpError "Shipment not found" 404), Example.db_pending).
Proof.
  assert (Hm : shipments Example.db_pending !! "s9" = None)
    by (vm_compute; reflexivity).
  split; [exact Hm|].
  destruct (missing_shipment_not_found (Example.env 200 "x") "s9" "u3" None
              true (Example.setStatusOnly CANCELLED) CANCELLED None
              {| info_filename := "a"; info_originalName := "a";
                 info_path := "a"; info_mimetype := "a"; info_size := 1 |}
              "a1" Example.db_pending Hm)
    as (_ & _ & _ & Hdel & _).
  exact Hdel.
Defined.

(** X22. The stored shipments under any sequence of calls. Creating,
    updating, changing the status, deleting, adding and removing
    attachments, in any order, by anybody and with any outcome, keep
    every stored shipment such that the last entry of its status history
    names its current status, a delivered shipment has its delivery date,
    and its tracking number is not empty, and keep the stored tracking
    numbers pairwise different; provided the tracking-number generator
    answers a non-empty string at each create. *)
Theorem shipments_stay_consistent
    (rs : list ShipmentRequest) (db : Db)
    (Hgenerator : Forall generatorAnswers rs)
    (Hconsistent : consistent db) :
  consistent (serveAll rs db)
  /\ users (serveAll rs db) = users db.
Proof.
  unfold serveAll. revert db Hconsistent.
  induction Hgenerator as [|r rs Hr Hrs IH]; intros db Hc; cbn [foldl];
    [split; [exact Hc | reflexivity]|].
  destruct (serve_keeps r db Hr Hc) as [Hc' Hu].
  destruct (IH (serve r db) Hc') as [H1 H2].
  split; [exact H1|]. rewrite H2. exact Hu.
Qed.

Lemma shipments_stay_consistent_witness :
  let rs :=
    [Create (Example.env 100 "s1") Example.parcel "u1";
     Create (Example.env 110 "s1") Example.parcel "u2";
     SetStatus (Example.env 200 "x") "s1" IN_TRANSIT "u1" None false;
     Update (Example.env 300 "x") "s1" (Example.setStatusOnly DELIVERED)
       "u1" false;
     Delete "s1" "u3" true] in
  Forall generatorAnswers rs
  /\ consistent Example.db_users
  /\ consistent (serveAll rs Example.db_users).
Proof.
  intros rs.
  assert (Hgen : Forall generatorAnswers rs).
  { repeat (apply Forall_cons; split; [first [reflexivity | exact I]|]).
    apply Forall_nil_2. }
  assert (Hnone : shipments Example.db_users = ∅) by reflexivity.
  assert (Hc : consistent Example.db_users).
  { split.
    - intros id s Hs. rewrite Hnone, lookup_empty in Hs. discriminate.
    - intros k1 k2 s1 s2 H1. rewrite Hnone, lookup_empty in H1.
      discriminate. }
  split; [exact Hgen|]. split; [exact Hc|].
  apply (shipments_stay_consistent rs Example.db_users Hgen Hc).
Defined.

End ShipmentSpec.

(** ** Who may read and write a shipment *)

Module AccessRules.
Import ShipmentModel ShipmentStatics ShipmentService Lifecycle.

(** X23. The access rule, for a stored shipment whose owner's account
    exists. The owner and any admin read the shipment by id, with its
    owner and the authors of its history populated. Anybody else is
    refused with the 403 "You do not have access to this shipment" by the
    read and by every write (update, status change, delete, adding and
    removing an attachment), and nothing is written. *)
Theorem access_rule
    (e : Env) (id userId : ObjectId) (isAdmin : bool) (db : Db)
    (s : Shipment) (owner : PopulatedUser) (body : UpdateData)
    (req : SHIPMENT_STATUS) (notes : option string) (info : AttachmentInfo)
    (attachmentId : string)
    (Hstored : shipments db !! id = Some s)
    (Howner : populateUser db (createdBy s) = Some owner)
    (Hactor : JsString.truthy userId = true) :
  (canAccess isAdmin userId s ->
   getShipmentById id (Some userId) isAdmin db
   = (Ok {| shipment_id := id; shipment := s;
            populatedCreatedBy := Some owner;
            populatedChangedBy :=
              Some ((fun h => populateUser db (changedBy h))
                      <$> statusHistory s) |}, db))
  /\ (~ canAccess isAdmin userId s ->
      let refused {A} : Result A * Db :=
        (Throw (HttpError "You do not have access to this shipment" 403),
         db) in
      getShipmentById id (Some userId) isAdmin db = refused
      /\ updateShipment e id body userId isAdmin db = refused
      /\ updateStatus e id req userId notes isAdmin db = refused
      /\ deleteShipment id userId isAdmin db = refused
      /\ addAttachment e id info userId isAdmin db = refused
      /\ removeAttachment e id attachmentId userId isAdmin db = refused).
Proof.
  pose proof (AccessSpec.getShipmentById_rule id userId isAdmin db s owner
                Hstored Howner Hactor) as Hread.
  split.
  - intros Hacc. rewrite Hread.
    rewrite (TransitionFacts.canAccess_guard _ _ _ Hacc). reflexivity.
  - intros Hno. cbv zeta.
    assert (Hadmin : isAdmin = false).
    { destruct isAdmin; [|reflexivity]. exfalso. apply Hno. left.
      reflexivity. }
    assert (Hne : createdBy s <> userId)
      by (intros Heq; apply Hno; right; exact Heq).
    subst isAdmin.
    destruct (AccessSpec.stranger_forbidden e id userId db s body req notes
                info attachmentId Hstored Hne) as (H1 & H2 & H3 & H4 & H5).
    cbv zeta in H1, H2, H3, H4, H5.
    split; [|repeat split; assumption].
    rewrite Hread. cbn [negb andb].
    rewrite (bool_decide_eq_false_2 _ Hne). reflexivity.
Qed.

Lemma access_rule_witness :
  let owner :=
    {| pop_id := "u1"; pop_name := "Alice";
       pop_email := "alice@example.com" |} in
  shipments Example.db_pending !! "s1" = Some Example.pending_s1
  /\ populateUser Example.db_pending (createdBy Example.pending_s1)
     = Some owner
  /\ ~ canAccess false "u2" Example.pending_s1
  /\ deleteShipment "s1" "u2" false Example.db_pending
     = (Throw (HttpError "You do not have access to this shipment" 403),
        Example.db_pending).
Proof.
  intros owner.
  assert (Hs : shipments Example.db_pending !! "s1"
               = Some Example.pending_s1) by (vm_compute; reflexivity).
  assert (Ho : populateUser Example.db_pending
                 (createdBy Example.pending_s1) = Some owner)
    by (vm_compute; reflexivity).
  assert (Hno : ~ canAccess false "u2" Example.pending_s1)
    by (intros [H | H]; discriminate).
  split; [exact Hs|]. split; [exact Ho|]. split; [exact Hno|].
  destruct (access_rule (Example.env 200 "x") "s1" "u2" false
              Example.db_pending Example.pending_s1 owner
              (Example.setStatusOnly CANCELLED) CANCELLED None
              {| info_filename := "a"; info_originalName := "a";
                 info_path := "a"; info_mimetype := "a"; info_size := 1 |}
              "a1" Hs Ho eq_refl) as (_ & Hrefused).
  destruct (Hrefused Hno) as (_ & _ & _ & Hdel & _).
  exact Hdel.
Defined.

End AccessRules.

(** ** Reading a profile back *)

Module ProfileReads.
Import UserModel UserService UserAccount Accounts.

(** Overwriting a stored user does not change what another [_id] finds. *)
Lemma lookupById_insert_other other (us : list User) (i : nat) u u' :
  us !! i = Some u -> _id u <> other -> _id u' <> other ->
  lookupById other (<[i := u']> us) = lookupById other us.
Proof.
  intros Hi Hu Hu'. unfold lookupById.
  destruct (list_find (fun x => _id x = other) us) as [[j x]|] eqn:Hfind.
  - apply list_find_Some in Hfind. destruct Hfind as (Hj & Hx & Hmin).
    assert (Hne : i <> j).
    { intros ->. rewrite Hi in Hj. injection Hj as ->. exact (Hu Hx). }
    apply list_find_Some. split.
    + rewrite list_lookup_insert_ne by exact Hne. exact Hj.
    + split; [exact Hx|]. intros k y Hk Hlt.
      destruct (decide (i = k)) as [-> | Hik].
      * rewrite list_lookup_insert_eq in Hk
          by (apply lookup_lt_Some in Hi; exact Hi).
        injection Hk as <-. exact Hu'.
      * rewrite list_lookup_insert_ne in Hk by exact Hik.
        exact (Hmin k y Hk Hlt).
  - apply list_find_None in Hfind. apply list_find_None.
    apply Forall_insert; assumption.
Qed.

(** X24. getProfile after a profile update. An update that went through
    is read back: getProfile with the same id answers the user the update
    answered, and for every other id it answers what it answered
    before. *)
Theorem getProfile_reads_back
    (e : Env) (userId : IdArg) (body : ProfileData) (db db' : Db)
    (u' : User)
    (Hupdated : updateProfile e userId body db = (Ok u', db')) :
  getProfile (castId userId) db' = (Ok u', db')
  /\ forall other,
       other <> castId userId ->
       fst (getProfile other db') = fst (getProfile other db).
Proof.
  rewrite ProfileSpec.updateProfile_unfold in Hupdated.
  destruct (match prof_email body with Some _ => _ | None => _ end);
    [discriminate|].
  unfold updateByIdIndexed in Hupdated.
  destruct (lookupById (castId userId) (users db)) as [[i u]|] eqn:Hfind;
    [|discriminate].
  destruct (ProfileSpec.lookupById_Some _ _ _ _ Hfind) as [Hi Hid].
  destruct (ProfileSpec.applyAllowedUpdates_fields body u) as (Hid' & _).
  set (u1 := withUpdatedAt (now e) (applyAllowedUpdates body u)) in *.
  destruct (negb (bool_decide (email u1 = email u)) && existsb _ (users db));
    [discriminate|].
  injection Hupdated as <- <-.
  assert (Hid1 : _id u1 = castId userId).
  { unfold u1. cbn [_id withUpdatedAt]. rewrite Hid'. exact Hid. }
  split.
  - unfold getProfile, findById. cbn [users withUsers].
    rewrite (ProfileSpec.lookupById_insert _ _ _ _ u1 Hfind Hid1).
    reflexivity.
  - intros other Hother. unfold getProfile, findById. cbn [users withUsers].
    rewrite (lookupById_insert_other other (users db) i u u1 Hi);
      [|congruence..].
    destruct (lookupById other (users db)) as [[j x]|]; reflexivity.
Qed.

Lemma getProfile_reads_back_witness :
  let body :=
    {| prof_password := Some "ignored"; prof_role := Some ADMIN;
       prof_isActive := Some true; prof_name := Some "  Alice B. ";
       prof_email := None |} in
  let u' := withUpdatedAt 50 (withName "Alice B." Example.alice_inactive) in
  let db' :=
    snd (updateProfile (Example.env 50 "x") (IdObject "u1") body
           Example.db_deactivated) in
  updateProfile (Example.env 50 "x") (IdObject "u1") body
    Example.db_deactivated = (Ok u', db')
  /\ getProfile "u1" db' = (Ok u', db').
Proof.
  intros body u' db'.
  assert (Hrun : updateProfile (Example.env 50 "x") (IdObject "u1") body
                   Example.db_deactivated = (Ok u', db'))
    by (vm_compute; reflexivity).
  split; [exact Hrun|].
  destruct (getProfile_reads_back (Example.env 50 "x") (IdObject "u1") body
              Example.db_deactivated db' u' Hrun) as (Hread & _).
  exact Hread.
Defined.

(** X25. Tokens follow the account. For a stored user (ids being
    unique) and a token that verifies to the user's id: once the user is
    deactivated the token is refused with the 401 "Invalid or expired
    token"; activated again, the token gives the user, active; once the
    user is deleted the token is refused with the same 401 and getProfile
    fails with the 404 "User not found". *)
Theorem token_follows_account
    (jwt_verify : string -> option ObjectId) (token : string)
    (e e' : Env) (uid : ObjectId) (db : Db) (i : nat) (u : User)
    (Hids : idsUnique db)
    (Hstored : lookupById uid (users db) = Some (i, u))
    (Htoken : jwt_verify token = Some uid) :
  let invalid := HttpError "Invalid or expired token" 401 in
  let off := snd (deactivateUser e uid db) in
  let on := snd (activateUser e' uid off) in
  let gone := snd (deleteUser uid db) in
  verifyTokenAndGetUser jwt_verify token off = (Throw invalid, off)
  /\ (exists u',
        verifyTokenAndGetUser jwt_verify token on = (Ok u', on)
        /\ _id u' = uid /\ isActive u' = true
        /\ email u' = email u /\ role u' = role u)
  /\ verifyTokenAndGetUser jwt_verify token gone = (Throw invalid, gone)
  /\ getProfile uid gone = (Throw (HttpError "User not found" 404), gone).
Proof.
  cbv zeta.
  destruct (ProfileSpec.lookupById_Some _ _ _ _ Hstored) as [Hi Hid].
  unfold deactivateUser, activateUser, updateById, deleteUser, deleteById.
  rewrite Hstored. cbn [snd users withUsers].
  set (u1 := withUpdatedAt (now e) (withIsActive false u)).
  assert (H1 : lookupById uid (<[i := u1]> (users db)) = Some (i, u1))
    by (apply (ProfileSpec.lookupById_insert _ _ _ u u1 Hstored); exact Hid).
  rewrite H1. cbn [snd users withUsers].
  set (u2 := withUpdatedAt (now e') (withIsActive true u1)).
  assert (H2 : lookupById uid (<[i := u2]> (<[i := u1]> (users db)))
               = Some (i, u2))
    by (apply (ProfileSpec.lookupById_insert _ _ _ u1 u2 H1); exact Hid).
  pose proof (ProfileSpec.lookupById_delete uid (users db) i u Hids Hstored)
    as H3.
  unfold verifyTokenAndGetUser, getProfile, findById.
  rewrite Htoken. cbn [users withUsers]. rewrite H1, H2, H3.
  split; [reflexivity|]. split; [|split; reflexivity].
  exists u2. split; [reflexivity|]. split; [exact Hid|].
  repeat split; reflexivity.
Qed.

Lemma token_follows_account_witness :
  let u := withUpdatedAt 10 (withIsActive true Example.alice_inactive) in
  idsUnique Example.db_users
  /\ lookupById "u1" (users Example.db_users) = Some (0%nat, u)
  /\ verifyTokenAndGetUser (fun _ => Some "u1") "any"
       (snd (deactivateUser (Example.env 40 "x") "u1" Example.db_users))
     = (Throw (HttpError "Invalid or expired token" 401),
        snd (deactivateUser (Example.env 40 "x") "u1" Example.db_users)).
Proof.
  intros u.
  assert (Hids : idsUnique Example.db_users).
  { unfold idsUnique. apply (bool_decide_unpack _). vm_compute. exact I. }
  assert (Hs : lookupById "u1" (users Example.db_users) = Some (0%nat, u))
    by (vm_compute; reflexivity).
  split; [exact Hids|]. split; [exact Hs|].
  destruct (token_follows_account (fun _ => Some "u1") "any"
              (Example.env 40 "x") (Example.env 60 "x") "u1"
              Example.db_users 0%nat u Hids Hs eq_refl) as (Hoff & _).
  exact Hoff.
Defined.

End ProfileReads.
